(** * Rhapsody24 control server: the switch-toggle fan-out subsystem

    A shallow embedding of [services/switchboard_api_service.py] together
    with the accessors of [crud/switch_crud.py] and
    [crud/switchboard_crud.py] it calls, and the rows of
    [database/models.py] they read and write; then the writers of the two
    stores and the lock and toggle routes of [routes/switch_routes.py].

    - Python exceptions are an error monad ([Py.result]); code that also
      commits to the database threads the session ([Py.M]).
    - A Python [dict] is an association list in insertion order, updated
      in place ([Py.dict_set]): iteration order decides the order of the
      dispatches and of the reconciliation.
    - The HTTP client is an oracle [post]; every POST attempted is
      logged.
    - A query by id binds the id as a signed 64-bit integer: for an id
      outside that range, which no row has, the driver raises
      [OverflowError]. *)

From Stdlib Require Import ZArith String List Bool Lia DecimalString Permutation.
Import ListNotations.

Open Scope string_scope.
Open Scope Z_scope.

(** ** Python values, exceptions and containers *)

Module Py.

Inductive exn : Type :=
| HTTPException (status_code : Z) (detail : string)
| IndexError
| ValueError
| TypeError
| AttributeError
| OverflowError.

Inductive result (A : Type) : Type :=
| Ok (a : A)
| Raise (e : exn).
Arguments Ok {A} a.
Arguments Raise {A} e.

Definition bind {A B} (r : result A) (k : A -> result B) : result B :=
  match r with
  | Ok a => k a
  | Raise e => Raise e
  end.

(** Code running against a session that it may modify.  The session is
    returned on both outcomes: what was committed before an exception
    stays committed. *)
Definition M (S A : Type) : Type := S -> S * result A.

Definition ret {S A} (a : A) : M S A := fun s => (s, Ok a).
Definition throw {S A} (e : exn) : M S A := fun s => (s, Raise e).
Definition lift {S A} (r : result A) : M S A := fun s => (s, r).
Definition read {S A} (f : S -> result A) : M S A := fun s => (s, f s).
Definition mbind {S A B} (m : M S A) (k : A -> M S B) : M S B :=
  fun s =>
    match m s with
    | (s', Ok a) => k a s'
    | (s', Raise e) => (s', Raise e)
    end.

(** [str(i)] for an [int]. *)
Definition str (i : Z) : string := NilZero.string_of_int (Z.to_int i).

(** [str(x)] for a nullable string column, as an f-string formats it. *)
Definition str_opt (x : option string) : string :=
  match x with
  | Some s => s
  | None => "None"
  end.

(** [l[i]]: a negative index counts from the end; out of range raises. *)
Definition getitem {A} (l : list A) (i : Z) : result A :=
  let n := Z.of_nat (length l) in
  let j := if i <? 0 then i + n else i in
  if (j <? 0) || (n <=? j) then Raise IndexError
  else match nth_error l (Z.to_nat j) with
       | Some a => Ok a
       | None => Raise IndexError
       end.

(** [l.index(x)]: the first position of [x], or [ValueError]. *)
Fixpoint index_from (l : list string) (x : string) (i : Z) : result Z :=
  match l with
  | [] => Raise ValueError
  | y :: l' => if String.eqb y x then Ok i else index_from l' x (i + 1)
  end.

Definition index (l : list string) (x : string) : result Z :=
  index_from l x 0.

(** A [dict] with [str] keys, in insertion order. *)
Abbreviation dict V := (list (string * V)%type) (only parsing).

Fixpoint dict_get {V} (d : dict V) (k : string) : option V :=
  match d with
  | [] => None
  | (k', v) :: d' => if String.eqb k' k then Some v else dict_get d' k
  end.

(** [d[k] = v]: an existing key keeps its place, a new one goes last. *)
Fixpoint dict_set {V} (d : dict V) (k : string) (v : V) : dict V :=
  match d with
  | [] => [(k, v)]
  | (k', v') :: d' =>
      if String.eqb k' k then (k', v) :: d' else (k', v') :: dict_set d' k v
  end.

Definition keys {V} (d : dict V) : list string := map fst d.

(** [l.append(x)]. *)
Definition append {A} (l : list A) (x : A) : list A := (l ++ [x])%list.

End Py.

Import Py.

Declare Scope py_scope.
Delimit Scope py_scope with py.
Notation "x <- r ;; k" := (Py.bind r (fun x => k))
  (at level 61, r at next level, right associativity) : py_scope.
Notation "x <~ m ;; k" := (Py.mbind m (fun x => k))
  (at level 61, m at next level, right associativity) : py_scope.
Open Scope py_scope.

(** ** database/models.py *)

Module Switchboard.
Record t : Type := Build
  { id : string;
    name : string;
    ip_address : string;
    project_id : option Z }.
End Switchboard.

Module Switch.
(** [switchboard_id] is a nullable foreign key. *)
Record t : Type := Build
  { id : Z;
    name : string;
    position : Z;
    state : bool;
    locked : bool;
    switchboard_id : option string }.

Definition with_state (s : t) (b : bool) : t :=
  {| id := id s; name := name s; position := position s; state := b;
     locked := locked s; switchboard_id := switchboard_id s |}.

Definition with_locked (s : t) (l : bool) : t :=
  {| id := id s; name := name s; position := position s; state := state s;
     locked := l; switchboard_id := switchboard_id s |}.
End Switch.

(** The tables a [Session] gives access to, rows in storage order;
    [.first()] is the first row of the table that passes the filter. *)
Record Session : Type :=
  { switchboards : list Switchboard.t;
    switchs : list Switch.t }.

Definition opt_eqb (a : option string) (b : string) : bool :=
  match a with
  | Some x => String.eqb x b
  | None => false
  end.

(** ** schemas/switch_schema.py *)

Module switch_schema.
(** [switchs: dict[int, bool]], in iteration order. *)
Record ToggleSwitchsRequest : Type :=
  { switchs : list (Z * bool) }.

Module SwitchCreate.
Record t : Type := Build
  { name : string;
    position : Z;
    state : bool;
    locked : bool;
    switchboard_id : string }.
End SwitchCreate.

(** A field of a partial update as pydantic keeps it: absent from the
    request ([exclude_unset] drops it), or given, possibly as [null]. *)
Inductive field (A : Type) : Type :=
| Unset
| Given (v : option A).
Arguments Unset {A}.
Arguments Given {A} v.

Module SwitchUpdate.
Record t : Type := Build
  { name : field string;
    position : field Z;
    state : field bool;
    locked : field bool;
    switchboard_id : field string }.
End SwitchUpdate.

Module LockSwitchRequest.
(** [switchs: dict[int, bool]], in iteration order. *)
Record t : Type := Build
  { switchs : list (Z * bool) }.
End LockSwitchRequest.

End switch_schema.

(** ** schemas/switchboard_schema.py *)

Module switchboard_schema.

Module SwitchboardCreate.
Record t : Type := Build
  { id : string;
    name : string;
    ip_address : string;
    project_id : Z }.
End SwitchboardCreate.

Module SwitchboardUpdate.
Record t : Type := Build
  { name : option string;
    ip_address : option string;
    project_id : option Z }.
End SwitchboardUpdate.

End switchboard_schema.

(** ** crud/switchboard_crud.py *)

Module switchboard_crud.

(** Annotated [Optional[Switchboard]], but an absent row raises 404:
    [None] is never returned. *)
Definition get_switchboard (db : Session) (switchboard_id : option string)
  : result (option Switchboard.t) :=
  let db_switchboard :=
    match switchboard_id with
    | Some i => find (fun b => String.eqb (Switchboard.id b) i) (switchboards db)
    | None => None
    end in
  match db_switchboard with
  | None => Raise (HTTPException 404 "Switchboard not found")
  | Some b => Ok (Some b)
  end.


Section Commit.

(** What [db.commit()] does with the pending session: [None] when it is
    accepted, the text of the exception when a constraint of the engine
    that the tables here do not show (the foreign key to projects)
    rejects it. *)
Variable commit_error : Session -> option string.

(** The primary key makes the insert of an id already present fail. *)
Definition create_switchboard
    (switchboard : switchboard_schema.SwitchboardCreate.t)
  : M Session Switchboard.t :=
  fun db =>
    let db_switchboard :=
      Switchboard.Build
        (switchboard_schema.SwitchboardCreate.id switchboard)
        (switchboard_schema.SwitchboardCreate.name switchboard)
        (switchboard_schema.SwitchboardCreate.ip_address switchboard)
        (Some (switchboard_schema.SwitchboardCreate.project_id switchboard)) in
    let pending :=
      {| switchboards := (switchboards db ++ [db_switchboard])%list;
         switchs := switchs db |} in
    if existsb (fun b => String.eqb (Switchboard.id b)
                           (Switchboard.id db_switchboard))
         (switchboards db)
    then (db, Raise (HTTPException 500 "Something went wrong"))
    else
      match commit_error pending with
      | Some _ => (db, Raise (HTTPException 500 "Something went wrong"))
      | None => (pending, Ok db_switchboard)
      end.

(** [setattr] for every field of the update that is not [None]. *)
Definition patched (b : Switchboard.t)
    (u : switchboard_schema.SwitchboardUpdate.t) : Switchboard.t :=
  {| Switchboard.id := Switchboard.id b;
     Switchboard.name :=
       match switchboard_schema.SwitchboardUpdate.name u with
       | Some v => v
       | None => Switchboard.name b
       end;
     Switchboard.ip_address :=
       match switchboard_schema.SwitchboardUpdate.ip_address u with
       | Some v => v
       | None => Switchboard.ip_address b
       end;
     Switchboard.project_id :=
       match switchboard_schema.SwitchboardUpdate.project_id u with
       | Some v => Some v
       | None => Switchboard.project_id b
       end |}.

Definition update_switchboard (switchboard_id : string)
    (switchboard_update : option switchboard_schema.SwitchboardUpdate.t)
  : M Session (option Switchboard.t) :=
  fun db =>
    match find (fun b => String.eqb (Switchboard.id b) switchboard_id)
            (switchboards db) with
    | None => (db, Raise (HTTPException 404 "Switchboard not found"))
    | Some db_switchboard =>
        match switchboard_update with
        | None => (db, Raise (HTTPException 400 "Bad request. No data provided"))
        | Some u =>
            let db_switchboard := patched db_switchboard u in
            let pending :=
              {| switchboards :=
                   map (fun b => if String.eqb (Switchboard.id b) switchboard_id
                                 then db_switchboard else b)
                       (switchboards db);
                 switchs := switchs db |} in
            match commit_error pending with
            | None => (pending, Ok (Some db_switchboard))
            | Some e =>
                (db, Raise (HTTPException 500 ("Something went wrong: " ++ e)))
            end
        end
    end.

End Commit.

End switchboard_crud.

(** ** crud/switch_crud.py *)

Module switch_crud.

(** Whether an [int] fits the signed 64-bit INTEGER of a key. *)
Definition in_int64 (i : Z) : bool :=
  (-9223372036854775808 <=? i) && (i <=? 9223372036854775807).

(** [db.query(Switch).filter_by(id=switch_id).first()], the query that
    every access by id below makes.  An [int] outside the signed 64-bit
    range cannot be bound to the statement: the driver raises
    [OverflowError].  The keys of the table are within the range, so
    this happens only for an id that no row has. *)
Definition get_switch_by_id (db : Session) (switch_id : Z)
  : result (option Switch.t) :=
  match find (fun s => Switch.id s =? switch_id) (switchs db) with
  | Some db_switch => Ok (Some db_switch)
  | None => if in_int64 switch_id then Ok None else Raise OverflowError
  end.

Definition get_switch (db : Session) (switch_id : option Z)
    (switchboard_id : option string) (position : option Z)
  : result (option Switch.t) :=
  match switch_id with
  | Some i => get_switch_by_id db i
  | None =>
      match switchboard_id, position with
      | Some b, Some p =>
          Ok (find (fun s => opt_eqb (Switch.switchboard_id s) b
                             && (Switch.position s =? p)) (switchs db))
      | _, _ =>
          Raise (HTTPException 400
            "Bad request. You must provide a switch_id or a switchboard_id and a switch_position.")
      end
  end.

(** The flush of [db_switch.state = state]:
    [UPDATE switchs SET state = ? WHERE switchs.id = ?]. *)
Definition update_state (rows : list Switch.t) (switch_id : Z) (state : bool)
  : list Switch.t :=
  map (fun r => if Switch.id r =? switch_id
                then Switch.with_state r state else r) rows.

(** [db.commit()] is taken to succeed (no 500). *)
Definition toggle (switch_id : Z) (state : bool) : M Session Switch.t :=
  fun db =>
    match get_switch_by_id db switch_id with
    | Raise e => (db, Raise e)
    | Ok None =>
        (db, Raise (HTTPException 404
               ("Switch with ID " ++ str switch_id ++ " not found.")))
    | Ok (Some db_switch) =>
        if negb (Switch.locked db_switch) then
          let db_switch := Switch.with_state db_switch state in
          ({| switchboards := switchboards db;
              switchs := update_state (switchs db) switch_id state |},
           Ok db_switch)
        else
          (db, Raise (HTTPException 403
                 "Switch state is locked and cannot be updated."))
    end.


(** The flush of [db_switch.locked = lock]:
    [UPDATE switchs SET locked = ? WHERE switchs.id = ?]. *)
Definition update_locked (rows : list Switch.t) (switch_id : Z) (lock : bool)
  : list Switch.t :=
  map (fun r => if Switch.id r =? switch_id
                then Switch.with_locked r lock else r) rows.

(** [db.commit()] is taken to succeed (no 500). *)
Definition lock (switch_id : Z) (lock : bool) : M Session Switch.t :=
  fun db =>
    match get_switch_by_id db switch_id with
    | Raise e => (db, Raise e)
    | Ok None =>
        (db, Raise (HTTPException 404
               ("Switch with ID " ++ str switch_id ++ " cannot be found")))
    | Ok (Some db_switch) =>
        let db_switch := Switch.with_locked db_switch lock in
        ({| switchboards := switchboards db;
            switchs := update_locked (switchs db) switch_id lock |},
         Ok db_switch)
    end.

(** [db.delete(db_switch)]: [DELETE FROM switchs WHERE switchs.id = ?]. *)
Definition delete_switch (switch_id : Z) : M Session bool :=
  fun db =>
    match get_switch_by_id db switch_id with
    | Raise e => (db, Raise e)
    | Ok (Some db_switch) =>
        ({| switchboards := switchboards db;
            switchs := filter (fun r => negb (Switch.id r =? Switch.id db_switch))
                         (switchs db) |},
         Ok true)
    | Ok None => (db, Ok false)
    end.

Section Commit.

(** Whether [db.commit()] accepts the pending session: the constraints
    of the engine that are not decided here (whether the foreign key to
    switchboards is enforced). *)
Variable commit_ok : Session -> bool.

(** The key the engine gives to a new row of [switchs]. *)
Variable autoincrement : Session -> Z.

(** [locked] is not passed to the constructor: the column default applies. *)
Definition create_switch (switch : switch_schema.SwitchCreate.t)
  : M Session Switch.t :=
  fun db =>
    let db_switch :=
      Switch.Build (autoincrement db)
        (switch_schema.SwitchCreate.name switch)
        (switch_schema.SwitchCreate.position switch)
        (switch_schema.SwitchCreate.state switch)
        false
        (Some (switch_schema.SwitchCreate.switchboard_id switch)) in
    let pending :=
      {| switchboards := switchboards db;
         switchs := (switchs db ++ [db_switch])%list |} in
    if commit_ok pending then (pending, Ok db_switch)
    else (db, Raise (HTTPException 500 "Failed to create a switch")).

(** What [setattr] leaves in a column: the value given, or the old one. *)
Definition set_field {A} (f : switch_schema.field A) (old : option A)
  : option A :=
  match f with
  | switch_schema.Unset => old
  | switch_schema.Given v => v
  end.

(** [update_data] is empty. *)
Definition nothing_set (u : switch_schema.SwitchUpdate.t) : bool :=
  match switch_schema.SwitchUpdate.name u,
        switch_schema.SwitchUpdate.position u,
        switch_schema.SwitchUpdate.state u,
        switch_schema.SwitchUpdate.locked u,
        switch_schema.SwitchUpdate.switchboard_id u with
  | switch_schema.Unset, switch_schema.Unset, switch_schema.Unset,
    switch_schema.Unset, switch_schema.Unset => true
  | _, _, _, _, _ => false
  end.

(** The row after the [setattr]s, when no column that is not nullable
    was set to [None]. *)
Definition patched (s : Switch.t) (u : switch_schema.SwitchUpdate.t)
  : option Switch.t :=
  match set_field (switch_schema.SwitchUpdate.name u) (Some (Switch.name s)),
        set_field (switch_schema.SwitchUpdate.position u)
          (Some (Switch.position s)),
        set_field (switch_schema.SwitchUpdate.state u) (Some (Switch.state s)),
        set_field (switch_schema.SwitchUpdate.locked u)
          (Some (Switch.locked s)) with
  | Some n, Some p, Some st, Some l =>
      Some (Switch.Build (Switch.id s) n p st l
              (set_field (switch_schema.SwitchUpdate.switchboard_id u)
                 (Switch.switchboard_id s)))
  | _, _, _, _ => None
  end.

Definition update_switch (switch_id : Z)
    (switch_update : switch_schema.SwitchUpdate.t) : M Session Switch.t :=
  fun db =>
    match get_switch_by_id db switch_id with
    | Raise e => (db, Raise e)
    | Ok None => (db, Raise (HTTPException 404 "Switch not found"))
    | Ok (Some db_switch) =>
        if nothing_set switch_update then
          (db, Raise (HTTPException 400
                 "Bad request. You must provide valid data to update the switch"))
        else
          match patched db_switch switch_update with
          | None => (db, Raise (HTTPException 500 "Failed to update switch"))
          | Some db_switch =>
              let pending :=
                {| switchboards := switchboards db;
                   switchs :=
                     map (fun r => if Switch.id r =? switch_id
                                   then db_switch else r) (switchs db) |} in
              if commit_ok pending then (pending, Ok db_switch)
              else (db, Raise (HTTPException 500 "Failed to update switch"))
          end
    end.

End Commit.

End switch_crud.

(** ** services/switchboard_api_service.py *)

Module switchboard_api_service.

Definition switchs_nicknames : list string :=
  ["relay1"; "relay2"; "relay3"; "relay4";
   "relay5"; "relay6"; "relay7"; "relay8"].

(** [Dict[str, str]]: nickname to ["ON"] or ["OFF"]. *)
Abbreviation Payload := (dict string) (only parsing).

(** [Dict[str, Dict[str, str]]]: switchboard id to its payload. *)
Abbreviation Grouped := (dict Payload) (only parsing).

(** [d[k1][k2] = v] on a [defaultdict] of [defaultdict]s: reading
    [d[k1]] inserts an empty inner dict when the key is new. *)
Definition setitem2 (d : Grouped) (k1 k2 v : string) : Grouped :=
  match dict_get d k1 with
  | Some inner => dict_set d k1 (dict_set inner k2 v)
  | None => dict_set d k1 (dict_set [] k2 v)
  end.

(** One iteration of the loop of [build_switchs_by_switchboard]. *)
Definition build_step (db : Session) (acc : Grouped * list string)
    (item : Z * bool) : result (Grouped * list string) :=
  let '(switchs_by_switchboard, errors) := acc in
  let '(switch_id, state) := item in
  db_switch <- switch_crud.get_switch db (Some switch_id) None None ;;
  match db_switch with
  | None =>
      Ok (switchs_by_switchboard,
          append errors ("Switch with id " ++ str switch_id ++ " not found."))
  | Some db_switch =>
      let errors :=
        if Switch.locked db_switch
        then append errors ("Switch with id " ++ str switch_id
                            ++ " is locked and cannot be toggled.")
        else errors in
      db_switchboard <-
        switchboard_crud.get_switchboard db (Switch.switchboard_id db_switch) ;;
      match db_switchboard with
      | None =>
          Ok (switchs_by_switchboard,
              append errors ("Switchboard with id "
                             ++ str_opt (Switch.switchboard_id db_switch)
                             ++ " not found."))
      | Some db_switchboard =>
          selected_switch_nickname <-
            getitem switchs_nicknames (Switch.position db_switch - 1) ;;
          let str_state := if state : bool then "ON" else "OFF" in
          Ok (setitem2 switchs_by_switchboard (Switchboard.id db_switchboard)
                selected_switch_nickname str_state,
              errors)
      end
  end.

Fixpoint build_loop (db : Session) (items : list (Z * bool))
    (acc : Grouped * list string) : result (Grouped * list string) :=
  match items with
  | [] => Ok acc
  | item :: items' =>
      acc' <- build_step db acc item ;;
      build_loop db items' acc'
  end.

Definition build_switchs_by_switchboard (db : Session)
    (request_data : switch_schema.ToggleSwitchsRequest)
  : result (Grouped * list string) :=
  build_loop db (switch_schema.switchs request_data) ([], []).

(** The dict a dispatch returns; a key it does not set is [None]. *)
Record DispatchResult : Type :=
  { switchboard_id : string;
    status : string;
    error : option string;
    response_status_code : option Z;
    payload_sent : option Payload }.

(** What [client.post(...)] followed by [raise_for_status()] does:
    both return, or one of them raises an exception [e] (timeout,
    connection error, error status) with text [str(e)]. *)
Inductive HttpOutcome : Type :=
| Responded (status_code : Z)
| Failed (e : string).

Record HttpPost : Type :=
  { endpoint : string;
    headers : list (string * string);
    json : Payload }.

(** An element of the list [process_toggle_request] returns. *)
Inductive ReportItem : Type :=
| ErrStr (s : string)
| ErrDict (r : DispatchResult).

Section Dispatch.

(** The network: the outcome of a POST of a JSON body to an endpoint. *)
Variable post : string -> Payload -> HttpOutcome.

(** The POSTs attempted, and the dict returned. *)
Definition send_switchboard_request (db : Session)
    (switchboard_id : string) (switchs : Payload)
  : list HttpPost * result DispatchResult :=
  match switchboard_crud.get_switchboard db (Some switchboard_id) with
  | Raise e => ([], Raise e)
  | Ok None =>
      ([], Ok {| switchboard_id := switchboard_id;
                 status := "failed";
                 error := Some ("Switchboard with id " ++ switchboard_id
                                ++ " not found in the database.");
                 response_status_code := None;
                 payload_sent := None |})
  | Ok (Some db_switchboard) =>
      let payload := switchs in
      let endpoint :=
        "http://" ++ Switchboard.ip_address db_switchboard ++ "/control" in
      let headers := [("Content-Type", "application/json")] in
      ([ {| endpoint := endpoint; headers := headers; json := payload |} ],
       match post endpoint payload with
       | Responded code =>
           Ok {| switchboard_id := switchboard_id;
                 status := "success";
                 error := None;
                 response_status_code := Some code;
                 payload_sent := Some payload |}
       | Failed e =>
           Ok {| switchboard_id := switchboard_id;
                 status := "failed";
                 error := Some e;
                 response_status_code := None;
                 payload_sent := Some payload |}
       end)
  end.

(** [asyncio.gather] over the tasks: the results in task order, or the first
    exception; a task that raises cancels no other task. *)
Fixpoint gather {A} (tasks : list (result A)) : result (list A) :=
  match tasks with
  | [] => Ok []
  | t :: tasks' =>
      match t, gather tasks' with
      | Raise e, _ => Raise e
      | Ok _, Raise e => Raise e
      | Ok a, Ok l => Ok (a :: l)
      end
  end.

Definition is_success (res : DispatchResult) : bool :=
  String.eqb (status res) "success".

Definition send_multiple_switchboard_requests (db : Session)
    (switchs_by_switchboard : Grouped)
  : list HttpPost * result (list DispatchResult * list DispatchResult) :=
  let tasks :=
    map (fun '(switchboard_id, switchs) =>
           send_switchboard_request db switchboard_id switchs)
        switchs_by_switchboard in
  (concat (map fst tasks),
   results <- gather (map snd tasks) ;;
   Ok (filter is_success results,
       filter (fun res => negb (is_success res)) results)).

(** One iteration of the inner loop of [update_database]. *)
Definition update_entry (switchboard_id : string) (errors : list string)
    (item : string * string) : M Session (list string) :=
  let '(switch, state) := item in
  i <~ lift (index switchs_nicknames switch) ;;
  db_switch <~ read (fun db => switch_crud.get_switch db None
                                 (Some switchboard_id) (Some (i + 1))) ;;
  match db_switch with
  | None =>
      ret (append errors
             ("Switch associated with nickname " ++ switch
              ++ " associated with switchboard " ++ switchboard_id
              ++ " not found in the database."))
  | Some db_switch =>
      if String.eqb state "ON" then
        _ <~ switch_crud.toggle (Switch.id db_switch) true ;; ret errors
      else if String.eqb state "OFF" then
        _ <~ switch_crud.toggle (Switch.id db_switch) false ;; ret errors
      else
        (* switchs_nicknames[switch] with a str index *)
        throw TypeError
  end.

Fixpoint update_entries (switchboard_id : string)
    (items : list (string * string)) (errors : list string)
  : M Session (list string) :=
  match items with
  | [] => ret errors
  | item :: items' =>
      errors' <~ update_entry switchboard_id errors item ;;
      update_entries switchboard_id items' errors'
  end.

Fixpoint update_results (switchs_by_switchboard : Grouped)
    (success : list DispatchResult) (errors : list string)
  : M Session (list string) :=
  match success with
  | [] => ret errors
  | result :: success' =>
      match dict_get switchs_by_switchboard (switchboard_id result) with
      | None => throw AttributeError (* None.items() *)
      | Some switchs =>
          errors' <~ update_entries (switchboard_id result) switchs errors ;;
          update_results switchs_by_switchboard success' errors'
      end
  end.

Definition update_database (switchs_by_switchboard : Grouped)
    (success : list DispatchResult) : M Session (list string) :=
  update_results switchs_by_switchboard success [].

(** The session left behind, the POSTs attempted, and the list
    returned.  The list [update_database] returns is not used. *)
Definition process_toggle_request (db : Session)
    (request_data : switch_schema.ToggleSwitchsRequest)
  : Session * list HttpPost * result (list ReportItem) :=
  match build_switchs_by_switchboard db request_data with
  | Raise e => (db, [], Raise e)
  | Ok (switchs_by_switchboard, building_errors) =>
      let '(sent, r) :=
        send_multiple_switchboard_requests db switchs_by_switchboard in
      match r with
      | Raise e => (db, sent, Raise e)
      | Ok (requests_success, request_errors) =>
          match update_database switchs_by_switchboard requests_success db with
          | (db', Raise e) => (db', sent, Raise e)
          | (db', Ok _) =>
              (db', sent,
               Ok (map ErrStr building_errors
                   ++ map ErrDict request_errors)%list)
          end
      end
  end.

End Dispatch.

End switchboard_api_service.

Import switchboard_api_service.

(** ** routes/switch_routes.py *)

Module switch_routes.

(** The dict a route returns; ["errors"] is set when there are errors. *)
Record Response : Type :=
  { message : string;
    errors : option (list string) }.

Definition response (errors : list string) : Response :=
  {| message := "All switches have been processed with "
                ++ str (Z.of_nat (length errors)) ++ " errors encountered.";
     errors := match errors with
               | [] => None
               | _ => Some errors
               end |}.

Section Routes.

(** [str(e)] of an exception, as an f-string formats it. *)
Variable exn_str : exn -> string.

(** The loop of [lock_switch]: whatever [lock] raises is caught. *)
Fixpoint lock_loop (items : list (Z * bool)) (errors : list string)
    (db : Session) : Session * list string :=
  match items with
  | [] => (db, errors)
  | (switch_id, lock_state) :: items' =>
      match switch_crud.lock switch_id lock_state db with
      | (db', Ok _) => lock_loop items' errors db'
      | (db', Raise e) =>
          lock_loop items'
            (append errors ("Switch " ++ str switch_id
                            ++ " lock state was not modified : " ++ exn_str e))
            db'
      end
  end.

Definition lock_switch (db : Session)
    (request_data : switch_schema.LockSwitchRequest.t) : Session * Response :=
  let '(db', errors) :=
    lock_loop (switch_schema.LockSwitchRequest.switchs request_data) [] db in
  (db', response errors).

End Routes.

(** The nickname table of [toggle_switchs], a local of the function. *)
Definition switchs_nicknames : list string :=
  ["relay1"; "relay2"; "relay3"; "relay4";
   "relay5"; "relay6"; "relay7"; "relay8"].

(** One iteration of the grouping loop of [toggle_switchs]. *)
Definition group_step (db : Session) (acc : Grouped * list string)
    (item : Z * bool) : result (Grouped * list string) :=
  let '(switchs_by_switchboard, errors) := acc in
  let '(switch_id, state) := item in
  db_switch <- switch_crud.get_switch db (Some switch_id) None None ;;
  match db_switch with
  | None =>
      Ok (switchs_by_switchboard,
          append errors ("Switch with ID " ++ str switch_id ++ " not found"))
  | Some db_switch =>
      if Switch.locked db_switch then
        Ok (switchs_by_switchboard,
            append errors ("Switch " ++ str switch_id
                           ++ " state is locked and cannot be updated"))
      else
        db_switchboard <-
          switchboard_crud.get_switchboard db (Switch.switchboard_id db_switch) ;;
        match db_switchboard with
        | None =>
            Ok (switchs_by_switchboard,
                append errors
                  ("Could not find switchboard associated with switch (ID : "
                   ++ str switch_id))
        | Some db_switchboard =>
            selected_switch_nickname <-
              getitem switchs_nicknames (Switch.position db_switch - 1) ;;
            let str_state := if state : bool then "ON" else "OFF" in
            Ok (setitem2 switchs_by_switchboard (Switchboard.id db_switchboard)
                  selected_switch_nickname str_state,
                errors)
        end
  end.

Fixpoint group_loop (db : Session) (items : list (Z * bool))
    (acc : Grouped * list string) : result (Grouped * list string) :=
  match items with
  | [] => Ok acc
  | item :: items' =>
      acc' <- group_step db acc item ;;
      group_loop db items' acc'
  end.

(** One iteration of the database update of [toggle_switchs]. *)
Definition update_entry (switchboard_id : string) (errors : list string)
    (item : string * string) : M Session (list string) :=
  let '(switch, state) := item in
  i <~ lift (index switchs_nicknames switch) ;;
  db_switch <~ read (fun db => switch_crud.get_switch db None
                                 (Some switchboard_id) (Some (i + 1))) ;;
  match db_switch with
  | None =>
      ret (append errors ("Switch with nickname " ++ switch
                          ++ " on switchboard " ++ switchboard_id
                          ++ " not found"))
  | Some db_switch =>
      if String.eqb state "OFF" then
        _ <~ switch_crud.toggle (Switch.id db_switch) false ;; ret errors
      else if String.eqb state "ON" then
        _ <~ switch_crud.toggle (Switch.id db_switch) true ;; ret errors
      else
        ret (append errors ("Invalid state for switch " ++ switch))
  end.

Fixpoint update_entries (switchboard_id : string)
    (items : list (string * string)) (errors : list string)
  : M Session (list string) :=
  match items with
  | [] => ret errors
  | item :: items' =>
      errors' <~ update_entry switchboard_id errors item ;;
      update_entries switchboard_id items' errors'
  end.

Section Toggle.

(** [requests.post(...)] followed by [raise_for_status()]: both return,
    or a [RequestException] [e] is raised, with text [str(e)]. *)
Variable post : string -> Payload -> HttpOutcome.

(** The loop over the switchboards: the session left behind, the POSTs
    attempted, and the errors or the exception that ends the loop. *)
Fixpoint dispatch_loop (g : Grouped) (errors : list string) (db : Session)
  : Session * list HttpPost * result (list string) :=
  match g with
  | [] => (db, [], Ok errors)
  | (switchboard_id, switchs) :: g' =>
      let payload := switchs in
      match switchboard_crud.get_switchboard db (Some switchboard_id) with
      | Raise e => (db, [], Raise e)
      | Ok None => (db, [], Raise AttributeError) (* None.ip_address *)
      | Ok (Some db_switchboard) =>
          let endpoint :=
            "http://" ++ Switchboard.ip_address db_switchboard ++ "/control" in
          let headers := [("Content-Type", "application/json")] in
          let sent :=
            {| endpoint := endpoint; headers := headers; json := payload |} in
          match post endpoint payload with
          | Failed e =>
              let '(db', sent', r) :=
                dispatch_loop g'
                  (append errors
                     ("Request error for "
                      ++ Switchboard.ip_address db_switchboard ++ " : " ++ e))
                  db in
              (db', sent :: sent', r)
          | Responded _ =>
              match update_entries (Switchboard.id db_switchboard) switchs
                      errors db with
              | (db1, Raise e) => (db1, [sent], Raise e)
              | (db1, Ok errors1) =>
                  let '(db', sent', r) := dispatch_loop g' errors1 db1 in
                  (db', sent :: sent', r)
              end
          end
      end
  end.

Definition toggle_switchs (db : Session)
    (request_data : switch_schema.ToggleSwitchsRequest)
  : Session * list HttpPost * result Response :=
  match group_loop db (switch_schema.switchs request_data) ([], []) with
  | Raise e => (db, [], Raise e)
  | Ok (switchs_by_switchboard, errors) =>
      let '(db', sent, r) := dispatch_loop switchs_by_switchboard errors db in
      (db', sent, errors' <- r ;; Ok (response errors'))
  end.

End Toggle.

End switch_routes.

(** ** An installation used in the examples

    Two switchboards.  On board 1: switch 1 (relay 1, off) and switch 2
    (relay 2, on, locked).  On board 2: switch 3 (relay 1, off) and
    switch 4, whose position is 0.  Switch 5 points at a switchboard that
    is not in the table, and switch 6 on board 2 has position 9. *)

Module Installation.

Definition board1 : Switchboard.t :=
  Switchboard.Build "sb1" "Board 1" "10.0.0.1" (Some 1).
Definition board2 : Switchboard.t :=
  Switchboard.Build "sb2" "Board 2" "10.0.0.2" None.

Definition switch1 : Switch.t := Switch.Build 1 "lamp" 1 false false (Some "sb1").
Definition switch2 : Switch.t := Switch.Build 2 "pump" 2 true true (Some "sb1").
Definition switch3 : Switch.t := Switch.Build 3 "fan" 1 false false (Some "sb2").
Definition switch4 : Switch.t := Switch.Build 4 "horn" 0 false false (Some "sb2").
Definition switch5 : Switch.t := Switch.Build 5 "ghost" 1 false false (Some "sb9").
Definition switch6 : Switch.t := Switch.Build 6 "bell" 9 false false (Some "sb2").

Definition db : Session :=
  {| switchboards := [board1; board2];
     switchs := [switch1; switch2; switch3; switch4; switch5; switch6] |}.

(** The same installation with one more switch, wired to the relay of
    switch 1. *)
Definition switch7 : Switch.t := Switch.Build 7 "twin" 1 true false (Some "sb1").

Definition db_twins : Session :=
  {| switchboards := switchboards db;
     switchs := (switchs db ++ [switch7])%list |}.

(** The installation with a spare switch on board 1, not locked, wired
    to the relay of switch 2, which is locked. *)
Definition switch8 : Switch.t := Switch.Build 8 "spare" 2 true false (Some "sb1").

Definition db_spare : Session :=
  {| switchboards := switchboards db;
     switchs := (switchs db ++ [switch8])%list |}.

(** The installation with a locked switch on relay 8 of board 2, the
    relay under which switch 4 (position 0) is filed. *)
Definition switch9 : Switch.t := Switch.Build 9 "valve" 8 true true (Some "sb2").

Definition db_valve : Session :=
  {| switchboards := switchboards db;
     switchs := (switchs db ++ [switch9])%list |}.

Definition request (l : list (Z * bool)) : switch_schema.ToggleSwitchsRequest :=
  {| switch_schema.switchs := l |}.

(** Every device answers 200. *)
Definition all_up (_ : string) (_ : Payload) : HttpOutcome := Responded 200.

(** Only board 1 answers; the others time out. *)
Definition only_board1 (endpoint : string) (_ : Payload) : HttpOutcome :=
  if String.eqb endpoint "http://10.0.0.1/control"
  then Responded 200 else Failed "timed out".

(** The result of a successful dispatch to board 1. *)
Definition board1_succeeded (payload : Payload) : DispatchResult :=
  {| switchboard_id := "sb1"; status := "success"; error := None;
     response_status_code := Some 200; payload_sent := Some payload |}.

End Installation.

(** ** Observations on a session *)

(** The primary key of table [switchs]. *)
Definition primary_key (db : Session) : Prop :=
  NoDup (map Switch.id (switchs db)).

(** The persisted state of the switch with a given id. *)
Definition state_of (db : Session) (switch_id : Z) : option bool :=
  option_map Switch.state
    (find (fun s => Switch.id s =? switch_id) (switchs db)).

(** Whether an element of the report is a [str]. *)
Definition is_str (x : ReportItem) : bool :=
  match x with
  | ErrStr _ => true
  | ErrDict _ => false
  end.

(** [g[k][n]] on a grouped payload, without inserting. *)
Definition get2 (g : Grouped) (k n : string) : option string :=
  match dict_get g k with
  | Some p => dict_get p n
  | None => None
  end.

(** The switchboard id and nickname under which the grouper files the
    pair of switch [i], when its lookups succeed. *)
Definition target (db : Session) (i : Z) : option (string * string) :=
  match switch_crud.get_switch db (Some i) None None with
  | Ok (Some s) =>
      match switchboard_crud.get_switchboard db (Switch.switchboard_id s) with
      | Ok (Some b) =>
          match getitem switchs_nicknames (Switch.position s - 1) with
          | Ok n => Some (Switchboard.id b, n)
          | Raise _ => None
          end
      | _ => None
      end
  | _ => None
  end.

(** The error strings the grouper emits for the pair of switch [i]. *)
Definition pair_errors (db : Session) (i : Z) : list string :=
  match switch_crud.get_switch db (Some i) None None with
  | Ok None => ["Switch with id " ++ str i ++ " not found."]
  | Ok (Some s) =>
      if Switch.locked s
      then ["Switch with id " ++ str i ++ " is locked and cannot be toggled."]
      else []
  | Raise _ => []
  end.

(** The switch the reconciler resolves entry [n] of switchboard [k] to. *)
Definition reconciled_switch (db : Session) (k n : string) : option Switch.t :=
  match index switchs_nicknames n with
  | Ok i =>
      match switch_crud.get_switch db None (Some k) (Some (i + 1)) with
      | Ok r => r
      | Raise _ => None
      end
  | Raise _ => None
  end.

(** The id of that switch. *)
Definition reconciled_id (db : Session) (k n : string) : option Z :=
  option_map Switch.id (reconciled_switch db k n).

(** Two sessions in which the reconciler resolves every entry to the
    same switch id, over the same ids. *)
Definition same_lookups (db db' : Session) : Prop :=
  map Switch.id (switchs db') = map Switch.id (switchs db)
  /\ forall k n, reconciled_id db' k n = reconciled_id db k n.

(** The session after [UPDATE switchs SET state = b WHERE id = i]. *)
Definition with_switch_state (db : Session) (i : Z) (b : bool) : Session :=
  {| switchboards := switchboards db;
     switchs := switch_crud.update_state (switchs db) i b |}.

(** The POST that dispatching entry [kp] of a grouped payload sends. *)
Definition post_of (db : Session) (kp : string * Payload) (rq : HttpPost) : Prop :=
  json rq = snd kp
  /\ headers rq = [("Content-Type", "application/json")]
  /\ exists b,
       switchboard_crud.get_switchboard db (Some (fst kp)) = Ok (Some b)
       /\ Switchboard.id b = fst kp
       /\ endpoint rq = "http://" ++ Switchboard.ip_address b ++ "/control".

(** What holds of every grouped payload the grouper builds: keys are
    distinct at both levels, every switchboard id resolves, every
    nickname is in the table and every state is "ON" or "OFF". *)
Definition well_grouped (db : Session) (g : Grouped) : Prop :=
  NoDup (keys g)
  /\ forall k p, In (k, p) g ->
       (exists b, switchboard_crud.get_switchboard db (Some k) = Ok (Some b)
                  /\ Switchboard.id b = k)
       /\ NoDup (keys p)
       /\ forall n v, In (n, v) p ->
            (exists i, index switchs_nicknames n = Ok i)
            /\ (v = "ON" \/ v = "OFF").

(** The lock flag of the switch with a given id. *)
Definition locked_of (db : Session) (switch_id : Z) : option bool :=
  option_map Switch.locked
    (find (fun s => Switch.id s =? switch_id) (switchs db)).

(** A row without its state. *)
Definition stateless (s : Switch.t) : Switch.t := Switch.with_state s false.

(** The error string of the grouper for a switch id that is not found. *)
Definition not_found_error (it : Z * bool) : string :=
  "Switch with id " ++ str (fst it) ++ " not found.".

(** The result of dispatching entry [kp] of a grouped payload: it bears
    the id and the payload of the entry, and is a success with the status
    code when the device responded, a failure with the error text when
    the POST failed. *)
Definition dispatch_of (post : string -> Payload -> HttpOutcome)
    (db : Session) (kp : string * Payload) (r : DispatchResult) : Prop :=
  switchboard_id r = fst kp
  /\ payload_sent r = Some (snd kp)
  /\ exists b,
       switchboard_crud.get_switchboard db (Some (fst kp)) = Ok (Some b)
       /\ match post ("http://" ++ Switchboard.ip_address b ++ "/control")
                     (snd kp) with
          | Responded c =>
              status r = "success" /\ response_status_code r = Some c
              /\ error r = None
          | Failed e =>
              status r = "failed" /\ error r = Some e
              /\ response_status_code r = None
          end.

(** [db'] differs from [db] in the states of switches only, and in none
    of a switch that is locked in [db]. *)
Definition respects_locks (db db' : Session) : Prop :=
  switchboards db' = switchboards db
  /\ map stateless (switchs db') = map stateless (switchs db)
  /\ forall j, locked_of db j = Some true -> state_of db' j = state_of db j.

(** No switch has this id. *)
Definition is_absent (db : Session) (switch_id : Z) : bool :=
  match find (fun s => Switch.id s =? switch_id) (switchs db) with
  | None => true
  | Some _ => false
  end.

(** The pair names a switch that is not locked, or no switch. *)
Definition not_locked (db : Session) (it : Z * bool) : bool :=
  match switch_crud.get_switch db (Some (fst it)) None None with
  | Ok (Some s) => negb (Switch.locked s)
  | _ => true
  end.

(** The grouped payload of a grouping, or the exception it raised. *)
Definition payload_of (r : result (Grouped * list string)) : result Grouped :=
  match r with
  | Ok (g, _) => Ok g
  | Raise e => Raise e
  end.

(** The POST was accepted: the device answered and [raise_for_status]
    returned. *)
Definition responds (o : HttpOutcome) : bool :=
  match o with
  | Responded _ => true
  | Failed _ => false
  end.

(** Two runs end the same way: both return, or both raise the same
    exception. *)
Definition same_ending {A B} (r : result A) (r' : result B) : Prop :=
  match r, r' with
  | Ok _, Ok _ => True
  | Raise e, Raise e' => e = e'
  | _, _ => False
  end.

(** The entries of payload [p] of switchboard [k] can be reconciled:
    each names a relay of the table, carries "ON" or "OFF", and resolves
    to no switch or to the id of a switch that is not locked. *)
Definition reconcilable (db : Session) (k : string) (p : Payload) : Prop :=
  forall n v, In (n, v) p ->
    (exists q, index switchs_nicknames n = Ok q)
    /\ (v = "ON" \/ v = "OFF")
    /\ forall j, reconciled_id db k n = Some j -> locked_of db j = Some false.

(** * Properties *)

(** ** Python containers *)

Lemma dict_get_set_eq {V} (d : dict V) k v :
  dict_get (dict_set d k v) k = Some v.
Proof.
  induction d as [|[k' v'] d IH]; simpl.
  - now rewrite String.eqb_refl.
  - destruct (String.eqb k' k) eqn:E; simpl; rewrite E; auto.
Qed.

Lemma dict_get_set_ne {V} (d : dict V) k k' v :
  k <> k' -> dict_get (dict_set d k v) k' = dict_get d k'.
Proof.
  intros Hne. induction d as [|[k0 v0] d IH]; simpl.
  - destruct (String.eqb k k') eqn:E; auto.
    apply String.eqb_eq in E. contradiction.
  - destruct (String.eqb k0 k) eqn:E; simpl.
    + apply String.eqb_eq in E. subst k0.
      destruct (String.eqb k k') eqn:E'; auto.
      apply String.eqb_eq in E'. contradiction.
    + now rewrite IH.
Qed.

Lemma keys_dict_set {V} (d : dict V) k v :
  keys (dict_set d k v) =
  match dict_get d k with
  | Some _ => keys d
  | None => (keys d ++ [k])%list
  end.
Proof.
  unfold keys. induction d as [|[k' v'] d IH]; simpl; auto.
  destruct (String.eqb k' k) eqn:E; simpl; auto.
  rewrite IH. now destruct (dict_get d k).
Qed.

Lemma dict_get_None_keys {V} (d : dict V) k :
  dict_get d k = None <-> ~ In k (keys d).
Proof.
  unfold keys. induction d as [|[k' v'] d IH]; simpl.
  - tauto.
  - destruct (String.eqb k' k) eqn:E.
    + apply String.eqb_eq in E. split; [discriminate | intros H; exfalso; auto].
    + apply String.eqb_neq in E. rewrite IH. tauto.
Qed.

Lemma dict_get_In {V} (d : dict V) k v :
  dict_get d k = Some v -> In (k, v) d.
Proof.
  induction d as [|[k' v'] d IH]; simpl; [discriminate|].
  destruct (String.eqb k' k) eqn:E.
  - apply String.eqb_eq in E. intros [= ->]. subst. now left.
  - intros H. right. auto.
Qed.

Lemma In_dict_get {V} (d : dict V) k v :
  NoDup (keys d) -> In (k, v) d -> dict_get d k = Some v.
Proof.
  unfold keys. induction d as [|[k' v'] d IH]; simpl; [tauto|].
  intros Hnd [H | H].
  - inversion H; subst. now rewrite String.eqb_refl.
  - inversion Hnd as [|? ? Hnotin Hnd']; subst.
    destruct (String.eqb k' k) eqn:E.
    + apply String.eqb_eq in E. subst k'. exfalso. apply Hnotin.
      change k with (fst (k, v)). now apply in_map.
    + auto.
Qed.

Lemma NoDup_keys_dict_set {V} (d : dict V) k v :
  NoDup (keys d) -> NoDup (keys (dict_set d k v)).
Proof.
  intros Hnd. rewrite keys_dict_set.
  destruct (dict_get d k) eqn:E; auto.
  apply dict_get_None_keys in E.
  apply NoDup_rev in Hnd. rewrite <- (rev_involutive (keys d ++ [k])).
  apply NoDup_rev. rewrite rev_app_distr. simpl. constructor; auto.
  now rewrite <- in_rev.
Qed.

Lemma In_dict_set {V} (d : dict V) k v k' v' :
  In (k', v') (dict_set d k v) -> (k' = k /\ v' = v) \/ In (k', v') d.
Proof.
  induction d as [|[k0 v0] d IH]; simpl.
  - intros [H | []]. inversion H. auto.
  - destruct (String.eqb k0 k) eqn:E; simpl.
    + apply String.eqb_eq in E. subst k0.
      intros [H | H]; [inversion H; auto | auto].
    + intros [H | H]; [auto | ]. destruct (IH H); auto.
Qed.

Lemma NoDup_map_inj {A B} (f : A -> B) l x y :
  NoDup (map f l) -> In x l -> In y l -> f x = f y -> x = y.
Proof.
  induction l as [|a l IH]; simpl; [tauto|].
  intros Hnd Hx Hy E. inversion Hnd as [|? ? Ha Hnd']; subst.
  destruct Hx as [-> | Hx], Hy as [-> | Hy]; auto.
  - exfalso. apply Ha. rewrite E. now apply in_map.
  - exfalso. apply Ha. rewrite <- E. now apply in_map.
Qed.

(** ** The nickname table *)

Lemma nickname_in_table p :
  1 <= p <= 8 -> getitem switchs_nicknames (p - 1) = Ok ("relay" ++ str p).
Proof.
  intros H.
  assert (p = 1 \/ p = 2 \/ p = 3 \/ p = 4 \/ p = 5 \/ p = 6 \/ p = 7 \/ p = 8)
    as Hp by lia.
  repeat destruct Hp as [-> | Hp]; try subst p; reflexivity.
Qed.

Lemma nickname_wraps p :
  -7 <= p <= 0 -> getitem switchs_nicknames (p - 1) = Ok ("relay" ++ str (p + 8)).
Proof.
  intros H.
  assert (p = -7 \/ p = -6 \/ p = -5 \/ p = -4 \/ p = -3 \/ p = -2 \/ p = -1 \/ p = 0)
    as Hp by lia.
  repeat destruct Hp as [-> | Hp]; try subst p; reflexivity.
Qed.

Lemma nickname_raises p :
  p < -7 \/ 8 < p -> getitem switchs_nicknames (p - 1) = Raise IndexError.
Proof.
  intros H. unfold getitem.
  change (Z.of_nat (length switchs_nicknames)) with 8.
  destruct (Z.ltb_spec (p - 1) 0) as [Hneg | Hpos].
  - destruct (Z.ltb_spec (p - 1 + 8) 0); [reflexivity | lia].
  - destruct (Z.ltb_spec (p - 1) 0); [lia |].
    destruct (Z.leb_spec 8 (p - 1)); [reflexivity | lia].
Qed.

(** What [index] finds is a nickname of the table, at that position. *)
Lemma index_nicknames x i :
  index switchs_nicknames x = Ok i ->
  0 <= i <= 7 /\ getitem switchs_nicknames i = Ok x.
Proof.
  intros H. unfold index, switchs_nicknames in H. cbn [index_from] in H.
  repeat match type of H with
         | context [String.eqb ?a x] =>
             destruct (String.eqb_spec a x) as [E | _]; [subst x |]
         end;
    inversion H; subst; (split; [lia | reflexivity]).
Qed.

Lemma index_getitem_nicknames i x :
  0 <= i <= 7 -> getitem switchs_nicknames i = Ok x ->
  index switchs_nicknames x = Ok i.
Proof.
  intros H.
  assert (i = 0 \/ i = 1 \/ i = 2 \/ i = 3 \/ i = 4 \/ i = 5 \/ i = 6 \/ i = 7)
    as Hi by lia.
  repeat destruct Hi as [-> | Hi]; try subst i; intros [= <-]; reflexivity.
Qed.

(** ** The grouping loop *)

Lemma build_loop_app db l1 l2 acc :
  build_loop db (l1 ++ l2) acc =
  (acc' <- build_loop db l1 acc ;; build_loop db l2 acc').
Proof.
  revert acc. induction l1 as [|it l1 IH]; intros acc; simpl; auto.
  destruct (build_step db acc it); simpl; auto.
Qed.

(** What one pair does once its switch and its switchboard are found. *)
Lemma build_step_resolved db g errors i st s b :
  switch_crud.get_switch db (Some i) None None = Ok (Some s) ->
  switchboard_crud.get_switchboard db (Switch.switchboard_id s) = Ok (Some b) ->
  build_step db (g, errors) (i, st) =
  (nick <- getitem switchs_nicknames (Switch.position s - 1) ;;
   Ok (setitem2 g (Switchboard.id b) nick (if st then "ON" else "OFF"),
       if Switch.locked s
       then append errors ("Switch with id " ++ str i
                           ++ " is locked and cannot be toggled.")
       else errors)).
Proof.
  intros Hs Hb. unfold build_step. rewrite Hs. simpl. rewrite Hb. reflexivity.
Qed.

(** ** Request Grouper: positions outside the nickname table *)

(** C8, as stated, fails: switch 4 has position 0, outside 1..8, and its
    pair raises nothing; index -1 of the table is its last entry, so the
    pair is grouped under "relay8". *)
Lemma position_zero_is_grouped_as_relay8 :
  Switch.position Installation.switch4 = 0
  /\ build_switchs_by_switchboard Installation.db
       (Installation.request [(4, true)])
     = Ok ([("sb2", [("relay8", "ON")])], []).
Proof. split; reflexivity. Qed.

(** C8, amended: a pair whose switch and switchboard resolve, reached
    after the pairs before it were processed, raises [IndexError] out of
    the grouper when the position of its switch is above 8 or below -7;
    for a position from -7 to 0 nothing is raised and the pair is grouped
    under the nickname of position + 8. *)
Theorem position_outside_table_raises_or_wraps
    db before i st after g errors s b :
  build_loop db before ([], []) = Ok (g, errors) ->
  switch_crud.get_switch db (Some i) None None = Ok (Some s) ->
  switchboard_crud.get_switchboard db (Switch.switchboard_id s) = Ok (Some b) ->
  (Switch.position s < -7 \/ 8 < Switch.position s ->
   build_switchs_by_switchboard db
     {| switch_schema.switchs := before ++ (i, st) :: after |}
   = Raise IndexError)
  /\
  (-7 <= Switch.position s <= 0 ->
   build_step db (g, errors) (i, st)
   = Ok (setitem2 g (Switchboard.id b)
           ("relay" ++ str (Switch.position s + 8))
           (if st then "ON" else "OFF"),
         if Switch.locked s
         then append errors ("Switch with id " ++ str i
                             ++ " is locked and cannot be toggled.")
         else errors)).
Proof.
  intros Hbefore Hs Hb. split; intros Hp.
  - unfold build_switchs_by_switchboard. cbn [switch_schema.switchs].
    rewrite build_loop_app, Hbefore. cbn [bind build_loop].
    rewrite (build_step_resolved _ _ _ _ _ _ _ Hs Hb).
    now rewrite (nickname_raises _ Hp).
  - rewrite (build_step_resolved _ _ _ _ _ _ _ Hs Hb).
    now rewrite (nickname_wraps _ Hp).
Qed.

Lemma position_outside_table_raises_or_wraps_witness :
  build_switchs_by_switchboard Installation.db
    (Installation.request [(1, true); (6, false); (3, true)])
  = Raise IndexError
  /\ build_step Installation.db ([("sb1", [("relay1", "ON")])], []) (4, true)
     = Ok ([("sb1", [("relay1", "ON")]); ("sb2", [("relay8", "ON")])], []).
Proof.
  split.
  - refine (proj1 (position_outside_table_raises_or_wraps Installation.db
                     [(1, true)] 6 false [(3, true)]
                     [("sb1", [("relay1", "ON")])] []
                     Installation.switch6 Installation.board2 _ _ _) _);
      try reflexivity.
    right. simpl. lia.
  - refine (proj2 (position_outside_table_raises_or_wraps Installation.db
                     [(1, true)] 4 true []
                     [("sb1", [("relay1", "ON")])] []
                     Installation.switch4 Installation.board2 _ _ _) _);
      try reflexivity.
    simpl. lia.
Defined.

(** ** Lookups that raise instead of returning [None] *)

(** [get_switchboard] never returns [None]. *)
Lemma get_switchboard_not_None db k :
  switchboard_crud.get_switchboard db k <> Ok None.
Proof.
  unfold switchboard_crud.get_switchboard.
  destruct k as [k|]; [destruct (find _ _) |]; discriminate.
Qed.

(** C6: the code at the failing input.  Switch 5 exists and its
    switchboard "sb9" is not in the table: the grouper raises the 404 of
    [get_switchboard]; no error string is emitted and pair (1, true)
    after it is never processed. *)
Theorem missing_switchboard_aborts_grouping :
  switch_crud.get_switch Installation.db (Some 5) None None
  = Ok (Some Installation.switch5)
  /\ build_switchs_by_switchboard Installation.db
       (Installation.request [(5, true); (1, true)])
     = Raise (HTTPException 404 "Switchboard not found").
Proof. split; reflexivity. Qed.

(** C5: the code at the failing input.  Dispatching to a switchboard id
    that does not resolve raises the 404 of [get_switchboard] out of the
    dispatcher, for one request and for the batch; no "failed" result is
    returned. *)
Theorem unresolved_switchboard_dispatch_raises :
  send_switchboard_request Installation.all_up Installation.db "sb9"
    [("relay1", "ON")]
  = ([], Raise (HTTPException 404 "Switchboard not found"))
  /\ snd (send_multiple_switchboard_requests Installation.all_up Installation.db
            [("sb1", [("relay1", "ON")]); ("sb9", [("relay1", "ON")])])
     = Raise (HTTPException 404 "Switchboard not found").
Proof. split; reflexivity. Qed.

(** ** Locked switches *)

(** A locked switch is reported and filed all the same: after the error
    is appended the iteration goes on to the switchboard lookup. *)
Lemma locked_pair_is_filed db g errors i st s b :
  switch_crud.get_switch db (Some i) None None = Ok (Some s) ->
  Switch.locked s = true ->
  switchboard_crud.get_switchboard db (Switch.switchboard_id s) = Ok (Some b) ->
  1 <= Switch.position s <= 8 ->
  build_step db (g, errors) (i, st)
  = Ok (setitem2 g (Switchboard.id b) ("relay" ++ str (Switch.position s))
          (if st then "ON" else "OFF"),
        append errors ("Switch with id " ++ str i
                       ++ " is locked and cannot be toggled.")).
Proof.
  intros Hs Hl Hb Hp.
  rewrite (build_step_resolved _ _ _ _ _ _ _ Hs Hb).
  now rewrite (nickname_in_table _ Hp), Hl.
Qed.

(** C2: the code at the failing input.  Switch 2 is locked: the grouper
    emits the error and still groups the pair, so the entry is in the
    payload and the POST is sent. *)
Theorem locked_switch_is_grouped_and_dispatched :
  Switch.locked Installation.switch2 = true
  /\ build_switchs_by_switchboard Installation.db
       (Installation.request [(2, false)])
     = Ok ([("sb1", [("relay2", "OFF")])],
           ["Switch with id 2 is locked and cannot be toggled."])
  /\ snd (fst (process_toggle_request Installation.all_up Installation.db
                 (Installation.request [(2, false)])))
     = [ {| endpoint := "http://10.0.0.1/control";
            headers := [("Content-Type", "application/json")];
            json := [("relay2", "OFF")] |} ].
Proof. repeat split; reflexivity. Qed.

(** ** Toggle Orchestrator *)

(** C1: the code at two failing inputs.  A locked switch whose
    switchboard answers: [toggle] raises 403 during reconciliation, after
    the POST was sent.  A switch whose switchboard is missing:
    [get_switchboard] raises 404 during grouping.  Neither is reported;
    both leave the orchestrator as exceptions. *)
Theorem process_toggle_request_raises :
  snd (process_toggle_request Installation.all_up Installation.db
         (Installation.request [(1, true); (2, false)]))
  = Raise (HTTPException 403 "Switch state is locked and cannot be updated.")
  /\ snd (process_toggle_request Installation.all_up Installation.db
            (Installation.request [(1, true); (5, true)]))
     = Raise (HTTPException 404 "Switchboard not found").
Proof. split; reflexivity. Qed.

(** ** Fan-out Dispatcher: what a dispatch returns *)

Lemma send_switchboard_request_result post db k p sent r :
  send_switchboard_request post db k p = (sent, Ok r) ->
  switchboard_id r = k
  /\ (status r = "success" \/ (status r = "failed" /\ exists e, error r = Some e)).
Proof.
  unfold send_switchboard_request.
  destruct (switchboard_crud.get_switchboard db (Some k)) as [[b|]|e].
  - destruct (post _ p); intros [= _ <-]; simpl; eauto.
  - intros [= _ <-]; simpl; eauto.
  - discriminate.
Qed.

(** Every result the dispatcher returns comes with the POST it
    attempted and the payload it sent: the result for a switchboard that
    is not found is never returned. *)
Lemma send_switchboard_request_posted post db k p sent r :
  send_switchboard_request post db k p = (sent, Ok r) ->
  payload_sent r = Some p
  /\ exists b,
       switchboard_crud.get_switchboard db (Some k) = Ok (Some b)
       /\ sent = [ {| endpoint := "http://" ++ Switchboard.ip_address b
                                  ++ "/control";
                      headers := [("Content-Type", "application/json")];
                      json := p |} ].
Proof.
  unfold send_switchboard_request.
  destruct (switchboard_crud.get_switchboard db (Some k)) as [[b|]|e] eqn:B.
  - destruct (post _ p); intros [= <- <-]; simpl; eauto.
  - now apply get_switchboard_not_None in B.
  - discriminate.
Qed.

Lemma gather_Ok {A} (tasks : list (result A)) l :
  gather tasks = Ok l -> tasks = map Ok l.
Proof.
  revert l. induction tasks as [|t tasks IH]; simpl; intros l.
  - now intros [= <-].
  - destruct t as [a|e]; [|discriminate].
    destruct (gather tasks) as [l'|e]; [|discriminate].
    intros [= <-]. simpl. now rewrite (IH l').
Qed.

Lemma send_multiple_results post db g sent success errors :
  send_multiple_switchboard_requests post db g = (sent, Ok (success, errors)) ->
  exists results,
    map (fun '(k, p) => snd (send_switchboard_request post db k p)) g
    = map Ok results
    /\ success = filter is_success results
    /\ errors = filter (fun res => negb (is_success res)) results.
Proof.
  unfold send_multiple_switchboard_requests. intros [= _ H].
  destruct (gather _) as [results|e] eqn:G; simpl in H; [|discriminate].
  injection H as <- <-. exists results. split; [|split]; auto.
  apply gather_Ok in G. rewrite map_map in G. rewrite <- G.
  apply map_ext. now intros [k p].
Qed.

Lemma send_multiple_errors_failed post db g sent success errors :
  send_multiple_switchboard_requests post db g = (sent, Ok (success, errors)) ->
  Forall (fun r => status r = "failed" /\ exists e, error r = Some e) errors.
Proof.
  intros H. apply send_multiple_results in H as (results & Hres & _ & ->).
  apply Forall_forall. intros r Hr. apply filter_In in Hr as [Hin Hns].
  assert (In (Ok r) (map Ok results)) as Hin' by now apply in_map.
  rewrite <- Hres in Hin'. apply in_map_iff in Hin' as ([k p] & Hkp & _).
  destruct (send_switchboard_request post db k p) as [sent' r'] eqn:E.
  simpl in Hkp. subst r'.
  apply send_switchboard_request_result in E as [_ [Hs | Hf]]; auto.
  unfold is_success in Hns. rewrite Hs in Hns. discriminate.
Qed.

(** ** Toggle Orchestrator: the report *)

(** C3, as stated, fails.  Board 2 times out: the report the
    orchestrator returns for switch 3 holds the dict of the failed
    dispatch, not a string.  And for switch 4 (grouped as "relay8", a
    relay no switch of board 2 has) the reconciliation-stage error is
    computed and left out of the report. *)
Lemma report_holds_a_dict_and_no_reconciliation_error :
  (exists report,
     snd (process_toggle_request Installation.only_board1 Installation.db
            (Installation.request [(3, true)])) = Ok report
     /\ forallb is_str report = false)
  /\ snd (update_database [("sb2", [("relay8", "ON")])]
            [ {| switchboard_id := "sb2"; status := "success"; error := None;
                 response_status_code := Some 200;
                 payload_sent := Some [("relay8", "ON")] |} ]
            Installation.db)
     = Ok ["Switch associated with nickname relay8 associated with switchboard sb2 not found in the database."]
  /\ snd (process_toggle_request Installation.all_up Installation.db
            (Installation.request [(4, true)])) = Ok [].
Proof.
  split; [|split]; try reflexivity.
  eexists. split; reflexivity.
Qed.

(** C3, amended: whenever the orchestrator completes, the list it returns
    starts with the error strings of the grouping stage, followed by the
    failures of the dispatch stage in dispatch order, each of them the
    dict of a failed dispatch (status "failed", with its error text);
    when reconciliation reports no error, this is the whole list.  The
    error count is its length. *)
Theorem report_is_grouping_then_dispatch
    post db request_data db' sent report :
  process_toggle_request post db request_data = (db', sent, Ok report) ->
  exists g building_errors requests_success request_errors,
    build_switchs_by_switchboard db request_data = Ok (g, building_errors)
    /\ send_multiple_switchboard_requests post db g
       = (sent, Ok (requests_success, request_errors))
    /\ Forall (fun r => status r = "failed" /\ exists e, error r = Some e)
         request_errors
    /\ (exists rest,
          report = (map ErrStr building_errors
                    ++ map ErrDict request_errors ++ rest)%list)
    /\ (snd (update_database g requests_success db) = Ok [] ->
        report = (map ErrStr building_errors ++ map ErrDict request_errors)%list
        /\ length report
           = (length building_errors + length request_errors)%nat).
Proof.
  unfold process_toggle_request.
  destruct (build_switchs_by_switchboard db request_data)
    as [[g building_errors]|e]; [|discriminate].
  destruct (send_multiple_switchboard_requests post db g)
    as [sent' [[requests_success request_errors]|e]] eqn:D; [|discriminate].
  destruct (update_database g requests_success db) as [db'' [errs|e]];
    [|discriminate].
  intros [= _ <- <-].
  exists g, building_errors, requests_success, request_errors.
  split; [reflexivity|]. split; [exact D|].
  split; [eapply send_multiple_errors_failed; eauto|].
  split.
  - exists []. now rewrite app_nil_r.
  - intros _. split; [reflexivity|].
    now rewrite length_app, !length_map.
Qed.

Lemma report_is_grouping_then_dispatch_witness :
  exists g building_errors requests_success request_errors,
    build_switchs_by_switchboard Installation.db
      (Installation.request [(7, true); (1, true); (3, true)])
    = Ok (g, building_errors)
    /\ send_multiple_switchboard_requests Installation.only_board1
         Installation.db g
       = ([ {| endpoint := "http://10.0.0.1/control";
               headers := [("Content-Type", "application/json")];
               json := [("relay1", "ON")] |};
            {| endpoint := "http://10.0.0.2/control";
               headers := [("Content-Type", "application/json")];
               json := [("relay1", "ON")] |} ],
          Ok (requests_success, request_errors))
    /\ Forall (fun r => status r = "failed" /\ exists e, error r = Some e)
         request_errors
    /\ (exists rest,
          [ ErrStr "Switch with id 7 not found.";
            ErrDict {| switchboard_id := "sb2"; status := "failed";
                       error := Some "timed out";
                       response_status_code := None;
                       payload_sent := Some [("relay1", "ON")] |} ]
          = (map ErrStr building_errors
             ++ map ErrDict request_errors ++ rest)%list)
    /\ (snd (update_database g requests_success Installation.db) = Ok [] ->
        [ ErrStr "Switch with id 7 not found.";
          ErrDict {| switchboard_id := "sb2"; status := "failed";
                     error := Some "timed out";
                     response_status_code := None;
                     payload_sent := Some [("relay1", "ON")] |} ]
        = (map ErrStr building_errors ++ map ErrDict request_errors)%list
        /\ (2 = length building_errors + length request_errors)%nat).
Proof.
  eapply (report_is_grouping_then_dispatch Installation.only_board1
            Installation.db
            (Installation.request [(7, true); (1, true); (3, true)])).
  reflexivity.
Defined.

(** ** Request Grouper: what the loop computes *)

Lemma getitem_In {A} (l : list A) i x : getitem l i = Ok x -> In x l.
Proof.
  unfold getitem.
  destruct (_ || _); [discriminate|].
  destruct (nth_error l _) eqn:E; [|discriminate].
  intros [= <-]. eapply nth_error_In; eauto.
Qed.

Lemma getitem_nicknames_index i x :
  getitem switchs_nicknames i = Ok x ->
  exists j, index switchs_nicknames x = Ok j.
Proof.
  intros H. apply getitem_In in H. simpl in H.
  repeat destruct H as [<- | H]; try contradiction; eexists; reflexivity.
Qed.

Lemma get_switchboard_Some db k b :
  switchboard_crud.get_switchboard db k = Ok (Some b) ->
  k = Some (Switchboard.id b)
  /\ switchboard_crud.get_switchboard db (Some (Switchboard.id b)) = Ok (Some b).
Proof.
  unfold switchboard_crud.get_switchboard.
  destruct k as [k|]; [|discriminate].
  destruct (find _ _) as [b'|] eqn:F; [|discriminate].
  intros [= ->]. apply find_some in F as F'. destruct F' as [_ E].
  apply String.eqb_eq in E. subst k. now rewrite F.
Qed.

(** One pair, when it does not raise: its errors are appended, and its
    entry is written under its target. *)
Lemma build_step_spec db g errors i st g' errors' :
  build_step db (g, errors) (i, st) = Ok (g', errors') ->
  errors' = (errors ++ pair_errors db i)%list
  /\ g' = match target db i with
          | Some (k, n) => setitem2 g k n (if st then "ON" else "OFF")
          | None => g
          end.
Proof.
  unfold build_step, target, pair_errors.
  destruct (switch_crud.get_switch db (Some i) None None) as [[s|]|e];
    simpl; [| |discriminate].
  - destruct (switchboard_crud.get_switchboard db (Switch.switchboard_id s))
      as [[b|]|e] eqn:B; simpl; [| |discriminate].
    + destruct (getitem switchs_nicknames (Switch.position s - 1));
        simpl; [|discriminate].
      intros [= <- <-]. split; [|reflexivity].
      destruct (Switch.locked s); [reflexivity | now rewrite app_nil_r].
    + now apply get_switchboard_not_None in B.
  - intros [= <- <-]. split; reflexivity.
Qed.

Lemma target_resolves db i k n :
  target db i = Some (k, n) ->
  (exists b, switchboard_crud.get_switchboard db (Some k) = Ok (Some b)
             /\ Switchboard.id b = k)
  /\ exists j, index switchs_nicknames n = Ok j.
Proof.
  unfold target.
  destruct (switch_crud.get_switch db (Some i) None None) as [[s|]|e];
    try discriminate.
  destruct (switchboard_crud.get_switchboard db (Switch.switchboard_id s))
    as [[b|]|e] eqn:B; try discriminate.
  destruct (getitem switchs_nicknames (Switch.position s - 1)) eqn:G;
    try discriminate.
  intros [= <- <-]. apply get_switchboard_Some in B as [_ B]. split.
  - now exists b.
  - eapply getitem_nicknames_index; eauto.
Qed.

Lemma well_grouped_empty db : well_grouped db [].
Proof. split; [constructor | intros k p []]. Qed.

Lemma well_grouped_setitem2 db g k n v :
  well_grouped db g ->
  (exists b, switchboard_crud.get_switchboard db (Some k) = Ok (Some b)
             /\ Switchboard.id b = k) ->
  (exists i, index switchs_nicknames n = Ok i) ->
  v = "ON" \/ v = "OFF" ->
  well_grouped db (setitem2 g k n v).
Proof.
  intros [Hnd Hall] Hk Hn Hv. unfold setitem2.
  assert (forall inner,
             NoDup (keys inner) ->
             (forall n' v', In (n', v') inner ->
                (exists i, index switchs_nicknames n' = Ok i)
                /\ (v' = "ON" \/ v' = "OFF")) ->
             well_grouped db (dict_set g k (dict_set inner n v))) as Hset.
  { intros inner Hndi Hin. split; [now apply NoDup_keys_dict_set|].
    intros k' p' Hkp. apply In_dict_set in Hkp as [[-> ->] | Hold]; auto.
    split; [assumption|]. split; [now apply NoDup_keys_dict_set|].
    intros n' v' Hnv. apply In_dict_set in Hnv as [[-> ->] | Hold]; auto. }
  destruct (dict_get g k) as [inner|] eqn:E.
  - apply dict_get_In in E. destruct (Hall _ _ E) as (_ & Hndi & Hin).
    now apply Hset.
  - apply Hset; [constructor | intros n' v' []].
Qed.

Lemma build_step_well_grouped db g errors it g' errors' :
  well_grouped db g ->
  build_step db (g, errors) it = Ok (g', errors') ->
  well_grouped db g'.
Proof.
  destruct it as [i st]. intros Hg H.
  apply build_step_spec in H as [_ ->].
  destruct (target db i) as [[k n]|] eqn:T; [|assumption].
  apply target_resolves in T as [Hk Hn].
  apply well_grouped_setitem2; auto. destruct st; auto.
Qed.

Lemma build_loop_well_grouped db items g errors g' errors' :
  well_grouped db g ->
  build_loop db items (g, errors) = Ok (g', errors') ->
  well_grouped db g'.
Proof.
  revert g errors.
  induction items as [|it items IH]; cbn [build_loop]; intros g errors Hg.
  - now intros [= <- _].
  - destruct (build_step db (g, errors) it) as [[g1 e1]|e] eqn:S;
      cbn [bind]; [|discriminate].
    apply IH. eapply build_step_well_grouped; eauto.
Qed.

Lemma build_well_grouped db request_data g errors :
  build_switchs_by_switchboard db request_data = Ok (g, errors) ->
  well_grouped db g.
Proof.
  apply build_loop_well_grouped, well_grouped_empty.
Qed.

(** The errors of a batch are those of its pairs taken one by one. *)
Lemma build_loop_errors db items g errors g' errors' :
  build_loop db items (g, errors) = Ok (g', errors') ->
  errors' = (errors ++ flat_map (fun it => pair_errors db (fst it)) items)%list.
Proof.
  revert g errors.
  induction items as [|[i st] items IH];
    cbn [build_loop flat_map fst]; intros g errors.
  - intros [= _ <-]. now rewrite app_nil_r.
  - destruct (build_step db (g, errors) (i, st)) as [[g1 e1]|e] eqn:S;
      cbn [bind]; [|discriminate].
    intros H. apply IH in H. apply build_step_spec in S as [-> _].
    now rewrite H, app_assoc.
Qed.

Lemma get2_setitem2_eq g k n v : get2 (setitem2 g k n v) k n = Some v.
Proof.
  unfold get2, setitem2.
  destruct (dict_get g k); rewrite dict_get_set_eq; apply dict_get_set_eq.
Qed.

Lemma get2_setitem2_ne g k n v k' n' :
  (k, n) <> (k', n') -> get2 (setitem2 g k n v) k' n' = get2 g k' n'.
Proof.
  intros Hne. unfold get2, setitem2.
  destruct (String.eqb_spec k k') as [<- | Hk].
  - assert (n <> n') as Hn by congruence.
    destruct (dict_get g k) as [inner|]; rewrite dict_get_set_eq.
    + now apply dict_get_set_ne.
    + now rewrite dict_get_set_ne.
  - destruct (dict_get g k); now rewrite dict_get_set_ne.
Qed.

(** Pairs filed elsewhere leave an entry as it is. *)
Lemma build_loop_other_targets db items g errors g' errors' k n :
  build_loop db items (g, errors) = Ok (g', errors') ->
  (forall it, In it items -> target db (fst it) <> Some (k, n)) ->
  get2 g' k n = get2 g k n.
Proof.
  revert g errors.
  induction items as [|[i st] items IH]; cbn [build_loop]; intros g errors.
  - now intros [= <- _].
  - destruct (build_step db (g, errors) (i, st)) as [[g1 e1]|e] eqn:S;
      cbn [bind]; [|discriminate].
    intros H Hother. rewrite (IH _ _ H); [|intros it Hit; apply Hother; now right].
    apply build_step_spec in S as [_ ->].
    specialize (Hother (i, st) (or_introl eq_refl)). simpl in Hother.
    destruct (target db i) as [[k1 n1]|]; [|reflexivity].
    apply get2_setitem2_ne. congruence.
Qed.

(** Every entry of the grouped payload was filed by a pair of the batch. *)
Lemma build_loop_entry_origin db items g errors g' errors' k n v :
  build_loop db items (g, errors) = Ok (g', errors') ->
  get2 g' k n = Some v ->
  get2 g k n = Some v
  \/ exists i st, In (i, st) items /\ target db i = Some (k, n)
                  /\ v = (if st : bool then "ON" else "OFF").
Proof.
  revert g errors.
  induction items as [|[i st] items IH]; cbn [build_loop]; intros g errors.
  - intros [= <- _]. now left.
  - destruct (build_step db (g, errors) (i, st)) as [[g1 e1]|e] eqn:S;
      cbn [bind]; [|discriminate].
    intros H Hget. destruct (IH _ _ H Hget) as [Hg1 | (i' & st' & Hin & Ht & Hv)].
    + apply build_step_spec in S as [_ ->].
      destruct (target db i) as [[k1 n1]|] eqn:T; [|now left].
      destruct (string_dec k1 k) as [-> | Hk];
        [destruct (string_dec n1 n) as [-> | Hn] |].
      * rewrite get2_setitem2_eq in Hg1. injection Hg1 as <-.
        right. exists i, st. split; [now left | auto].
      * rewrite get2_setitem2_ne in Hg1 by congruence. now left.
      * rewrite get2_setitem2_ne in Hg1 by congruence. now left.
    + right. exists i', st'. split; [now right | auto].
Qed.

(** ** Fan-out Dispatcher: the POSTs sent *)

Lemma send_switchboard_request_resolved post db k p b :
  switchboard_crud.get_switchboard db (Some k) = Ok (Some b) ->
  fst (send_switchboard_request post db k p)
  = [ {| endpoint := "http://" ++ Switchboard.ip_address b ++ "/control";
         headers := [("Content-Type", "application/json")];
         json := p |} ]
  /\ exists r, snd (send_switchboard_request post db k p) = Ok r.
Proof.
  intros H. unfold send_switchboard_request. rewrite H. simpl. split; auto.
  destruct (post _ p); eauto.
Qed.

Lemma sent_posts post db g :
  (forall k p, In (k, p) g ->
     exists b, switchboard_crud.get_switchboard db (Some k) = Ok (Some b)
               /\ Switchboard.id b = k) ->
  Forall2 (post_of db) g (fst (send_multiple_switchboard_requests post db g)).
Proof.
  unfold send_multiple_switchboard_requests. cbn [fst].
  induction g as [|[k p] g IH]; intros Hres; simpl; [constructor|].
  destruct (Hres k p (or_introl eq_refl)) as (b & Hb & Hid).
  destruct (send_switchboard_request_resolved post db k p b Hb) as [-> _].
  simpl. constructor.
  - unfold post_of. simpl. repeat split. exists b. auto.
  - apply IH. intros k' p' Hin. apply (Hres k' p'). now right.
Qed.

(** C7: for every batch the grouper processes, the switchboard ids of
    the grouped payload are distinct and the POSTs sent are, entry by
    entry, one per switchboard of the payload: to the control endpoint of
    that switchboard, with its nickname map as the body.  That map holds,
    under a (switchboard, nickname), the state of the last pair of the
    batch filed there, and nothing but entries filed by pairs; the errors
    emitted are those of the pairs taken one by one, so an overwrite adds
    none. *)
Theorem one_post_per_switchboard_last_pair_wins
    post db request_data g building_errors :
  build_switchs_by_switchboard db request_data = Ok (g, building_errors) ->
  NoDup (keys g)
  /\ Forall2 (post_of db) g
       (fst (send_multiple_switchboard_requests post db g))
  /\ (forall before i st after k n,
        switch_schema.switchs request_data = (before ++ (i, st) :: after)%list ->
        target db i = Some (k, n) ->
        (forall it, In it after -> target db (fst it) <> Some (k, n)) ->
        get2 g k n = Some (if st then "ON" else "OFF"))
  /\ (forall k n v,
        get2 g k n = Some v ->
        exists i st, In (i, st) (switch_schema.switchs request_data)
                     /\ target db i = Some (k, n)
                     /\ v = (if st : bool then "ON" else "OFF"))
  /\ building_errors
     = flat_map (fun it => pair_errors db (fst it))
         (switch_schema.switchs request_data).
Proof.
  intros H. pose proof (build_well_grouped _ _ _ _ H) as [Hnd Hall].
  split; [assumption|]. split; [|split; [|split]].
  - apply sent_posts. intros k p Hin. now destruct (Hall k p Hin).
  - intros before i st after k n Hreq Ht Hafter.
    unfold build_switchs_by_switchboard in H. rewrite Hreq in H.
    rewrite build_loop_app in H.
    destruct (build_loop db before ([], [])) as [[g0 e0]|e]; [|discriminate].
    cbn [bind build_loop] in H.
    destruct (build_step db (g0, e0) (i, st)) as [[g1 e1]|e] eqn:S;
      cbn [bind] in H; [|discriminate].
    rewrite (build_loop_other_targets _ _ _ _ _ _ k n H Hafter).
    apply build_step_spec in S as [_ ->]. rewrite Ht.
    apply get2_setitem2_eq.
  - intros k n v Hget.
    destruct (build_loop_entry_origin _ _ _ _ _ _ _ _ _ H Hget) as [Habs | Hex].
    + discriminate.
    + assumption.
  - apply build_loop_errors in H. exact H.
Qed.

(** ** Switch Store: the effect of [toggle] *)

Lemma with_state_same s : Switch.with_state s (Switch.state s) = s.
Proof. now destruct s. Qed.

Lemma map_id_update_state rows i b :
  map Switch.id (switch_crud.update_state rows i b) = map Switch.id rows.
Proof.
  unfold switch_crud.update_state. rewrite map_map. apply map_ext.
  intros r. now destruct (Switch.id r =? i).
Qed.

(** A lookup that does not read [state] sees the same row after an
    update, with the new state when the row was updated. *)
Lemma find_update_state (q : Switch.t -> bool) rows i b :
  (forall r b', q (Switch.with_state r b') = q r) ->
  find q (switch_crud.update_state rows i b)
  = option_map (fun r => if Switch.id r =? i then Switch.with_state r b else r)
      (find q rows).
Proof.
  intros Hq. unfold switch_crud.update_state.
  induction rows as [|r rows IH]; simpl; [reflexivity|].
  destruct (Switch.id r =? i) eqn:E; [rewrite Hq|];
    destruct (q r); simpl; rewrite ?E; auto.
Qed.

(** The query by id: a row that is found is returned; for an id that no
    row has, the range of the id decides. *)
Lemma get_switch_by_id_found db i s :
  find (fun s => Switch.id s =? i) (switchs db) = Some s ->
  switch_crud.get_switch_by_id db i = Ok (Some s).
Proof. unfold switch_crud.get_switch_by_id. now intros ->. Qed.

Lemma get_switch_by_id_absent db i :
  find (fun s => Switch.id s =? i) (switchs db) = None ->
  switch_crud.get_switch_by_id db i
  = if switch_crud.in_int64 i then Ok None else Raise OverflowError.
Proof. unfold switch_crud.get_switch_by_id. now intros ->. Qed.

Lemma get_switch_by_id_Some db i s :
  switch_crud.get_switch_by_id db i = Ok (Some s) ->
  find (fun s => Switch.id s =? i) (switchs db) = Some s.
Proof.
  unfold switch_crud.get_switch_by_id.
  destruct (find (fun s => Switch.id s =? i) (switchs db)).
  - now intros [= ->].
  - now destruct (switch_crud.in_int64 i).
Qed.

Lemma get_switch_by_id_None db i :
  switch_crud.get_switch_by_id db i = Ok None ->
  find (fun s => Switch.id s =? i) (switchs db) = None
  /\ switch_crud.in_int64 i = true.
Proof.
  unfold switch_crud.get_switch_by_id.
  destruct (find (fun s => Switch.id s =? i) (switchs db)); [discriminate|].
  now destruct (switch_crud.in_int64 i).
Qed.

Lemma get_switch_by_id_raises db i e :
  switch_crud.get_switch_by_id db i = Raise e ->
  find (fun s => Switch.id s =? i) (switchs db) = None
  /\ switch_crud.in_int64 i = false /\ e = OverflowError.
Proof.
  unfold switch_crud.get_switch_by_id.
  destruct (find (fun s => Switch.id s =? i) (switchs db)); [discriminate|].
  destruct (switch_crud.in_int64 i); [discriminate|]. now intros [= <-].
Qed.

Lemma get_switch_by_id_In db s :
  In s (switchs db) ->
  exists r, switch_crud.get_switch_by_id db (Switch.id s) = Ok (Some r)
            /\ In r (switchs db) /\ Switch.id r = Switch.id s.
Proof.
  intros Hin.
  destruct (find (fun r => Switch.id r =? Switch.id s) (switchs db))
    as [r|] eqn:F.
  - exists r. split; [now apply get_switch_by_id_found|].
    apply find_some in F as [Hr E]. split; [assumption | now apply Z.eqb_eq].
  - apply (find_none _ _ F) in Hin. now rewrite Z.eqb_refl in Hin.
Qed.

Lemma get_switch_by_id_update db i b j r :
  switch_crud.get_switch db (Some j) None None = Ok r ->
  switch_crud.get_switch (with_switch_state db i b) (Some j) None None
  = Ok (option_map
          (fun r => if Switch.id r =? i then Switch.with_state r b else r) r).
Proof.
  unfold switch_crud.get_switch, switch_crud.get_switch_by_id, with_switch_state.
  simpl. rewrite find_update_state by reflexivity.
  destruct (find (fun s => Switch.id s =? j) (switchs db)); simpl.
  - now intros [= <-].
  - destruct (switch_crud.in_int64 j); [now intros [= <-] | discriminate].
Qed.

Lemma get_switch_by_position_update db i b k p :
  switch_crud.get_switch (with_switch_state db i b) None (Some k) (Some p)
  = Ok (option_map
          (fun r => if Switch.id r =? i then Switch.with_state r b else r)
          (find (fun s => opt_eqb (Switch.switchboard_id s) k
                          && (Switch.position s =? p)) (switchs db))).
Proof.
  unfold switch_crud.get_switch, with_switch_state. simpl.
  now rewrite find_update_state.
Qed.

Lemma state_of_update_eq db i b :
  state_of db i <> None -> state_of (with_switch_state db i b) i = Some b.
Proof.
  unfold state_of, with_switch_state. simpl.
  rewrite find_update_state by reflexivity.
  destruct (find _ (switchs db)) as [s|] eqn:F; simpl; [|congruence].
  apply find_some in F as [_ E]. now rewrite E.
Qed.

Lemma state_of_update_ne db i b j :
  i <> j -> state_of (with_switch_state db i b) j = state_of db j.
Proof.
  intros Hne. unfold state_of, with_switch_state. simpl.
  rewrite find_update_state by reflexivity.
  destruct (find _ (switchs db)) as [s|] eqn:F; simpl; [|reflexivity].
  apply find_some in F as [_ E]. apply Z.eqb_eq in E.
  destruct (Z.eqb_spec (Switch.id s) i); [congruence | reflexivity].
Qed.

(** [toggle] either raises and leaves the session as it was, or sets the
    state of the switch, which was not locked. *)
Lemma toggle_effect i b db db' res :
  switch_crud.toggle i b db = (db', res) ->
  (db' = db /\ exists e, res = Raise e)
  \/ (db' = with_switch_state db i b
      /\ exists s, find (fun s => Switch.id s =? i) (switchs db) = Some s
                   /\ Switch.locked s = false
                   /\ res = Ok (Switch.with_state s b)).
Proof.
  unfold switch_crud.toggle, switch_crud.get_switch_by_id.
  destruct (find (fun s => Switch.id s =? i) (switchs db)) as [s|] eqn:F.
  - destruct (Switch.locked s) eqn:L; simpl; intros [= <- <-]; eauto.
    right. split; [reflexivity|]. exists s. auto.
  - destruct (switch_crud.in_int64 i); intros [= <- <-]; eauto.
Qed.

(** For the id of a row of the table, the exception is that of the lock. *)
Lemma toggle_row_effect s b db db' res :
  In s (switchs db) ->
  switch_crud.toggle (Switch.id s) b db = (db', res) ->
  (db' = db /\ exists c d, res = Raise (HTTPException c d))
  \/ (db' = with_switch_state db (Switch.id s) b
      /\ exists r, find (fun r => Switch.id r =? Switch.id s) (switchs db)
                   = Some r
                   /\ Switch.locked r = false
                   /\ res = Ok (Switch.with_state r b)).
Proof.
  intros Hin. destruct (get_switch_by_id_In db s Hin) as (r & G & _ & _).
  pose proof (get_switch_by_id_Some _ _ _ G) as F.
  unfold switch_crud.toggle. rewrite G.
  destruct (Switch.locked r) eqn:L; simpl; intros [= <- <-]; eauto.
  right. split; [reflexivity|]. exists r. auto.
Qed.

(** ** Reconciler: one entry *)

Lemma index_raises l x i e : index_from l x i = Raise e -> e = ValueError.
Proof.
  revert i. induction l as [|y l IH]; simpl; intros i.
  - now intros [= <-].
  - destruct (String.eqb y x); [discriminate | apply IH].
Qed.

(** The outcomes of reconciling one entry: the nickname is not in the
    table; no switch is found; a switch is found and [toggle] raises, or
    the state is neither "ON" nor "OFF"; a switch is found and its state
    is set. *)
Lemma update_entry_effect k errors n v db db' res :
  update_entry k errors (n, v) db = (db', res) ->
  (db' = db /\ res = Raise ValueError)
  \/ (db' = db /\ reconciled_switch db k n = None
      /\ exists e, res = Ok (append errors e))
  \/ (exists s, reconciled_switch db k n = Some s
      /\ ((db' = db /\ (v = "ON" \/ v = "OFF")
           /\ exists c d, res = Raise (HTTPException c d))
          \/ (db' = db /\ v <> "ON" /\ v <> "OFF" /\ res = Raise TypeError)
          \/ (exists b, db' = with_switch_state db (Switch.id s) b
                        /\ res = Ok errors
                        /\ (v = "ON" /\ b = true \/ v = "OFF" /\ b = false)))).
Proof.
  unfold update_entry, reconciled_switch, mbind, lift, read, ret, throw.
  destruct (index switchs_nicknames n) as [i|e] eqn:I.
  - cbn [switch_crud.get_switch].
    destruct (find _ (switchs db)) as [s|] eqn:Fs.
    + intros H. right. right. exists s. split; [reflexivity|].
      apply find_some in Fs as [Hs _].
      destruct (String.eqb_spec v "ON") as [-> | Hon];
        [|destruct (String.eqb_spec v "OFF") as [-> | Hoff]].
      * destruct (switch_crud.toggle (Switch.id s) true db) as [db1 r] eqn:T.
        apply (toggle_row_effect _ _ _ _ _ Hs) in T
          as [[-> (c & d & ->)] | [-> (s0 & F & L & ->)]];
          injection H as <- <-.
        -- left. eauto 6.
        -- right. right. exists true. auto.
      * destruct (switch_crud.toggle (Switch.id s) false db) as [db1 r] eqn:T.
        apply (toggle_row_effect _ _ _ _ _ Hs) in T
          as [[-> (c & d & ->)] | [-> (s0 & F & L & ->)]];
          injection H as <- <-.
        -- left. eauto 6.
        -- right. right. exists false. auto.
      * injection H as <- <-. right. left. auto.
    + intros [= <- <-]. right. left. repeat split. eauto.
  - intros [= <- <-]. left. apply index_raises in I. now subst e.
Qed.

Lemma reconciled_switch_found db k n s :
  reconciled_switch db k n = Some s ->
  In s (switchs db)
  /\ Switch.switchboard_id s = Some k
  /\ exists i, index switchs_nicknames n = Ok i /\ Switch.position s = i + 1.
Proof.
  unfold reconciled_switch.
  destruct (index switchs_nicknames n) as [i|]; [|discriminate].
  cbn [switch_crud.get_switch]. intros F. apply find_some in F as [Hin Hq].
  apply andb_true_iff in Hq as [Hk Hp]. split; [assumption|]. split.
  - unfold opt_eqb in Hk. destruct (Switch.switchboard_id s); [|discriminate].
    apply String.eqb_eq in Hk. now subst.
  - exists i. split; [reflexivity|]. now apply Z.eqb_eq.
Qed.

Lemma In_state_of db s : In s (switchs db) -> state_of db (Switch.id s) <> None.
Proof.
  intros Hin. unfold state_of.
  destruct (find _ (switchs db)) eqn:F; [discriminate|].
  apply (find_none _ _ F) in Hin. now rewrite Z.eqb_refl in Hin.
Qed.

Lemma primary_key_inj db r s :
  primary_key db -> In r (switchs db) -> In s (switchs db) ->
  Switch.id r = Switch.id s -> r = s.
Proof. apply NoDup_map_inj. Qed.

Lemma primary_key_state_of db s :
  primary_key db -> In s (switchs db) ->
  state_of db (Switch.id s) = Some (Switch.state s).
Proof.
  intros Hpk Hin. unfold state_of.
  destruct (find _ (switchs db)) as [r|] eqn:F.
  - apply find_some in F as [Hr E]. apply Z.eqb_eq in E.
    now rewrite (primary_key_inj db r s Hpk Hr Hin E).
  - apply (find_none _ _ F) in Hin. now rewrite Z.eqb_refl in Hin.
Qed.

Lemma reconciled_switch_update db i b k n :
  reconciled_switch (with_switch_state db i b) k n
  = option_map (fun r => if Switch.id r =? i then Switch.with_state r b else r)
      (reconciled_switch db k n).
Proof.
  unfold reconciled_switch.
  destruct (index switchs_nicknames n) as [j|]; [|reflexivity].
  rewrite get_switch_by_position_update. reflexivity.
Qed.

Lemma same_lookups_refl db : same_lookups db db.
Proof. split; auto. Qed.

Lemma same_lookups_trans db1 db2 db3 :
  same_lookups db1 db2 -> same_lookups db2 db3 -> same_lookups db1 db3.
Proof.
  intros [H1 H1'] [H2 H2']. split; [congruence|].
  intros k n. now rewrite H2', H1'.
Qed.

Lemma same_lookups_update db i b : same_lookups db (with_switch_state db i b).
Proof.
  split.
  - apply map_id_update_state.
  - intros k n. unfold reconciled_id. rewrite reconciled_switch_update.
    destruct (reconciled_switch db k n) as [s|]; simpl; [|reflexivity].
    now destruct (Switch.id s =? i).
Qed.

Lemma same_lookups_primary_key db db' :
  same_lookups db db' -> primary_key db -> primary_key db'.
Proof. unfold primary_key. intros [-> _]. auto. Qed.

(** Under the primary key, two entries resolved to the same switch are
    the same entry. *)
Lemma reconciled_id_inj db k n k' n' j :
  primary_key db ->
  reconciled_id db k n = Some j -> reconciled_id db k' n' = Some j ->
  k = k' /\ n = n'.
Proof.
  unfold reconciled_id. intros Hpk H H'.
  destruct (reconciled_switch db k n) as [s|] eqn:R; [|discriminate].
  destruct (reconciled_switch db k' n') as [s'|] eqn:R'; [|discriminate].
  simpl in H, H'. injection H as <-. injection H' as E.
  apply reconciled_switch_found in R as (Hin & Hk & i & Hi & Hp).
  apply reconciled_switch_found in R' as (Hin' & Hk' & i' & Hi' & Hp').
  assert (s' = s) as -> by now apply (primary_key_inj db).
  split; [congruence|].
  assert (i' = i) as -> by lia.
  apply index_nicknames in Hi as [_ Hi], Hi' as [_ Hi']. congruence.
Qed.

(** What one entry does to the state of a switch, seen from outside. *)
Lemma update_entry_step k errors n v db db' res :
  update_entry k errors (n, v) db = (db', res) ->
  same_lookups db db'
  /\ switchboards db' = switchboards db
  /\ (forall j, reconciled_id db k n <> Some j -> state_of db' j = state_of db j)
  /\ (forall errors' j, res = Ok errors' -> reconciled_id db k n = Some j ->
        (v = "ON" /\ state_of db' j = Some true)
        \/ (v = "OFF" /\ state_of db' j = Some false)).
Proof.
  intros H. unfold reconciled_id.
  apply update_entry_effect in H
    as [[-> ->] | [(-> & R & e & ->) | (s & R & Hs)]].
  - repeat split; auto using same_lookups_refl. discriminate.
  - rewrite R. repeat split; auto using same_lookups_refl. discriminate.
  - rewrite R. simpl.
    destruct Hs as [(-> & _ & c & d & ->) | [(-> & _ & _ & ->)
                   | (b & -> & -> & Hb)]].
    + repeat split; auto using same_lookups_refl. discriminate.
    + repeat split; auto using same_lookups_refl. discriminate.
    + split; [apply same_lookups_update|]. split; [reflexivity|]. split.
      * intros j Hj. apply state_of_update_ne. congruence.
      * intros errors' j _ [= <-].
        apply reconciled_switch_found in R as (Hin & _).
        apply In_state_of in Hin.
        destruct Hb as [[-> ->] | [-> ->]]; [left | right];
          (split; [reflexivity | now apply state_of_update_eq]).
Qed.

(** ** Reconciler: the entries of one switchboard *)

Lemma update_entries_cons k it items errors db :
  update_entries k (it :: items) errors db
  = match update_entry k errors it db with
    | (db1, Ok errors1) => update_entries k items errors1 db1
    | (db1, Raise e) => (db1, Raise e)
    end.
Proof. reflexivity. Qed.

Lemma update_entries_same_lookups k items errors db db' res :
  update_entries k items errors db = (db', res) ->
  same_lookups db db' /\ switchboards db' = switchboards db.
Proof.
  revert errors db. induction items as [|[n v] items IH]; intros errors db.
  - intros [= <- _]. split; auto using same_lookups_refl.
  - rewrite update_entries_cons.
    destruct (update_entry k errors (n, v) db) as [db1 [e1|e]] eqn:S;
      apply update_entry_step in S as (Hl & Hb & _).
    + intros H. apply IH in H as [Hl' Hb']. split; [|congruence].
      eapply same_lookups_trans; eauto.
    + intros [= <- _]. auto.
Qed.

(** Entries resolved to other switches leave the state of switch [j]. *)
Lemma update_entries_untouched k items errors db db' res j :
  update_entries k items errors db = (db', res) ->
  (forall n, In n (keys items) -> reconciled_id db k n <> Some j) ->
  state_of db' j = state_of db j.
Proof.
  revert errors db. induction items as [|[n v] items IH]; intros errors db.
  - now intros [= <- _].
  - rewrite update_entries_cons. intros H Hother.
    destruct (update_entry k errors (n, v) db) as [db1 [e1|e]] eqn:S;
      apply update_entry_step in S as ([_ Hl] & _ & Hout & _);
      specialize (Hout j (Hother n (or_introl eq_refl))).
    + rewrite <- Hout. apply (IH _ _ H).
      intros n' Hn'. rewrite Hl. apply Hother. now right.
    + injection H as <- _. exact Hout.
Qed.

(** When the entries of a switchboard are reconciled without an
    exception, the switch an entry resolves to has the state sent. *)
Lemma update_entries_sets k items errors db db' errors' n v j :
  primary_key db -> NoDup (keys items) ->
  update_entries k items errors db = (db', Ok errors') ->
  In (n, v) items -> reconciled_id db k n = Some j ->
  (v = "ON" /\ state_of db' j = Some true)
  \/ (v = "OFF" /\ state_of db' j = Some false).
Proof.
  revert errors db. induction items as [|[n0 v0] items IH]; intros errors db;
    [intros _ _ _ []|].
  intros Hpk Hnd. rewrite update_entries_cons. simpl in Hnd.
  inversion Hnd as [|? ? Hn0 Hnd']; subst.
  destruct (update_entry k errors (n0, v0) db) as [db1 [e1|e]] eqn:S;
    [|discriminate].
  apply update_entry_step in S as (Hl & _ & _ & Hset).
  pose proof (same_lookups_primary_key _ _ Hl Hpk) as Hpk1.
  destruct Hl as [_ Hl].
  intros H [[= -> ->] | Hin] Hj.
  - assert (state_of db' j = state_of db1 j) as ->.
    { apply (update_entries_untouched _ _ _ _ _ _ _ H).
      intros n' Hn' Hj'. rewrite <- Hl in Hj.
      destruct (reconciled_id_inj _ _ _ _ _ _ Hpk1 Hj Hj') as [_ <-].
      contradiction. }
    eapply Hset; eauto.
  - apply (IH _ _ Hpk1 Hnd' H Hin). now rewrite Hl.
Qed.


(** ** Reconciler: the successful switchboards *)

Lemma update_results_cons g r success errors db :
  update_results g (r :: success) errors db
  = match dict_get g (switchboard_id r) with
    | None => (db, Raise AttributeError)
    | Some p =>
        match update_entries (switchboard_id r) p errors db with
        | (db1, Ok errors1) => update_results g success errors1 db1
        | (db1, Raise e) => (db1, Raise e)
        end
    end.
Proof.
  cbn [update_results]. now destruct (dict_get g (switchboard_id r)).
Qed.

Lemma update_results_same_lookups g success errors db db' res :
  update_results g success errors db = (db', res) ->
  same_lookups db db' /\ switchboards db' = switchboards db.
Proof.
  revert errors db. induction success as [|r success IH]; intros errors db.
  - intros [= <- _]. split; auto using same_lookups_refl.
  - rewrite update_results_cons.
    destruct (dict_get g (switchboard_id r)) as [p|].
    + destruct (update_entries (switchboard_id r) p errors db)
        as [db1 [e1|e]] eqn:S;
        apply update_entries_same_lookups in S as [Hl Hb].
      * intros H. apply IH in H as [Hl' Hb']. split; [|congruence].
        eapply same_lookups_trans; eauto.
      * intros [= <- _]. auto.
    + intros [= <- _]. split; auto using same_lookups_refl.
Qed.

Lemma update_results_untouched g success errors db db' res j :
  update_results g success errors db = (db', res) ->
  (forall r p n, In r success -> dict_get g (switchboard_id r) = Some p ->
                 In n (keys p) -> reconciled_id db (switchboard_id r) n <> Some j) ->
  state_of db' j = state_of db j.
Proof.
  revert errors db. induction success as [|r success IH]; intros errors db.
  - now intros [= <- _].
  - rewrite update_results_cons. intros H Hother.
    destruct (dict_get g (switchboard_id r)) as [p|] eqn:G.
    + destruct (update_entries (switchboard_id r) p errors db)
        as [db1 [e1|e]] eqn:S.
      * apply update_entries_same_lookups in S as S'. destruct S' as [[_ Hl] _].
        rewrite <- (update_entries_untouched _ _ _ _ _ _ j S)
          by (intros n Hn; apply (Hother r p n); auto; now left).
        apply (IH _ _ H). intros r' p' n' Hr' Hp' Hn'. rewrite Hl.
        apply (Hother r' p' n'); auto. now right.
      * injection H as <- _.
        apply (update_entries_untouched _ _ _ _ _ _ j S).
        intros n Hn. apply (Hother r p n); auto. now left.
    + now injection H as <- _.
Qed.

Lemma update_results_sets (g : Grouped) success errors db db' errors' r p n v j :
  primary_key db ->
  NoDup (map switchboard_id success) ->
  (forall k q, dict_get g k = Some q -> NoDup (keys q)) ->
  update_results g success errors db = (db', Ok errors') ->
  In r success -> dict_get g (switchboard_id r) = Some p -> In (n, v) p ->
  reconciled_id db (switchboard_id r) n = Some j ->
  (v = "ON" /\ state_of db' j = Some true)
  \/ (v = "OFF" /\ state_of db' j = Some false).
Proof.
  intros Hpk Hnd Hg. revert errors db Hpk Hnd.
  induction success as [|r0 success IH]; intros errors db Hpk Hnd;
    [intros _ []|].
  rewrite update_results_cons. simpl in Hnd.
  inversion Hnd as [|? ? Hr0 Hnd']; subst.
  destruct (dict_get g (switchboard_id r0)) as [p0|] eqn:G0; [|discriminate].
  destruct (update_entries (switchboard_id r0) p0 errors db)
    as [db1 [e1|e]] eqn:S; [|discriminate].
  apply update_entries_same_lookups in S as S'. destruct S' as [Hl _].
  pose proof (same_lookups_primary_key _ _ Hl Hpk) as Hpk1.
  destruct Hl as [_ Hl].
  intros H [<- | Hin] Hp Hnv Hj.
  - assert (state_of db' j = state_of db1 j) as ->.
    { apply (update_results_untouched _ _ _ _ _ _ _ H).
      intros r' p' n' Hr' _ _ Hj'. rewrite <- Hl in Hj.
      destruct (reconciled_id_inj _ _ _ _ _ _ Hpk1 Hj Hj') as [E _].
      apply Hr0. rewrite E. now apply in_map. }
    rewrite G0 in Hp. injection Hp as <-.
    exact (update_entries_sets _ _ _ _ _ _ _ _ _ Hpk (Hg _ _ G0) S Hnv Hj).
  - apply (IH _ _ Hpk1 Hnd' H Hin Hp Hnv). now rewrite Hl.
Qed.


(** ** What the reconciler never writes *)

Lemma find_by_id_stateless rows j :
  find (fun s => Switch.id s =? j) (map stateless rows)
  = option_map stateless (find (fun s => Switch.id s =? j) rows).
Proof.
  induction rows as [|r rows IH]; simpl; [reflexivity|].
  destruct (Switch.id r =? j); auto.
Qed.

Lemma locked_of_stateless db db' j :
  map stateless (switchs db') = map stateless (switchs db) ->
  locked_of db' j = locked_of db j.
Proof.
  intros H. unfold locked_of.
  assert (forall rows,
             option_map Switch.locked (find (fun s => Switch.id s =? j) rows)
             = option_map Switch.locked
                 (find (fun s => Switch.id s =? j) (map stateless rows)))
    as E.
  { intros rows. rewrite find_by_id_stateless. now destruct (find _ rows). }
  now rewrite (E (switchs db')), (E (switchs db)), H.
Qed.

Lemma respects_locks_refl db : respects_locks db db.
Proof. repeat split; auto. Qed.

Lemma respects_locks_trans db1 db2 db3 :
  respects_locks db1 db2 -> respects_locks db2 db3 -> respects_locks db1 db3.
Proof.
  intros (Hb & Hs & Hl) (Hb' & Hs' & Hl'). repeat split; try congruence.
  intros j Hj. rewrite Hl', Hl; auto.
  now rewrite (locked_of_stateless db1 db2 j Hs).
Qed.

Lemma stateless_update_state rows i b :
  map stateless (switch_crud.update_state rows i b) = map stateless rows.
Proof.
  unfold switch_crud.update_state. rewrite map_map. apply map_ext.
  intros r. now destruct (Switch.id r =? i).
Qed.

Lemma toggle_respects_locks i b db db' res :
  switch_crud.toggle i b db = (db', res) -> respects_locks db db'.
Proof.
  intros H. apply toggle_effect in H
    as [[-> _] | [-> (s & F & L & _)]]; [apply respects_locks_refl|].
  split; [reflexivity|]. split; [apply stateless_update_state|].
  intros j Hj. apply state_of_update_ne. intros <-.
  unfold locked_of in Hj. rewrite F in Hj. simpl in Hj. congruence.
Qed.

Lemma update_entry_respects_locks k errors it db db' res :
  update_entry k errors it db = (db', res) -> respects_locks db db'.
Proof.
  destruct it as [n v].
  unfold update_entry, mbind, lift, read, ret, throw.
  destruct (index switchs_nicknames n) as [i|e];
    [|intros [= <- _]; apply respects_locks_refl].
  destruct (switch_crud.get_switch db None (Some k) (Some (i + 1)))
    as [[s|]|e]; try (intros [= <- _]; apply respects_locks_refl).
  destruct (String.eqb v "ON"); [|destruct (String.eqb v "OFF")];
    try (intros [= <- _]; apply respects_locks_refl).
  - destruct (switch_crud.toggle (Switch.id s) true db) as [db1 r] eqn:T.
    apply toggle_respects_locks in T. destruct r; now intros [= <- _].
  - destruct (switch_crud.toggle (Switch.id s) false db) as [db1 r] eqn:T.
    apply toggle_respects_locks in T. destruct r; now intros [= <- _].
Qed.

Lemma update_entries_respects_locks k items errors db db' res :
  update_entries k items errors db = (db', res) -> respects_locks db db'.
Proof.
  revert errors db. induction items as [|it items IH]; intros errors db.
  - intros [= <- _]. apply respects_locks_refl.
  - rewrite update_entries_cons.
    destruct (update_entry k errors it db) as [db1 [e1|e]] eqn:S;
      apply update_entry_respects_locks in S.
    + intros H. apply IH in H. eapply respects_locks_trans; eauto.
    + now intros [= <- _].
Qed.

Lemma update_results_respects_locks (g : Grouped) success errors db db' res :
  update_results g success errors db = (db', res) -> respects_locks db db'.
Proof.
  revert errors db. induction success as [|r success IH]; intros errors db.
  - intros [= <- _]. apply respects_locks_refl.
  - rewrite update_results_cons.
    destruct (dict_get g (switchboard_id r)) as [p|];
      [|intros [= <- _]; apply respects_locks_refl].
    destruct (update_entries (switchboard_id r) p errors db)
      as [db1 [e1|e]] eqn:S; apply update_entries_respects_locks in S.
    + intros H. apply IH in H. eapply respects_locks_trans; eauto.
    + now intros [= <- _].
Qed.

(** ** Reconciler: when a pass returns *)

(** One entry whose nickname is in the table and whose state is "ON" or
    "OFF": the lookup by position, then [toggle]. *)
Lemma update_entry_in_table k errors n q (b : bool) db :
  index switchs_nicknames n = Ok q ->
  update_entry k errors (n, if b then "ON" else "OFF") db
  = match switch_crud.get_switch db None (Some k) (Some (q + 1)) with
    | Ok (Some s) =>
        match switch_crud.toggle (Switch.id s) b db with
        | (db', Ok _) => (db', Ok errors)
        | (db', Raise e) => (db', Raise e)
        end
    | Ok None =>
        (db, Ok (append errors
                   ("Switch associated with nickname " ++ n
                    ++ " associated with switchboard " ++ k
                    ++ " not found in the database.")))
    | Raise e => (db, Raise e)
    end.
Proof.
  intros Hq. unfold update_entry, mbind, lift, read, ret, throw. rewrite Hq.
  destruct (switch_crud.get_switch db None (Some k) (Some (q + 1)))
    as [[s|]|e]; try reflexivity.
  destruct b; cbv beta iota delta [String.eqb Ascii.eqb Bool.eqb];
    reflexivity.
Qed.

Lemma toggle_unlocked j b db :
  locked_of db j = Some false ->
  exists s, switch_crud.toggle j b db = (with_switch_state db j b, Ok s).
Proof.
  unfold locked_of.
  destruct (find (fun s => Switch.id s =? j) (switchs db)) as [s|] eqn:F;
    [|discriminate].
  intros [= L]. unfold switch_crud.toggle.
  rewrite (get_switch_by_id_found _ _ _ F), L. simpl. eauto.
Qed.

Lemma primary_key_locked_of db s :
  primary_key db -> In s (switchs db) ->
  locked_of db (Switch.id s) = Some (Switch.locked s).
Proof.
  intros Hpk Hin. unfold locked_of.
  destruct (find (fun r => Switch.id r =? Switch.id s) (switchs db))
    as [r|] eqn:F.
  - apply find_some in F as [Hr E]. apply Z.eqb_eq in E.
    now rewrite (primary_key_inj db r s Hpk Hr Hin E).
  - apply (find_none _ _ F) in Hin. now rewrite Z.eqb_refl in Hin.
Qed.

Lemma update_entry_returns k errors n v db :
  (exists q, index switchs_nicknames n = Ok q) ->
  v = "ON" \/ v = "OFF" ->
  (forall j, reconciled_id db k n = Some j -> locked_of db j = Some false) ->
  exists db' errors', update_entry k errors (n, v) db = (db', Ok errors').
Proof.
  intros [q Hq] Hv Hl.
  assert (exists b : bool, v = if b then "ON" else "OFF") as [b ->]
    by (destruct Hv as [-> | ->]; [now exists true | now exists false]).
  rewrite (update_entry_in_table _ _ _ _ _ _ Hq).
  unfold reconciled_id, reconciled_switch in Hl. rewrite Hq in Hl.
  destruct (switch_crud.get_switch db None (Some k) (Some (q + 1)))
    as [[s|]|e] eqn:G.
  - destruct (toggle_unlocked (Switch.id s) b db (Hl _ eq_refl)) as [s' ->].
    eauto.
  - eauto.
  - discriminate G.
Qed.

Lemma reconcilable_step db db' k p :
  same_lookups db db' -> respects_locks db db' ->
  reconcilable db k p -> reconcilable db' k p.
Proof.
  intros [_ Hl] (_ & Hs & _) H n v Hin.
  destruct (H n v Hin) as (Hq & Hv & Hu).
  split; [assumption|]. split; [assumption|].
  intros j Hj. rewrite Hl in Hj.
  rewrite (locked_of_stateless db db' j Hs). auto.
Qed.

Lemma update_entries_returns k items errors db :
  reconcilable db k items ->
  exists db' errors', update_entries k items errors db = (db', Ok errors').
Proof.
  revert errors db. induction items as [|[n v] items IH]; intros errors db H.
  - exists db, errors. reflexivity.
  - rewrite update_entries_cons.
    destruct (H n v (or_introl eq_refl)) as (Hq & Hv & Hu).
    destruct (update_entry_returns k errors n v db Hq Hv Hu)
      as (db1 & e1 & S).
    rewrite S. apply IH. apply (reconcilable_step db db1).
    + now apply update_entry_step in S as (Hl & _).
    + now apply update_entry_respects_locks in S.
    + intros n' v' Hin. apply H. now right.
Qed.

Lemma update_results_returns (g : Grouped) success errors db :
  (forall r, In r success ->
     exists p, dict_get g (switchboard_id r) = Some p
               /\ reconcilable db (switchboard_id r) p) ->
  exists db' errors', update_results g success errors db = (db', Ok errors').
Proof.
  revert errors db. induction success as [|r success IH]; intros errors db H.
  - exists db, errors. reflexivity.
  - rewrite update_results_cons.
    destruct (H r (or_introl eq_refl)) as (p & -> & Hp).
    destruct (update_entries_returns (switchboard_id r) p errors db Hp)
      as (db1 & e1 & S).
    rewrite S. apply IH. intros r' Hr'.
    destruct (H r' (or_intror Hr')) as (p' & Hg & Hp').
    exists p'. split; [assumption|].
    apply (reconcilable_step db db1); auto.
    + now apply update_entries_same_lookups in S as [Hl _].
    + now apply update_entries_respects_locks in S.
Qed.

(** Under the primary key, entries that resolve to switches that are not
    locked can be reconciled. *)
Lemma unlocked_reconcilable db k (p : Payload) :
  primary_key db ->
  (forall n v, In (n, v) p ->
     (exists q, index switchs_nicknames n = Ok q)
     /\ (v = "ON" \/ v = "OFF")
     /\ forall s, reconciled_switch db k n = Some s ->
                  Switch.locked s = false) ->
  reconcilable db k p.
Proof.
  intros Hpk H n v Hin. destruct (H n v Hin) as (Hq & Hv & Hu).
  split; [assumption|]. split; [assumption|].
  intros j Hj. unfold reconciled_id in Hj.
  destruct (reconciled_switch db k n) as [s|] eqn:R; [|discriminate].
  injection Hj as <-.
  pose proof (reconciled_switch_found _ _ _ _ R) as (Hs & _).
  rewrite (primary_key_locked_of db s Hpk Hs). now rewrite (Hu s eq_refl).
Qed.

(** ** Reconciler: which switches change state *)

(** Switches on none of the successful switchboards keep their state. *)
Lemma update_database_frame (g : Grouped) success db db' res s :
  primary_key db ->
  update_database g success db = (db', res) ->
  In s (switchs db) ->
  (forall r, In r success ->
             Switch.switchboard_id s <> Some (switchboard_id r)) ->
  state_of db' (Switch.id s) = Some (Switch.state s).
Proof.
  unfold update_database. intros Hpk H Hin Hfailed.
  rewrite (update_results_untouched _ _ _ _ _ _ (Switch.id s) H).
  - now apply primary_key_state_of.
  - intros r p n Hr _ _ Hj. unfold reconciled_id in Hj.
    destruct (reconciled_switch db (switchboard_id r) n) as [s'|] eqn:R;
      [|discriminate].
    injection Hj as Hj.
    apply reconciled_switch_found in R as (Hin' & Hk & _).
    apply (primary_key_inj db s' s Hpk Hin' Hin) in Hj. subst s'.
    exact (Hfailed r Hr Hk).
Qed.

(** C4, as stated, fails.  Board 1 answers and board 2 does not; the
    payload of board 1 holds the entry of switch 2, which is locked,
    before that of switch 1: [toggle] raises 403 out of the reconciler
    and switch 1, on the switchboard that succeeded and sent "ON", is
    still off.  So it is through the orchestrator, for the batch that
    names switches 2, 1 and 3. *)
Lemma locked_entry_stops_the_reconciliation :
  let g := [("sb1", [("relay2", "OFF"); ("relay1", "ON")]);
            ("sb2", [("relay1", "ON")])] in
  let run :=
    update_database g
      [Installation.board1_succeeded [("relay2", "OFF"); ("relay1", "ON")]]
      Installation.db in
  let call :=
    process_toggle_request Installation.only_board1 Installation.db
      (Installation.request [(2, false); (1, true); (3, true)]) in
  reconciled_switch Installation.db "sb1" "relay1" = Some Installation.switch1
  /\ snd run = Raise (HTTPException 403
                       "Switch state is locked and cannot be updated.")
  /\ state_of (fst run) 1 = Some false
  /\ map json (snd (fst call))
     = [[("relay2", "OFF"); ("relay1", "ON")]; [("relay1", "ON")]]
  /\ snd call = Raise (HTTPException 403
                        "Switch state is locked and cannot be updated.")
  /\ state_of (fst (fst call)) 1 = Some false.
Proof. repeat split. Qed.

(** C4, amended: over a table with its primary key, whatever the
    dispatch outcomes and however reconciliation ends (list of errors or
    exception), a switch that sits on none of the switchboards of the
    successful results keeps its persisted state, and no row and no
    switchboard is added or removed.  When reconciliation returns, every
    switch an entry of a successful switchboard resolves to has the state
    that entry carried (successful results bearing distinct switchboard
    ids, payloads being dicts).  And reconciliation does return when
    every successful switchboard has its payload, and every entry of
    these payloads names a relay of the table, carries "ON" or "OFF" and
    resolves to no switch or to a switch that is not locked. *)
Theorem reconciler_updates_only_successful_switchboards
    (g : Grouped) success db db' res :
  primary_key db ->
  update_database g success db = (db', res) ->
  (forall s,
     In s (switchs db) ->
     (forall r, In r success ->
                Switch.switchboard_id s <> Some (switchboard_id r)) ->
     state_of db' (Switch.id s) = Some (Switch.state s))
  /\ map Switch.id (switchs db') = map Switch.id (switchs db)
  /\ switchboards db' = switchboards db
  /\ (forall errors r p n v s,
        res = Ok errors ->
        NoDup (map switchboard_id success) ->
        (forall k q, dict_get g k = Some q -> NoDup (keys q)) ->
        In r success -> dict_get g (switchboard_id r) = Some p ->
        In (n, v) p ->
        reconciled_switch db (switchboard_id r) n = Some s ->
        (v = "ON" /\ state_of db' (Switch.id s) = Some true)
        \/ (v = "OFF" /\ state_of db' (Switch.id s) = Some false))
  /\ ((forall r, In r success ->
         exists p, dict_get g (switchboard_id r) = Some p) ->
      (forall r p n v,
         In r success -> dict_get g (switchboard_id r) = Some p ->
         In (n, v) p ->
         (exists q, index switchs_nicknames n = Ok q)
         /\ (v = "ON" \/ v = "OFF")
         /\ forall s, reconciled_switch db (switchboard_id r) n = Some s ->
                      Switch.locked s = false) ->
      exists errors, res = Ok errors).
Proof.
  unfold update_database. intros Hpk H.
  pose proof (update_results_same_lookups _ _ _ _ _ _ H) as [[Hid _] Hb].
  split; [|split; [|split; [|split]]]; auto.
  - intros s Hin Hfailed.
    exact (update_database_frame g success db db' res s Hpk H Hin Hfailed).
  - intros errors r p n v s -> Hnd Hg Hr Hp Hnv Hs.
    apply (update_results_sets g success [] db db' errors r p n v);
      auto.
    unfold reconciled_id. now rewrite Hs.
  - intros Hkeys Hentries.
    destruct (update_results_returns g success [] db) as (db1 & errors & R).
    { intros r Hr. destruct (Hkeys r Hr) as [p Hp]. exists p.
      split; [assumption|]. apply unlocked_reconcilable; [assumption|].
      intros n v Hnv. exact (Hentries r p n v Hr Hp Hnv). }
    rewrite R in H. injection H as _ <-. now exists errors.
Qed.

(** The results of a dispatch bear the switchboard ids of the payload,
    in order. *)
Lemma send_multiple_result_ids post db (g : Grouped) results :
  map (fun '(k, p) => snd (send_switchboard_request post db k p)) g
  = map Ok results ->
  map switchboard_id results = keys g.
Proof.
  revert results. induction g as [|[k p] g IH]; intros [|r results]; simpl;
    try discriminate; auto.
  intros [= Hr Hrest].
  destruct (send_switchboard_request post db k p) as [sent r'] eqn:E.
  simpl in Hr. subst r'.
  apply send_switchboard_request_result in E as [-> _].
  unfold keys in IH. now rewrite (IH _ Hrest).
Qed.

(** Through the orchestrator: whatever the batch and the network, and
    whether the call returns or raises, a switch on a switchboard whose
    dispatch failed keeps its persisted state. *)
Lemma failed_dispatch_keeps_state
    post db request_data g building_errors sent success errors s r :
  primary_key db ->
  build_switchs_by_switchboard db request_data = Ok (g, building_errors) ->
  send_multiple_switchboard_requests post db g = (sent, Ok (success, errors)) ->
  In s (switchs db) -> In r errors ->
  Switch.switchboard_id s = Some (switchboard_id r) ->
  state_of (fst (fst (process_toggle_request post db request_data)))
    (Switch.id s)
  = Some (Switch.state s).
Proof.
  intros Hpk Hbuild Hsend Hin Hr Hon.
  unfold process_toggle_request. rewrite Hbuild, Hsend.
  destruct (update_database g success db) as [db' res] eqn:U.
  assert (state_of db' (Switch.id s) = Some (Switch.state s)) as Hkept.
  { apply (update_database_frame g success db db' res s Hpk U Hin).
    intros r' Hr' E. rewrite Hon in E. injection E as E.
    apply build_well_grouped in Hbuild as [Hnd _].
    apply send_multiple_results in Hsend as (results & Hres & -> & ->).
    apply send_multiple_result_ids in Hres. rewrite <- Hres in Hnd.
    apply filter_In in Hr as [Hr Hfail], Hr' as [Hr' Hok].
    rewrite (NoDup_map_inj switchboard_id results r r' Hnd Hr Hr' E) in Hfail.
    rewrite Hok in Hfail. discriminate. }
  now destruct res.
Qed.

(** ** Reconciler: payloads built by the grouper *)



(** A payload for one switchboard that answers: one POST, one success. *)
Lemma send_one_success post db k p b c :
  switchboard_crud.get_switchboard db (Some k) = Ok (Some b) ->
  post ("http://" ++ Switchboard.ip_address b ++ "/control") p = Responded c ->
  send_multiple_switchboard_requests post db [(k, p)]
  = ([ {| endpoint := "http://" ++ Switchboard.ip_address b ++ "/control";
          headers := [("Content-Type", "application/json")];
          json := p |} ],
     Ok ([ {| switchboard_id := k; status := "success"; error := None;
              response_status_code := Some c; payload_sent := Some p |} ],
         [])).
Proof.
  intros Hb Hp.
  unfold send_multiple_switchboard_requests, send_switchboard_request.
  cbn [map]. rewrite Hb. cbn [fst snd map concat app gather].
  rewrite Hp. reflexivity.
Qed.

(** ** Toggling a switch to the state it has *)

Section Idempotence.

Variables (db : Session) (i : Z) (s : Switch.t) (k : string)
          (b : Switchboard.t).

(** The switch exists, is unlocked and sits on a relay of the table. *)
Hypothesis Hswitch :
  switch_crud.get_switch db (Some i) None None = Ok (Some s).
Hypothesis Hunlocked : Switch.locked s = false.
Hypothesis Hposition : 1 <= Switch.position s <= 8.
(** Its switchboard exists. *)
Hypothesis Hon : Switch.switchboard_id s = Some k.
Hypothesis Hboard :
  switchboard_crud.get_switchboard db (Some k) = Ok (Some b).
(** It is the switch found at its position on its switchboard. *)
Hypothesis Hunique :
  switch_crud.get_switch db None (Some k) (Some (Switch.position s))
  = Ok (Some s).

Local Abbreviation nickname := ("relay" ++ str (Switch.position s)).
Local Abbreviation state_str := (if Switch.state s then "ON" else "OFF").
Local Abbreviation request_data :=
  {| switch_schema.switchs := [(i, Switch.state s)] |}.

Lemma current_state_grouped :
  build_switchs_by_switchboard db request_data
  = Ok ([(k, [(nickname, state_str)])], []).
Proof.
  unfold build_switchs_by_switchboard.
  cbn [switch_schema.switchs build_loop].
  apply get_switchboard_Some in Hboard as Hb. destruct Hb as [[= Hk] _].
  rewrite (build_step_resolved db _ _ i (Switch.state s) s b Hswitch)
    by now rewrite Hon.
  rewrite (nickname_in_table _ Hposition), Hunlocked, <- Hk. reflexivity.
Qed.

Lemma current_state_reconciled r :
  switchboard_id r = k ->
  update_database [(k, [(nickname, state_str)])] [r] db
  = (with_switch_state db i (Switch.state s), Ok []).
Proof.
  intros Hr. unfold update_database. cbn [update_results].
  rewrite Hr. cbn [dict_get]. rewrite String.eqb_refl.
  unfold mbind at 1. cbn [update_entries]. unfold mbind at 1.
  assert (index switchs_nicknames nickname = Ok (Switch.position s - 1))
    as Hindex.
  { apply index_getitem_nicknames; [lia|].
    now apply nickname_in_table. }
  assert (find (fun x => Switch.id x =? Switch.id s) (switchs db) = Some s
          /\ Switch.id s = i) as [Hfind Hid].
  { pose proof (get_switch_by_id_Some _ _ _ Hswitch) as F.
    apply find_some in F as F'. destruct F' as [_ E].
    apply Z.eqb_eq in E. now rewrite E. }
  assert (update_entry k [] (nickname, state_str) db
          = (with_switch_state db i (Switch.state s), Ok [])) as ->.
  { unfold update_entry, mbind, lift, read, ret.
    rewrite Hindex.
    replace (Switch.position s - 1 + 1) with (Switch.position s) by lia.
    rewrite Hunique.
    destruct (Switch.state s); cbv beta iota delta [String.eqb Ascii.eqb Bool.eqb];
      unfold switch_crud.toggle;
      rewrite (get_switch_by_id_found _ _ _ Hfind), Hunlocked, Hid;
      reflexivity. }
  reflexivity.
Qed.

Lemma current_state_call post c :
  post ("http://" ++ Switchboard.ip_address b ++ "/control")
       [(nickname, state_str)] = Responded c ->
  process_toggle_request post db request_data
  = (with_switch_state db i (Switch.state s),
     [ {| endpoint := "http://" ++ Switchboard.ip_address b ++ "/control";
          headers := [("Content-Type", "application/json")];
          json := [(nickname, state_str)] |} ],
     Ok []).
Proof.
  intros Hpost. unfold process_toggle_request.
  rewrite current_state_grouped.
  rewrite (send_one_success post db k _ b c Hboard Hpost).
  rewrite current_state_reconciled by reflexivity. reflexivity.
Qed.

(** The session after the call satisfies what was assumed of [db]. *)
Lemma current_state_kept :
  let db1 := with_switch_state db i (Switch.state s) in
  switch_crud.get_switch db1 (Some i) None None = Ok (Some s)
  /\ switchboard_crud.get_switchboard db1 (Some k) = Ok (Some b)
  /\ switch_crud.get_switch db1 None (Some k) (Some (Switch.position s))
     = Ok (Some s)
  /\ state_of db1 i = Some (Switch.state s)
  /\ (primary_key db -> db1 = db).
Proof.
  assert (In s (switchs db) /\ Switch.id s = i) as [Hin Hid].
  { pose proof (get_switch_by_id_Some _ _ _ Hswitch) as F.
    apply find_some in F as [Hin E]. apply Z.eqb_eq in E. auto. }
  cbn zeta. split; [|split; [|split; [|split]]].
  - rewrite (get_switch_by_id_update _ _ _ _ _ Hswitch).
    simpl. rewrite Hid, Z.eqb_refl. now rewrite with_state_same.
  - exact Hboard.
  - rewrite get_switch_by_position_update.
    unfold switch_crud.get_switch in Hunique. injection Hunique as ->.
    simpl. rewrite Hid, Z.eqb_refl. now rewrite with_state_same.
  - apply state_of_update_eq. rewrite <- Hid. now apply In_state_of.
  - intros Hpk. unfold with_switch_state. destruct db as [boards rows].
    simpl in *. f_equal. unfold switch_crud.update_state.
    rewrite <- (map_id rows) at 2. apply map_ext_in. intros r Hr.
    destruct (Z.eqb_spec (Switch.id r) i) as [E|]; [|reflexivity].
    assert (r = s) as -> by (apply (primary_key_inj _ r s Hpk); simpl; congruence).
    apply with_state_same.
Qed.

End Idempotence.

(** C9, as stated, fails.  Switch 8 exists, is not locked and is on; it
    shares relay 2 of board 1 with switch 2, which is locked and comes
    first in the table.  Asked to be on, its pair is grouped and
    dispatched, board 1 answers, and the reconciler resolves the entry to
    switch 2: the call ends in the 403 of [toggle].  Likewise for switch
    4, not locked and off, whose position 0 is filed under relay 8, where
    a locked switch sits. *)
Lemma toggle_to_current_state_raises :
  let call :=
    process_toggle_request Installation.all_up Installation.db_spare
      (Installation.request [(8, true)]) in
  let call4 :=
    process_toggle_request Installation.all_up Installation.db_valve
      (Installation.request [(4, false)]) in
  switch_crud.get_switch Installation.db_spare (Some 8) None None
  = Ok (Some Installation.switch8)
  /\ Switch.locked Installation.switch8 = false
  /\ Switch.state Installation.switch8 = true
  /\ map json (snd (fst call)) = [[("relay2", "ON")]]
  /\ snd call = Raise (HTTPException 403
                        "Switch state is locked and cannot be updated.")
  /\ switch_crud.get_switch Installation.db_valve (Some 4) None None
     = Ok (Some Installation.switch4)
  /\ Switch.locked Installation.switch4 = false
  /\ Switch.state Installation.switch4 = false
  /\ map json (snd (fst call4)) = [[("relay8", "OFF")]]
  /\ snd call4 = Raise (HTTPException 403
                         "Switch state is locked and cannot be updated.").
Proof. repeat split. Qed.

(** C9, amended: take an existing switch that is not locked, sits on a
    relay of the table (position 1..8), on a switchboard that exists and
    on which it is the switch found at that position.  Send twice, in two
    orchestration calls, the batch asking for the state it has, the
    switchboard answering both POSTs: both calls return the empty report,
    and after each of them the persisted state of the switch is the
    initial one; over a table with its primary key the whole session is
    as it was. *)
Theorem toggle_to_current_state_twice post1 post2 db i s k b c1 c2 :
  switch_crud.get_switch db (Some i) None None = Ok (Some s) ->
  Switch.locked s = false ->
  1 <= Switch.position s <= 8 ->
  Switch.switchboard_id s = Some k ->
  switchboard_crud.get_switchboard db (Some k) = Ok (Some b) ->
  switch_crud.get_switch db None (Some k) (Some (Switch.position s))
  = Ok (Some s) ->
  post1 ("http://" ++ Switchboard.ip_address b ++ "/control")
        [("relay" ++ str (Switch.position s),
          if Switch.state s then "ON" else "OFF")] = Responded c1 ->
  post2 ("http://" ++ Switchboard.ip_address b ++ "/control")
        [("relay" ++ str (Switch.position s),
          if Switch.state s then "ON" else "OFF")] = Responded c2 ->
  let request_data := {| switch_schema.switchs := [(i, Switch.state s)] |} in
  let first := process_toggle_request post1 db request_data in
  let second := process_toggle_request post2 (fst (fst first)) request_data in
  snd first = Ok []
  /\ snd second = Ok []
  /\ state_of (fst (fst first)) i = Some (Switch.state s)
  /\ state_of (fst (fst second)) i = Some (Switch.state s)
  /\ (primary_key db -> fst (fst second) = db).
Proof.
  intros Hswitch Hunlocked Hposition Hon Hboard Hunique Hpost1 Hpost2.
  cbn zeta.
  rewrite (current_state_call db i s k b Hswitch Hunlocked Hposition Hon
             Hboard Hunique post1 c1 Hpost1).
  cbn [fst snd].
  destruct (current_state_kept db i s k b Hswitch Hboard Hunique)
    as (Hswitch1 & Hboard1 & Hunique1 & Hstate1 & Hsame1).
  cbn zeta in *.
  rewrite (current_state_call _ i s k b Hswitch1 Hunlocked Hposition Hon
             Hboard1 Hunique1 post2 c2 Hpost2).
  cbn [fst snd].
  destruct (current_state_kept _ i s k b Hswitch1 Hboard1 Hunique1)
    as (_ & _ & _ & Hstate2 & Hsame2).
  cbn zeta in *.
  repeat split; auto.
  intros Hpk. rewrite (Hsame1 Hpk) in Hsame2 |- *.
  rewrite (Hsame1 Hpk). auto.
Qed.

(** ** The theorems at work on the installation *)

Lemma installation_primary_key : primary_key Installation.db.
Proof.
  unfold primary_key. simpl. repeat constructor; simpl; lia.
Defined.

Lemma toggle_to_current_state_twice_witness :
  let request_data := Installation.request [(1, false)] in
  let first :=
    process_toggle_request Installation.all_up Installation.db request_data in
  let second :=
    process_toggle_request Installation.all_up (fst (fst first)) request_data in
  snd first = Ok []
  /\ snd second = Ok []
  /\ state_of (fst (fst first)) 1 = Some false
  /\ state_of (fst (fst second)) 1 = Some false
  /\ (primary_key Installation.db -> fst (fst second) = Installation.db).
Proof.
  apply (toggle_to_current_state_twice Installation.all_up Installation.all_up
           Installation.db 1 Installation.switch1 "sb1" Installation.board1
           200 200); try reflexivity.
  simpl. lia.
Defined.

Lemma reconciler_updates_only_successful_switchboards_witness :
  let g := [("sb1", [("relay1", "ON")]); ("sb2", [("relay1", "ON")])] in
  let run :=
    update_database g [Installation.board1_succeeded [("relay1", "ON")]]
      Installation.db in
  state_of (fst run) 3 = Some false
  /\ state_of (fst run) 1 = Some true
  /\ exists errors, snd run = Ok errors.
Proof.
  cbn zeta.
  destruct (reconciler_updates_only_successful_switchboards
              [("sb1", [("relay1", "ON")]); ("sb2", [("relay1", "ON")])]
              [Installation.board1_succeeded [("relay1", "ON")]]
              Installation.db _ _ installation_primary_key eq_refl)
    as (Hframe & _ & _ & Hset & Hreturns).
  split; [|split].
  3:{ apply Hreturns.
      - intros r [<- | []]. now exists [("relay1", "ON")].
      - intros r p n v [<- | []] [= <-] [[= <- <-] | []].
        split; [now exists 0|]. split; [now left|].
        now intros s [= <-]. }
  - apply (Hframe Installation.switch3).
    + simpl. auto.
    + intros r [<- | []]. discriminate.
  - assert (NoDup (map switchboard_id
                     [Installation.board1_succeeded [("relay1", "ON")]]))
      as Hdistinct by (repeat constructor; simpl; tauto).
    assert (forall k q,
               dict_get [("sb1", [("relay1", "ON")]); ("sb2", [("relay1", "ON")])] k
               = Some q -> NoDup (keys q)) as Hdicts.
    { intros k q Hq. apply dict_get_In in Hq.
      destruct Hq as [[= <- <-] | [[= <- <-] | []]];
        repeat constructor; simpl; tauto. }
    destruct (Hset [] (Installation.board1_succeeded [("relay1", "ON")])
                [("relay1", "ON")] "relay1" "ON" Installation.switch1
                eq_refl Hdistinct Hdicts (or_introl eq_refl) eq_refl
                (or_introl eq_refl) eq_refl)
      as [[_ H] | [H _]]; [exact H | discriminate].
Defined.

Lemma one_post_per_switchboard_last_pair_wins_witness :
  let g := [("sb1", [("relay1", "OFF")]); ("sb2", [("relay1", "ON")])] in
  NoDup (keys g)
  /\ Forall2 (post_of Installation.db_twins) g
       (fst (send_multiple_switchboard_requests Installation.only_board1
               Installation.db_twins g))
  /\ get2 g "sb1" "relay1" = Some "OFF".
Proof.
  cbn zeta.
  destruct (one_post_per_switchboard_last_pair_wins Installation.only_board1
              Installation.db_twins
              (Installation.request [(1, true); (3, true); (7, false)])
              [("sb1", [("relay1", "OFF")]); ("sb2", [("relay1", "ON")])]
              [] eq_refl)
    as (Hnd & Hposts & Hlast & _ & _).
  split; [exact Hnd|]. split; [exact Hposts|].
  apply (Hlast [(1, true); (3, true)] 7 false []); try reflexivity.
  intros it [].
Defined.


(** * Further properties of the service *)

(** ** Batches of unknown switches *)

Lemma build_loop_unknown db items g errors :
  (forall i st, In (i, st) items ->
     switch_crud.get_switch db (Some i) None None = Ok None) ->
  build_loop db items (g, errors)
  = Ok (g, (errors ++ map not_found_error items)%list).
Proof.
  revert errors. induction items as [|[i st] items IH]; intros errors Hun.
  - simpl. now rewrite app_nil_r.
  - cbn [build_loop]. unfold build_step at 1.
    rewrite (Hun i st (or_introl eq_refl)). cbn [bind].
    rewrite IH by (intros i' st' Hin; apply (Hun i' st'); now right).
    unfold append. now rewrite <- app_assoc.
Qed.

(** X1: a batch in which no switch id is found sends no POST, leaves the
    session as it is, and returns one not-found string per pair, in the
    order of the batch. *)
Theorem unknown_switches_only_are_reported post db request_data :
  (forall i st, In (i, st) (switch_schema.switchs request_data) ->
     switch_crud.get_switch db (Some i) None None = Ok None) ->
  process_toggle_request post db request_data
  = (db, [],
     Ok (map (fun it => ErrStr (not_found_error it))
           (switch_schema.switchs request_data))).
Proof.
  intros Hun. unfold process_toggle_request, build_switchs_by_switchboard.
  rewrite (build_loop_unknown _ _ _ _ Hun). simpl.
  now rewrite app_nil_r, map_map.
Qed.

Lemma unknown_switches_only_are_reported_witness :
  process_toggle_request Installation.only_board1 Installation.db
    (Installation.request [(40, true); (41, false)])
  = (Installation.db, [],
     Ok [ErrStr "Switch with id 40 not found.";
         ErrStr "Switch with id 41 not found."]).
Proof.
  apply (unknown_switches_only_are_reported Installation.only_board1
           Installation.db (Installation.request [(40, true); (41, false)])).
  intros i st [[= <- <-] | [[= <- <-] | []]]; reflexivity.
Defined.

(** ** Fan-out Dispatcher: one result per switchboard *)

Lemma filter_partition_Permutation {A} (f : A -> bool) l :
  Permutation (filter f l ++ filter (fun x => negb (f x)) l) l.
Proof.
  induction l as [|a l IH]; simpl; [constructor|].
  destruct (f a); simpl.
  - now constructor.
  - apply Permutation_sym, Permutation_cons_app, Permutation_sym, IH.
Qed.

Lemma send_switchboard_request_dispatch post db k p sent r :
  send_switchboard_request post db k p = (sent, Ok r) ->
  dispatch_of post db (k, p) r /\ post_of db (k, p) (hd
    {| endpoint := ""; headers := []; json := [] |} sent)
  /\ length sent = 1%nat.
Proof.
  unfold send_switchboard_request, dispatch_of, post_of. simpl.
  destruct (switchboard_crud.get_switchboard db (Some k)) as [[b|]|e] eqn:B.
  - pose proof (get_switchboard_Some _ _ _ B) as [[= Hk] _].
    destruct (post _ p) eqn:P; intros [= <- <-]; simpl;
      (repeat split; auto; exists b; rewrite ?P; auto).
  - now apply get_switchboard_not_None in B.
  - discriminate.
Qed.

Lemma send_multiple_dispatch post db (g : Grouped) results :
  map (fun '(k, p) => snd (send_switchboard_request post db k p)) g
  = map Ok results ->
  Forall2 (dispatch_of post db) g results
  /\ Forall2 (post_of db) g
       (fst (send_multiple_switchboard_requests post db g)).
Proof.
  unfold send_multiple_switchboard_requests. cbn [fst].
  revert results. induction g as [|[k p] g IH]; intros [|r results]; simpl;
    try discriminate.
  - split; constructor.
  - intros [= Hr Hrest].
    destruct (send_switchboard_request post db k p) as [sent r'] eqn:E.
    simpl in Hr. subst r'.
    apply send_switchboard_request_dispatch in E as (Hd & Hp & Hlen).
    destruct sent as [|rq [|]]; try discriminate. simpl in Hp.
    destruct (IH _ Hrest) as [IH1 IH2]. simpl. split; constructor; auto.
Qed.

(** X2: when the dispatcher returns, there is exactly one result per
    entry of the grouped payload, in order; each bears the id and the
    payload of its entry and is a success exactly when the device
    responded; the two lists returned split these results, and the POSTs
    sent are those of the entries. *)
Theorem dispatch_gives_one_result_per_switchboard
    post db (g : Grouped) sent success errors :
  send_multiple_switchboard_requests post db g = (sent, Ok (success, errors)) ->
  exists results,
    Forall2 (dispatch_of post db) g results
    /\ success = filter is_success results
    /\ errors = filter (fun r => negb (is_success r)) results
    /\ Permutation (success ++ errors) results
    /\ (length success + length errors = length g)%nat
    /\ Forall2 (post_of db) g sent.
Proof.
  intros H. pose proof H as H'.
  apply send_multiple_results in H' as (results & Hres & -> & ->).
  exists results.
  destruct (send_multiple_dispatch post db g results Hres) as [Hd Hp].
  rewrite H in Hp. cbn [fst] in Hp.
  pose proof (filter_partition_Permutation is_success results) as Hperm.
  repeat split; auto.
  rewrite <- length_app, (Permutation_length Hperm).
  symmetry. eapply Forall2_length; eauto.
Qed.

Lemma dispatch_gives_one_result_per_switchboard_witness :
  exists results,
    Forall2 (dispatch_of Installation.only_board1 Installation.db)
      [("sb1", [("relay1", "ON")]); ("sb2", [("relay1", "OFF")])] results
    /\ [Installation.board1_succeeded [("relay1", "ON")]]
       = filter is_success results
    /\ [ {| switchboard_id := "sb2"; status := "failed";
            error := Some "timed out"; response_status_code := None;
            payload_sent := Some [("relay1", "OFF")] |} ]
       = filter (fun r => negb (is_success r)) results
    /\ Permutation
         ([Installation.board1_succeeded [("relay1", "ON")]]
          ++ [ {| switchboard_id := "sb2"; status := "failed";
                  error := Some "timed out"; response_status_code := None;
                  payload_sent := Some [("relay1", "OFF")] |} ]) results
    /\ (1 + 1 = 2)%nat
    /\ Forall2 (post_of Installation.db)
         [("sb1", [("relay1", "ON")]); ("sb2", [("relay1", "OFF")])]
         [ {| endpoint := "http://10.0.0.1/control";
              headers := [("Content-Type", "application/json")];
              json := [("relay1", "ON")] |};
           {| endpoint := "http://10.0.0.2/control";
              headers := [("Content-Type", "application/json")];
              json := [("relay1", "OFF")] |} ].
Proof.
  apply (dispatch_gives_one_result_per_switchboard Installation.only_board1
           Installation.db
           [("sb1", [("relay1", "ON")]); ("sb2", [("relay1", "OFF")])]).
  reflexivity.
Defined.

(** ** Toggle Orchestrator: the dispatch stage *)

Lemma gather_map_Ok {A} (l : list A) : gather (map Ok l) = Ok l.
Proof. induction l as [|a l IH]; simpl; [|rewrite IH]; reflexivity. Qed.

Lemma resolved_tasks_return post db (g : Grouped) :
  (forall k p, In (k, p) g ->
     exists b, switchboard_crud.get_switchboard db (Some k) = Ok (Some b)
               /\ Switchboard.id b = k) ->
  exists results,
    map (fun '(k, p) => snd (send_switchboard_request post db k p)) g
    = map Ok results.
Proof.
  induction g as [|[k p] g IH]; intros Hres.
  - now exists [].
  - destruct IH as [results IH];
      [intros k' p' Hin; apply (Hres k' p'); now right|].
    destruct (Hres k p (or_introl eq_refl)) as (b & Hb & _).
    destruct (send_switchboard_request_resolved post db k p b Hb) as [_ [r Hr]].
    exists (r :: results). simpl. now rewrite Hr, IH.
Qed.

Lemma send_multiple_of_results post db (g : Grouped) results :
  map (fun '(k, p) => snd (send_switchboard_request post db k p)) g
  = map Ok results ->
  snd (send_multiple_switchboard_requests post db g)
  = Ok (filter is_success results,
        filter (fun r => negb (is_success r)) results).
Proof.
  intros H. unfold send_multiple_switchboard_requests. cbn [snd].
  rewrite map_map.
  erewrite map_ext; [rewrite H | now intros [k p]].
  now rewrite gather_map_Ok.
Qed.

(** X3: the dispatch of a payload built by the grouper on the same
    session never raises, whatever the network does: it returns its two
    lists of results. *)
Theorem grouped_payload_dispatch_returns
    post db request_data g building_errors :
  build_switchs_by_switchboard db request_data = Ok (g, building_errors) ->
  exists sent success errors,
    send_multiple_switchboard_requests post db g
    = (sent, Ok (success, errors)).
Proof.
  intros H. apply build_well_grouped in H as [_ Hall].
  destruct (resolved_tasks_return post db g) as [results Hres].
  { intros k p Hin. now destruct (Hall k p Hin). }
  apply send_multiple_of_results in Hres.
  destruct (send_multiple_switchboard_requests post db g) as [sent r].
  simpl in Hres. subst r. eauto.
Qed.

Lemma grouped_payload_dispatch_returns_witness :
  exists sent success errors,
    send_multiple_switchboard_requests Installation.only_board1
      Installation.db
      [("sb1", [("relay1", "ON")]); ("sb2", [("relay1", "ON")])]
    = (sent, Ok (success, errors)).
Proof.
  apply (grouped_payload_dispatch_returns Installation.only_board1
           Installation.db (Installation.request [(1, true); (3, true)])
           _ []).
  reflexivity.
Defined.

Lemma failed_dispatch_not_success post db kp r :
  (forall endpoint payload, exists e, post endpoint payload = Failed e) ->
  dispatch_of post db kp r -> is_success r = false.
Proof.
  intros Hdown (_ & _ & b & _ & Hp).
  destruct (Hdown ("http://" ++ Switchboard.ip_address b ++ "/control")
              (snd kp)) as [e He].
  rewrite He in Hp. destruct Hp as (Hs & _). unfold is_success. now rewrite Hs.
Qed.

(** X4: when every POST fails, the orchestrator writes nothing: the
    session is left as it was, and the report is the grouping errors
    followed by one failure dict per switchboard of the payload, in
    payload order, each with the error text of its POST. *)
Theorem all_transports_down_writes_nothing
    post db request_data g building_errors :
  (forall endpoint payload, exists e, post endpoint payload = Failed e) ->
  build_switchs_by_switchboard db request_data = Ok (g, building_errors) ->
  exists sent request_errors,
    process_toggle_request post db request_data
    = (db, sent,
       Ok (map ErrStr building_errors ++ map ErrDict request_errors)%list)
    /\ Forall2 (dispatch_of post db) g request_errors
    /\ Forall2 (post_of db) g sent.
Proof.
  intros Hdown H. pose proof (build_well_grouped _ _ _ _ H) as [_ Hall].
  destruct (resolved_tasks_return post db g) as [results Hres].
  { intros k p Hin. now destruct (Hall k p Hin). }
  destruct (send_multiple_dispatch post db g results Hres) as [Hd Hp].
  pose proof (send_multiple_of_results post db g results Hres) as Hsnd.
  assert (Forall (fun r => is_success r = false) results) as Hfail.
  { clear Hres Hp Hsnd.
    clear H Hall.
    induction Hd as [|kp r g' rs Hkr _ IH]; [constructor|].
    constructor;
      [exact (failed_dispatch_not_success post db kp r Hdown Hkr) | exact IH]. }
  assert (filter is_success results = []
          /\ filter (fun r => negb (is_success r)) results = results)
    as [Hs He].
  { clear - Hfail. induction Hfail as [|r l Hr _ [IH1 IH2]]; simpl; auto.
    rewrite Hr. simpl. now rewrite IH1, IH2. }
  rewrite Hs, He in Hsnd.
  exists (fst (send_multiple_switchboard_requests post db g)), results.
  split; [|split; assumption].
  unfold process_toggle_request. rewrite H.
  destruct (send_multiple_switchboard_requests post db g) as [sent r].
  simpl in Hsnd. subst r. reflexivity.
Qed.

Lemma all_transports_down_writes_nothing_witness :
  exists sent request_errors,
    process_toggle_request (fun _ _ => Failed "no route to host")
      Installation.db (Installation.request [(1, true); (9, true)])
    = (Installation.db, sent,
       Ok (map ErrStr ["Switch with id 9 not found."]
           ++ map ErrDict request_errors)%list)
    /\ Forall2 (dispatch_of (fun _ _ => Failed "no route to host")
                  Installation.db)
         [("sb1", [("relay1", "ON")])] request_errors
    /\ Forall2 (post_of Installation.db) [("sb1", [("relay1", "ON")])] sent.
Proof.
  apply (all_transports_down_writes_nothing
           (fun _ _ => Failed "no route to host") Installation.db
           (Installation.request [(1, true); (9, true)])).
  - intros endpoint payload. now exists "no route to host".
  - reflexivity.
Defined.

(** ** From the grouper to the reconciler: nickname and position *)

(** X5: when the grouper files the pair of a switch, it files it under
    the switchboard of the switch and the nickname of a relay q: the
    position of the switch when it is 1..8, position + 8 when it is
    -7..0 (no other position is filed).  The reconciler, given that
    entry, looks up the switch at position q on that switchboard, not
    the switch of the pair: it appends an error when none is found, and
    otherwise calls [toggle] on the switch found, with the state of the
    pair. *)
Theorem filed_entry_is_resolved_by_position
    db (g : Grouped) errors i (st : bool) s g' errors' :
  switch_crud.get_switch db (Some i) None None = Ok (Some s) ->
  build_step db (g, errors) (i, st) = Ok (g', errors') ->
  exists k q,
    Switch.switchboard_id s = Some k
    /\ (1 <= Switch.position s <= 8 /\ q = Switch.position s
        \/ -7 <= Switch.position s <= 0 /\ q = Switch.position s + 8)
    /\ g' = setitem2 g k ("relay" ++ str q) (if st then "ON" else "OFF")
    /\ forall errs db1,
         update_entry k errs ("relay" ++ str q, if st then "ON" else "OFF") db1
         = match switch_crud.get_switch db1 None (Some k) (Some q) with
           | Ok (Some s') =>
               match switch_crud.toggle (Switch.id s') st db1 with
               | (db2, Ok _) => (db2, Ok errs)
               | (db2, Raise e) => (db2, Raise e)
               end
           | Ok None =>
               (db1,
                Ok (append errs
                      ("Switch associated with nickname "
                       ++ ("relay" ++ str q)
                       ++ " associated with switchboard " ++ k
                       ++ " not found in the database.")))
           | Raise e => (db1, Raise e)
           end.
Proof.
  intros Hs. unfold build_step. rewrite Hs. cbn [bind].
  destruct (switchboard_crud.get_switchboard db (Switch.switchboard_id s))
    as [[b|]|e] eqn:B; cbn [bind]; try discriminate.
  2:{ now apply get_switchboard_not_None in B. }
  destruct (getitem switchs_nicknames (Switch.position s - 1)) as [n|e] eqn:G;
    cbn [bind]; [|discriminate].
  intros [= <- _]. apply get_switchboard_Some in B as [Hk _].
  exists (Switchboard.id b).
  assert (1 <= Switch.position s <= 8 \/ -7 <= Switch.position s <= 0
          \/ (Switch.position s < -7 \/ 8 < Switch.position s))
    as [Hp | [Hp | Hp]] by lia.
  - exists (Switch.position s). split; [assumption|]. split; [auto|].
    pose proof (nickname_in_table _ Hp) as Hn. rewrite G in Hn.
    injection Hn as ->. split; [reflexivity|].
    intros errs db1.
    rewrite (update_entry_in_table _ _ _ (Switch.position s - 1))
      by (apply index_getitem_nicknames; [lia | exact G]).
    now replace (Switch.position s - 1 + 1) with (Switch.position s) by lia.
  - exists (Switch.position s + 8). split; [assumption|]. split; [auto|].
    pose proof (nickname_wraps _ Hp) as Hn. rewrite G in Hn.
    injection Hn as ->. split; [reflexivity|].
    intros errs db1.
    rewrite (update_entry_in_table _ _ _ (Switch.position s + 8 - 1))
      by (apply index_getitem_nicknames;
          [lia | apply nickname_in_table; lia]).
    now replace (Switch.position s + 8 - 1 + 1) with (Switch.position s + 8)
      by lia.
  - rewrite (nickname_raises _ Hp) in G. discriminate.
Qed.

Lemma filed_entry_is_resolved_by_position_witness :
  exists k q,
    Switch.switchboard_id Installation.switch4 = Some k
    /\ (1 <= Switch.position Installation.switch4 <= 8
        /\ q = Switch.position Installation.switch4
        \/ -7 <= Switch.position Installation.switch4 <= 0
           /\ q = Switch.position Installation.switch4 + 8)
    /\ [("sb2", [("relay8", "ON")])]
       = setitem2 [] k ("relay" ++ str q) (if true then "ON" else "OFF")
    /\ forall errs db1,
         update_entry k errs ("relay" ++ str q, if true then "ON" else "OFF")
           db1
         = match switch_crud.get_switch db1 None (Some k) (Some q) with
           | Ok (Some s') =>
               match switch_crud.toggle (Switch.id s') true db1 with
               | (db2, Ok _) => (db2, Ok errs)
               | (db2, Raise e) => (db2, Raise e)
               end
           | Ok None =>
               (db1,
                Ok (append errs
                      ("Switch associated with nickname "
                       ++ ("relay" ++ str q)
                       ++ " associated with switchboard " ++ k
                       ++ " not found in the database.")))
           | Raise e => (db1, Raise e)
           end.
Proof.
  apply (filed_entry_is_resolved_by_position Installation.db [] [] 4 true
           Installation.switch4 [("sb2", [("relay8", "ON")])] []);
    reflexivity.
Defined.

(** ** What the orchestrator never writes *)

Lemma process_respects_locks post db request_data :
  respects_locks db (fst (fst (process_toggle_request post db request_data))).
Proof.
  unfold process_toggle_request.
  destruct (build_switchs_by_switchboard db request_data) as [[g be]|e];
    [|apply respects_locks_refl].
  destruct (send_multiple_switchboard_requests post db g)
    as [sent [[success errors]|e]]; [|apply respects_locks_refl].
  destruct (update_database g success db) as [db' res] eqn:U.
  apply update_results_respects_locks in U. now destruct res.
Qed.

(** X6: whatever the batch and the network, and whether it returns or
    raises, the orchestrator leaves the switchboards as they are and
    changes no switch but in its state: same rows in the same order with
    the same id, name, position, lock and switchboard. *)
Theorem orchestrator_writes_states_only post db request_data :
  let db' := fst (fst (process_toggle_request post db request_data)) in
  switchboards db' = switchboards db
  /\ map stateless (switchs db') = map stateless (switchs db).
Proof.
  cbn zeta.
  destruct (process_respects_locks post db request_data) as (Hb & Hs & _).
  auto.
Qed.

(** X7: the orchestrator never changes the persisted state of a switch
    that is locked when the call starts, even though its pair is grouped
    and sent to the device. *)
Theorem orchestrator_keeps_locked_states post db request_data j :
  locked_of db j = Some true ->
  state_of (fst (fst (process_toggle_request post db request_data))) j
  = state_of db j.
Proof.
  destruct (process_respects_locks post db request_data) as (_ & _ & Hl).
  exact (Hl j).
Qed.

Lemma orchestrator_keeps_locked_states_witness :
  state_of (fst (fst (process_toggle_request Installation.all_up
                        Installation.db
                        (Installation.request [(2, false); (1, true)])))) 2
  = Some true.
Proof.
  apply (orchestrator_keeps_locked_states Installation.all_up Installation.db
           (Installation.request [(2, false); (1, true)]) 2).
  reflexivity.
Defined.

(** * The Switch Store *)

(** ** Locking and toggling *)

(** A lookup that reads only columns an update leaves alone sees the
    same row, updated. *)
Lemma find_map_if_id (q : Switch.t -> bool) (f : Switch.t -> Switch.t) rows i :
  (forall r, q (f r) = q r) ->
  find q (map (fun r => if Switch.id r =? i then f r else r) rows)
  = option_map (fun r => if Switch.id r =? i then f r else r) (find q rows).
Proof.
  intros Hq. induction rows as [|r rows IH]; simpl; [reflexivity|].
  destruct (Switch.id r =? i) eqn:E; [rewrite Hq|];
    destruct (q r); simpl; rewrite ?E; auto.
Qed.

Lemma lock_effect i l db db' res :
  switch_crud.lock i l db = (db', res) ->
  (db' = db /\ is_absent db i = true /\ exists e, res = Raise e)
  \/ (db' = {| switchboards := switchboards db;
               switchs := switch_crud.update_locked (switchs db) i l |}
      /\ exists s, find (fun s => Switch.id s =? i) (switchs db) = Some s
                   /\ res = Ok (Switch.with_locked s l)).
Proof.
  unfold switch_crud.lock, switch_crud.get_switch_by_id, is_absent.
  destruct (find (fun s => Switch.id s =? i) (switchs db)) as [s|];
    [|destruct (switch_crud.in_int64 i)]; intros [= <- <-]; eauto.
Qed.

Lemma state_of_update_locked db i l j :
  state_of {| switchboards := switchboards db;
              switchs := switch_crud.update_locked (switchs db) i l |} j
  = state_of db j.
Proof.
  unfold state_of, switch_crud.update_locked. simpl.
  rewrite find_map_if_id by reflexivity.
  destruct (find _ (switchs db)) as [s|]; simpl; [|reflexivity].
  now destruct (Switch.id s =? i).
Qed.

Lemma locked_of_update_locked db i l j :
  locked_of {| switchboards := switchboards db;
               switchs := switch_crud.update_locked (switchs db) i l |} j
  = if j =? i then option_map (fun _ => l) (locked_of db j)
    else locked_of db j.
Proof.
  unfold locked_of, switch_crud.update_locked. simpl.
  rewrite find_map_if_id by reflexivity.
  destruct (find _ (switchs db)) as [s|] eqn:F; simpl.
  - apply find_some in F as [_ E]. apply Z.eqb_eq in E. subst j.
    now destruct (Switch.id s =? i).
  - now destruct (j =? i).
Qed.

(** X8: what [lock] guards.  When [lock] returns, no state has changed,
    the switch has the lock asked for and the other switches the lock
    they had; after locking, [toggle] on that switch raises 403 and
    leaves the session as it is; after unlocking, [toggle] returns and
    the switch has the state asked for. *)
Theorem lock_guards_toggle i l b db db1 s1 :
  switch_crud.lock i l db = (db1, Ok s1) ->
  (forall j, state_of db1 j = state_of db j)
  /\ locked_of db1 i = Some l
  /\ (forall j, j <> i -> locked_of db1 j = locked_of db j)
  /\ (l = true ->
      switch_crud.toggle i b db1
      = (db1, Raise (HTTPException 403
                       "Switch state is locked and cannot be updated.")))
  /\ (l = false ->
      exists s2,
        switch_crud.toggle i b db1 = (with_switch_state db1 i b, Ok s2)
        /\ state_of (with_switch_state db1 i b) i = Some b).
Proof.
  intros H. apply lock_effect in H
    as [(_ & _ & e & [=]) | (-> & s & F & [= ->])].
  assert (find (fun s0 => Switch.id s0 =? i)
            (switch_crud.update_locked (switchs db) i l)
          = Some (Switch.with_locked s l)) as F1.
  { unfold switch_crud.update_locked. rewrite find_map_if_id by reflexivity.
    rewrite F. simpl. apply find_some in F as [_ E]. now rewrite E. }
  split; [intros j; apply state_of_update_locked|].
  split; [|split; [|split]].
  - unfold locked_of. simpl. now rewrite F1.
  - intros j Hj. rewrite locked_of_update_locked.
    now destruct (Z.eqb_spec j i).
  - intros ->. unfold switch_crud.toggle, switch_crud.get_switch_by_id.
    simpl. now rewrite F1.
  - intros ->. unfold switch_crud.toggle, switch_crud.get_switch_by_id.
    simpl. rewrite F1. simpl.
    eexists. split; [reflexivity|].
    apply state_of_update_eq. unfold state_of. simpl. now rewrite F1.
Qed.

Lemma lock_guards_toggle_witness :
  switch_crud.toggle 1 true
    (fst (switch_crud.lock 1 true Installation.db))
  = (fst (switch_crud.lock 1 true Installation.db),
     Raise (HTTPException 403
              "Switch state is locked and cannot be updated.")).
Proof.
  refine (proj1 (proj2 (proj2 (proj2
            (lock_guards_toggle 1 true true Installation.db _ _ eq_refl))))
            eq_refl).
Defined.

(** ** The lock route *)

Lemma is_absent_update_locked db i l j :
  is_absent {| switchboards := switchboards db;
               switchs := switch_crud.update_locked (switchs db) i l |} j
  = is_absent db j.
Proof.
  unfold is_absent, switch_crud.update_locked. simpl.
  rewrite find_map_if_id by reflexivity.
  now destruct (find _ (switchs db)).
Qed.

Lemma is_absent_locked_of db j :
  is_absent db j = false <-> locked_of db j <> None.
Proof.
  unfold is_absent, locked_of.
  destruct (find _ (switchs db)); simpl; split; congruence.
Qed.

Lemma lock_loop_app exn_str l1 l2 errors db :
  switch_routes.lock_loop exn_str (l1 ++ l2) errors db
  = let '(db1, errors1) := switch_routes.lock_loop exn_str l1 errors db in
    switch_routes.lock_loop exn_str l2 errors1 db1.
Proof.
  revert errors db. induction l1 as [|[i l] l1 IH]; intros errors db; simpl.
  - reflexivity.
  - destruct (switch_crud.lock i l db) as [db1 [s|e]]; apply IH.
Qed.

Lemma lock_loop_keeps exn_str items errors db db' errors' :
  switch_routes.lock_loop exn_str items errors db = (db', errors') ->
  (forall j, state_of db' j = state_of db j)
  /\ (forall j, is_absent db' j = is_absent db j)
  /\ (forall j, (forall it, In it items -> fst it <> j) ->
                locked_of db' j = locked_of db j)
  /\ length errors'
     = (length errors
        + length (filter (fun it => is_absent db (fst it)) items))%nat.
Proof.
  revert errors db. induction items as [|[i l] items IH]; intros errors db.
  - intros [= <- <-]. simpl. repeat split; auto.
  - cbn [switch_routes.lock_loop filter fst].
    destruct (switch_crud.lock i l db) as [db1 r] eqn:L.
    apply lock_effect in L
      as [(-> & Habs & e & ->) | (-> & s & F & ->)].
    + intros H. apply IH in H as (Hs & Ha & Hl & Hn). rewrite Habs.
      repeat split; auto.
      * intros j Hj. apply Hl. intros it Hit. apply Hj. now right.
      * rewrite Hn. unfold append. rewrite length_app. simpl. lia.
    + intros H. apply IH in H as (Hs & Ha & Hl & Hn).
      assert (is_absent db i = false) as -> by (unfold is_absent; now rewrite F).
      repeat split.
      * intros j. now rewrite Hs, state_of_update_locked.
      * intros j. now rewrite Ha, is_absent_update_locked.
      * intros j Hj. rewrite Hl by (intros it Hit; apply Hj; now right).
        rewrite locked_of_update_locked.
        specialize (Hj (i, l) (or_introl eq_refl)). simpl in Hj.
        now destruct (Z.eqb_spec j i); [congruence|].
      * rewrite Hn. f_equal. apply f_equal. apply filter_ext.
        intros it. apply is_absent_update_locked.
Qed.

(** X9: the lock route never raises.  It changes no state; a switch
    that exists ends with the lock of the last pair naming it, a switch
    no pair names keeps its lock; and the errors it reports are as many
    as the pairs whose switch does not exist. *)
Theorem lock_switch_sets_the_locks exn_str db request_data :
  let '(db', resp) := switch_routes.lock_switch exn_str db request_data in
  let items := switch_schema.LockSwitchRequest.switchs request_data in
  (forall j, state_of db' j = state_of db j)
  /\ (forall before i l after,
        items = (before ++ (i, l) :: after)%list ->
        (forall it, In it after -> fst it <> i) ->
        is_absent db i = false ->
        locked_of db' i = Some l)
  /\ (forall j, (forall it, In it items -> fst it <> j) ->
                locked_of db' j = locked_of db j)
  /\ exists errors,
       resp = switch_routes.response errors
       /\ length errors
          = length (filter (fun it => is_absent db (fst it)) items).
Proof.
  unfold switch_routes.lock_switch.
  destruct (switch_routes.lock_loop exn_str
              (switch_schema.LockSwitchRequest.switchs request_data) [] db)
    as [db' errors] eqn:L.
  cbn zeta. pose proof L as L'.
  apply lock_loop_keeps in L' as (Hs & Ha & Hl & Hn).
  split; [exact Hs|]. split; [|split; [exact Hl|]].
  - intros before i l after Hitems Hafter Hpresent.
    rewrite Hitems, lock_loop_app in L.
    destruct (switch_routes.lock_loop exn_str before [] db)
      as [db1 errors1] eqn:L1.
    apply lock_loop_keeps in L1 as (_ & Ha1 & _ & _).
    cbn [switch_routes.lock_loop] in L.
    destruct (switch_crud.lock i l db1) as [db2 r] eqn:L2.
    apply lock_effect in L2
      as [(-> & Habs & e & ->) | (-> & s & F & ->)].
    + rewrite Ha1 in Habs. congruence.
    + apply lock_loop_keeps in L as (_ & _ & Hl2 & _).
      rewrite (Hl2 i Hafter), locked_of_update_locked, Z.eqb_refl.
      unfold locked_of. now rewrite F.
  - exists errors. split; [reflexivity|]. exact Hn.
Qed.

Lemma lock_switch_sets_the_locks_witness :
  locked_of (fst (switch_routes.lock_switch (fun _ => "404")
                    Installation.db
                    (switch_schema.LockSwitchRequest.Build
                       [(1, true); (40, true); (2, false)]))) 2
  = Some false.
Proof.
  pose proof (lock_switch_sets_the_locks (fun _ => "404") Installation.db
                (switch_schema.LockSwitchRequest.Build
                   [(1, true); (40, true); (2, false)])) as H.
  destruct (switch_routes.lock_switch (fun _ => "404") Installation.db
              (switch_schema.LockSwitchRequest.Build
                 [(1, true); (40, true); (2, false)])) as [db' resp].
  cbn zeta in H. destruct H as (_ & Hlast & _).
  apply (Hlast [(1, true); (40, true)] 2 false []).
  - reflexivity.
  - intros it [].
  - reflexivity.
Defined.

(** ** Deleting, creating and updating a switch *)

Lemma find_by_id_filter rows i j :
  find (fun s => Switch.id s =? j)
    (filter (fun r => negb (Switch.id r =? i)) rows)
  = if j =? i then None else find (fun s => Switch.id s =? j) rows.
Proof.
  induction rows as [|r rows IH]; simpl; [now destruct (j =? i)|].
  destruct (Z.eqb_spec (Switch.id r) i) as [Hr | Hr]; simpl.
  - rewrite IH. destruct (Z.eqb_spec j i) as [Hj | Hj]; [reflexivity|].
    destruct (Z.eqb_spec (Switch.id r) j); [congruence | reflexivity].
  - destruct (Z.eqb_spec (Switch.id r) j) as [Hrj | Hrj].
    + destruct (Z.eqb_spec j i); [congruence | reflexivity].
    + exact IH.
Qed.

(** X10: [delete_switch] answers [True] for a switch that exists and
    [False] for one that does not, when the id fits the signed 64 bits
    of a key; for an id that no row has and that does not fit, the query
    raises [OverflowError].  After it, the id is not found ([get_switch]
    gives [None] and [toggle] raises 404; for an id that does not fit,
    both raise [OverflowError]), every other id is found as before, the
    switchboards are as they were; when the switch did not exist the
    session is unchanged. *)
Theorem delete_switch_removes_the_switch i db :
  let '(db', r) := switch_crud.delete_switch i db in
  r = (if is_absent db i
       then if switch_crud.in_int64 i then Ok false else Raise OverflowError
       else Ok true)
  /\ switch_crud.get_switch db' (Some i) None None
     = (if switch_crud.in_int64 i then Ok None else Raise OverflowError)
  /\ (forall j, j <> i ->
        switch_crud.get_switch db' (Some j) None None
        = switch_crud.get_switch db (Some j) None None)
  /\ switchboards db' = switchboards db
  /\ (is_absent db i = true -> db' = db)
  /\ (forall b,
        switch_crud.toggle i b db'
        = (db', Raise (if switch_crud.in_int64 i
                       then HTTPException 404
                              ("Switch with ID " ++ str i ++ " not found.")
                       else OverflowError))).
Proof.
  unfold switch_crud.delete_switch, switch_crud.get_switch_by_id, is_absent.
  destruct (find (fun s => Switch.id s =? i) (switchs db)) as [s|] eqn:F.
  - apply find_some in F as F'. destruct F' as [_ E].
    apply Z.eqb_eq in E. rewrite E.
    assert (forall j,
               find (fun s0 => Switch.id s0 =? j)
                 (filter (fun r => negb (Switch.id r =? i)) (switchs db))
               = if j =? i then None
                 else find (fun s0 => Switch.id s0 =? j) (switchs db)) as Hf
        by (intros j; apply find_by_id_filter).
    split; [reflexivity|]. split; [|split; [|split; [|split]]].
    + unfold switch_crud.get_switch, switch_crud.get_switch_by_id. simpl.
      now rewrite Hf, Z.eqb_refl.
    + intros j Hj.
      unfold switch_crud.get_switch, switch_crud.get_switch_by_id. simpl.
      rewrite Hf. now destruct (Z.eqb_spec j i).
    + reflexivity.
    + discriminate.
    + intros b. unfold switch_crud.toggle, switch_crud.get_switch_by_id.
      simpl. rewrite Hf, Z.eqb_refl.
      now destruct (switch_crud.in_int64 i).
  - assert (forall b,
               switch_crud.toggle i b db
               = (db, Raise (if switch_crud.in_int64 i
                             then HTTPException 404
                                    ("Switch with ID " ++ str i ++ " not found.")
                             else OverflowError))) as T.
    { intros b. unfold switch_crud.toggle.
      rewrite (get_switch_by_id_absent _ _ F).
      now destruct (switch_crud.in_int64 i). }
    pose proof (get_switch_by_id_absent _ _ F) as G.
    destruct (switch_crud.in_int64 i);
      (split; [reflexivity|]; split; [exact G|]; auto).
Qed.

Lemma find_app_last {A} (q : A -> bool) l x :
  find q (l ++ [x])
  = match find q l with
    | Some y => Some y
    | None => if q x then Some x else None
    end.
Proof.
  induction l as [|a l IH]; simpl; [reflexivity|].
  now destruct (q a).
Qed.

Lemma find_by_id_fresh rows i :
  ~ In i (map Switch.id rows) ->
  find (fun s => Switch.id s =? i) rows = None.
Proof.
  intros Hfresh. destruct (find _ rows) as [s|] eqn:F; [|reflexivity].
  apply find_some in F as [Hin E]. apply Z.eqb_eq in E. subst i.
  exfalso. apply Hfresh. now apply in_map.
Qed.

(** X11: [create_switch], when the engine gives the new row a key that is
    not in use, either fails with 500 and leaves the session as it was,
    or returns a switch with the name, position, state and switchboard
    of the request that is never locked, whatever [locked] the request
    carries; the new switch is found by its id, every other id is found
    as before, and the primary key still holds. *)
Theorem create_switch_is_never_locked
    commit_ok autoincrement switch db db' res :
  ~ In (autoincrement db) (map Switch.id (switchs db)) ->
  switch_crud.create_switch commit_ok autoincrement switch db = (db', res) ->
  (db' = db /\ res = Raise (HTTPException 500 "Failed to create a switch"))
  \/ exists s,
       res = Ok s
       /\ Switch.locked s = false
       /\ Switch.name s = switch_schema.SwitchCreate.name switch
       /\ Switch.position s = switch_schema.SwitchCreate.position switch
       /\ Switch.state s = switch_schema.SwitchCreate.state switch
       /\ Switch.switchboard_id s
          = Some (switch_schema.SwitchCreate.switchboard_id switch)
       /\ switch_crud.get_switch db' (Some (Switch.id s)) None None
          = Ok (Some s)
       /\ (forall j, j <> Switch.id s ->
             switch_crud.get_switch db' (Some j) None None
             = switch_crud.get_switch db (Some j) None None)
       /\ switchboards db' = switchboards db
       /\ (primary_key db -> primary_key db').
Proof.
  intros Hfresh. unfold switch_crud.create_switch.
  destruct (commit_ok _); intros [= <- <-]; [right | now left].
  eexists. split; [reflexivity|]. simpl.
  repeat split.
  - unfold switch_crud.get_switch, switch_crud.get_switch_by_id. simpl.
    rewrite find_app_last, (find_by_id_fresh _ _ Hfresh). simpl.
    now rewrite Z.eqb_refl.
  - intros j Hj. unfold switch_crud.get_switch, switch_crud.get_switch_by_id.
    simpl. rewrite find_app_last.
    destruct (find (fun s => Switch.id s =? j) (switchs db)); [reflexivity|].
    simpl. now destruct (Z.eqb_spec (autoincrement db) j); [congruence|].
  - unfold primary_key. simpl. intros Hpk. rewrite map_app. simpl.
    apply NoDup_rev in Hpk.
    rewrite <- (rev_involutive (map Switch.id (switchs db) ++ _)).
    apply NoDup_rev. rewrite rev_app_distr. simpl. constructor; auto.
    now rewrite <- in_rev.
Qed.

Lemma create_switch_is_never_locked_witness :
  exists s,
    snd (switch_crud.create_switch (fun _ => true)
           (fun db => 1 + Z.of_nat (length (switchs db)))
           (switch_schema.SwitchCreate.Build "gate" 3 true true "sb1")
           Installation.db) = Ok s
    /\ Switch.locked s = false.
Proof.
  assert (~ In (1 + Z.of_nat (length (switchs Installation.db)))
              (map Switch.id (switchs Installation.db))) as Hfresh
    by (simpl; lia).
  destruct (create_switch_is_never_locked (fun _ => true)
              (fun db => 1 + Z.of_nat (length (switchs db)))
              (switch_schema.SwitchCreate.Build "gate" 3 true true "sb1")
              Installation.db _ _ Hfresh eq_refl)
    as [[_ H] | (s & H & Hl & _)].
  - discriminate.
  - exists s. split; [exact H | exact Hl].
Defined.

Lemma find_map_replace rows i (row : Switch.t) j :
  Switch.id row = i ->
  find (fun s => Switch.id s =? j)
    (map (fun r => if Switch.id r =? i then row else r) rows)
  = option_map (fun r => if Switch.id r =? i then row else r)
      (find (fun s => Switch.id s =? j) rows).
Proof.
  intros Hrow. induction rows as [|r rows IH]; simpl; [reflexivity|].
  destruct (Z.eqb_spec (Switch.id r) i) as [E | E].
  - assert ((Switch.id row =? j) = (Switch.id r =? j)) as ->
      by now rewrite Hrow, E.
    destruct (Switch.id r =? j); simpl; [|exact IH].
    now destruct (Z.eqb_spec (Switch.id r) i).
  - destruct (Switch.id r =? j); simpl; [|exact IH].
    now destruct (Z.eqb_spec (Switch.id r) i).
Qed.

Lemma patched_fields s u row :
  switch_crud.patched s u = Some row ->
  Switch.id row = Switch.id s
  /\ switch_crud.set_field (switch_schema.SwitchUpdate.name u)
    (Some (Switch.name s)) = Some (Switch.name row)
  /\ switch_crud.set_field (switch_schema.SwitchUpdate.position u)
       (Some (Switch.position s)) = Some (Switch.position row)
  /\ switch_crud.set_field (switch_schema.SwitchUpdate.state u)
       (Some (Switch.state s)) = Some (Switch.state row)
  /\ switch_crud.set_field (switch_schema.SwitchUpdate.locked u)
       (Some (Switch.locked s)) = Some (Switch.locked row)
  /\ switch_crud.set_field (switch_schema.SwitchUpdate.switchboard_id u)
       (Switch.switchboard_id s) = Switch.switchboard_id row.
Proof.
  unfold switch_crud.patched.
  destruct (switch_crud.set_field (switch_schema.SwitchUpdate.name u) _),
    (switch_crud.set_field (switch_schema.SwitchUpdate.position u) _),
    (switch_crud.set_field (switch_schema.SwitchUpdate.state u) _),
    (switch_crud.set_field (switch_schema.SwitchUpdate.locked u) _);
    try discriminate.
  intros [= <-]. simpl. auto 6.
Qed.

(** X12: [update_switch] either raises and leaves the session as it
    was (for a switch that does not exist, 404 when the id fits the
    signed 64 bits of a key and [OverflowError] when it does not; for one
    that exists, 400 or 500, 400 only when no field is given), or returns the row in which every field given is
    replaced and every other field kept, under the same id; that row is
    then the one found by the id and every other id is found as before.
    The lock is not consulted: a state given is written also when the
    switch is locked. *)
Theorem update_switch_applies_the_fields_given commit_ok i u db db' res :
  switch_crud.update_switch commit_ok i u db = (db', res) ->
  (db' = db
   /\ ((is_absent db i = true
        /\ res = Raise (if switch_crud.in_int64 i
                        then HTTPException 404 "Switch not found"
                        else OverflowError))
       \/ (is_absent db i = false
           /\ exists c d, res = Raise (HTTPException c d)
                          /\ (c = 400 \/ c = 500)
                          /\ (c = 400 -> switch_crud.nothing_set u = true))))
  \/ exists s row,
       switch_crud.get_switch db (Some i) None None = Ok (Some s)
       /\ res = Ok row
       /\ switch_crud.patched s u = Some row
       /\ Switch.id row = i
       /\ switch_crud.get_switch db' (Some i) None None = Ok (Some row)
       /\ (forall j, j <> i ->
             switch_crud.get_switch db' (Some j) None None
             = switch_crud.get_switch db (Some j) None None)
       /\ switchboards db' = switchboards db
       /\ (forall b, switch_schema.SwitchUpdate.state u
                     = switch_schema.Given (Some b) ->
                     state_of db' i = Some b)
       /\ (switch_schema.SwitchUpdate.state u = switch_schema.Unset ->
           state_of db' i = Some (Switch.state s))
       /\ (switch_schema.SwitchUpdate.locked u = switch_schema.Unset ->
           locked_of db' i = Some (Switch.locked s)).
Proof.
  unfold switch_crud.update_switch, switch_crud.get_switch_by_id, is_absent.
  destruct (find (fun s => Switch.id s =? i) (switchs db)) as [s|] eqn:F.
  - destruct (switch_crud.nothing_set u) eqn:N.
    { intros [= <- <-]. left. split; [reflexivity|]. right.
      split; [reflexivity|].
      do 2 eexists. split; [reflexivity|]. split; [now left | auto]. }
    destruct (switch_crud.patched s u) as [row|] eqn:P.
    2:{ intros [= <- <-]. left. split; [reflexivity|]. right.
        split; [reflexivity|].
        do 2 eexists. split; [reflexivity|].
        split; [now right | discriminate]. }
    destruct (commit_ok _).
    2:{ intros [= <- <-]. left. split; [reflexivity|]. right.
        split; [reflexivity|].
        do 2 eexists. split; [reflexivity|].
        split; [now right | discriminate]. }
    intros [= <- <-]. right. exists s, row.
    apply find_some in F as F'. destruct F' as [_ E]. apply Z.eqb_eq in E.
    pose proof (patched_fields _ _ _ P) as (Hid & _ & _ & Hst & Hl & _).
    rewrite E in Hid.
    assert (find (fun s0 => Switch.id s0 =? i)
              (map (fun r => if Switch.id r =? i then row else r) (switchs db))
            = Some row) as F1.
    { rewrite (find_map_replace _ _ _ _ Hid), F. simpl. now rewrite E, Z.eqb_refl. }
    unfold switch_crud.get_switch, switch_crud.get_switch_by_id,
      state_of, locked_of. simpl.
    rewrite F, F1. simpl.
    repeat split; auto.
    + intros j Hj. rewrite (find_map_replace _ _ _ _ Hid).
      destruct (find (fun s0 => Switch.id s0 =? j) (switchs db))
        as [r|] eqn:Fj; simpl; [|reflexivity].
      apply find_some in Fj as [_ Ej]. apply Z.eqb_eq in Ej.
      now destruct (Z.eqb_spec (Switch.id r) i); [congruence|].
    + intros b Hb. rewrite Hb in Hst. simpl in Hst. congruence.
    + intros Hu. rewrite Hu in Hst. simpl in Hst. congruence.
    + intros Hu. rewrite Hu in Hl. simpl in Hl. congruence.
  - destruct (switch_crud.in_int64 i); intros [= <- <-]; left;
      (split; [reflexivity|]); left; auto.
Qed.

Lemma update_switch_applies_the_fields_given_witness :
  state_of
    (fst (switch_crud.update_switch (fun _ => true) 2
            (switch_schema.SwitchUpdate.Build switch_schema.Unset
               switch_schema.Unset (switch_schema.Given (Some false))
               switch_schema.Unset switch_schema.Unset)
            Installation.db)) 2
  = Some false
  /\ Switch.locked Installation.switch2 = true.
Proof.
  split; [|reflexivity].
  destruct (update_switch_applies_the_fields_given (fun _ => true) 2
              (switch_schema.SwitchUpdate.Build switch_schema.Unset
                 switch_schema.Unset (switch_schema.Given (Some false))
                 switch_schema.Unset switch_schema.Unset)
              Installation.db _ _ eq_refl)
    as [(_ & [([=] & _) | (_ & c & d & [=] & _)])
       | (s & row & _ & _ & _ & _ & _ & _ & _ & H & _)].
  exact (H false eq_refl).
Defined.

(** * The Switchboard Store *)

Lemma get_switchboard_find db k :
  switchboard_crud.get_switchboard db (Some k)
  = match find (fun b => String.eqb (Switchboard.id b) k) (switchboards db) with
    | Some b => Ok (Some b)
    | None => Raise (HTTPException 404 "Switchboard not found")
    end.
Proof. reflexivity. Qed.

Lemma existsb_find {A} (q : A -> bool) l :
  existsb q l = match find q l with Some _ => true | None => false end.
Proof.
  induction l as [|a l IH]; simpl; [reflexivity|]. now destruct (q a).
Qed.

Lemma find_board_replace rows k (row : Switchboard.t) k' :
  Switchboard.id row = k ->
  find (fun b => String.eqb (Switchboard.id b) k')
    (map (fun b => if String.eqb (Switchboard.id b) k then row else b) rows)
  = option_map (fun b => if String.eqb (Switchboard.id b) k then row else b)
      (find (fun b => String.eqb (Switchboard.id b) k') rows).
Proof.
  intros Hrow. induction rows as [|r rows IH]; simpl; [reflexivity|].
  destruct (String.eqb_spec (Switchboard.id r) k) as [E | E].
  - assert (String.eqb (Switchboard.id row) k'
            = String.eqb (Switchboard.id r) k') as ->
      by now rewrite Hrow, E.
    destruct (String.eqb (Switchboard.id r) k'); simpl; [|exact IH].
    now destruct (String.eqb_spec (Switchboard.id r) k).
  - destruct (String.eqb (Switchboard.id r) k'); simpl; [|exact IH].
    now destruct (String.eqb_spec (Switchboard.id r) k).
Qed.

(** X13: [create_switchboard] never gives two switchboards the same id.
    When the id is already in use it raises 500 and leaves the session
    as it was; otherwise it either fails the same way or returns the new
    switchboard, which is then the one found by its id while every
    other id is found as before.  The switches are never touched. *)
Theorem create_switchboard_keeps_ids_distinct commit_error sb db db' res :
  switchboard_crud.create_switchboard commit_error sb db = (db', res) ->
  (NoDup (map Switchboard.id (switchboards db)) ->
   NoDup (map Switchboard.id (switchboards db')))
  /\ switchs db' = switchs db
  /\ ((exists b, switchboard_crud.get_switchboard db
                   (Some (switchboard_schema.SwitchboardCreate.id sb))
                 = Ok (Some b)) ->
      db' = db /\ res = Raise (HTTPException 500 "Something went wrong"))
  /\ ((db' = db /\ res = Raise (HTTPException 500 "Something went wrong"))
      \/ exists b,
           res = Ok b
           /\ Switchboard.id b = switchboard_schema.SwitchboardCreate.id sb
           /\ Switchboard.ip_address b
              = switchboard_schema.SwitchboardCreate.ip_address sb
           /\ switchboard_crud.get_switchboard db' (Some (Switchboard.id b))
              = Ok (Some b)
           /\ forall k, k <> Switchboard.id b ->
                switchboard_crud.get_switchboard db' (Some k)
                = switchboard_crud.get_switchboard db (Some k)).
Proof.
  unfold switchboard_crud.create_switchboard. cbn [Switchboard.id].
  rewrite existsb_find, get_switchboard_find.
  destruct (find _ (switchboards db)) as [b0|] eqn:F.
  - intros [= <- <-]. repeat split; auto.
  - destruct (commit_error _).
    + intros [= <- <-]. repeat split; auto.
    + intros [= <- <-]. simpl. split; [|split; [reflexivity|split]].
      * intros Hnd. rewrite map_app. simpl.
        apply NoDup_rev in Hnd.
        rewrite <- (rev_involutive (map Switchboard.id (switchboards db) ++ _)).
        apply NoDup_rev. rewrite rev_app_distr. simpl. constructor; auto.
        rewrite <- in_rev. intros Hin. apply in_map_iff in Hin as (b & Hb & Hin).
        apply (find_none _ _ F) in Hin. rewrite Hb, String.eqb_refl in Hin.
        discriminate.
      * now intros [b [=]].
      * right. eexists. split; [reflexivity|]. simpl.
        split; [reflexivity|]. split; [reflexivity|]. split.
        -- rewrite get_switchboard_find. simpl.
           rewrite find_app_last, F. simpl. now rewrite String.eqb_refl.
        -- intros k Hk. rewrite !get_switchboard_find. simpl.
           rewrite find_app_last.
           destruct (find (fun b => String.eqb (Switchboard.id b) k)
                       (switchboards db)); [reflexivity|]. simpl.
           destruct (String.eqb_spec
                       (switchboard_schema.SwitchboardCreate.id sb) k);
             [congruence | reflexivity].
Qed.

Lemma create_switchboard_keeps_ids_distinct_witness :
  switchboard_crud.create_switchboard (fun _ => None)
    (switchboard_schema.SwitchboardCreate.Build "sb1" "again" "10.0.0.9" 1)
    Installation.db
  = (Installation.db, Raise (HTTPException 500 "Something went wrong")).
Proof.
  destruct (create_switchboard_keeps_ids_distinct (fun _ => None)
              (switchboard_schema.SwitchboardCreate.Build
                 "sb1" "again" "10.0.0.9" 1)
              Installation.db _ _ eq_refl) as (_ & _ & Hdup & _).
  destruct Hdup as [_ _]; [|reflexivity].
  exists Installation.board1. reflexivity.
Defined.

(** X14: [update_switchboard] either raises and leaves the session as it
    was (404 exactly when the switchboard does not exist), or returns the
    switchboard under the same id with every field given replaced and
    every other kept; it is then the one found by the id, every other
    id is found as before, and no switch is touched, so every switch
    whose switchboard resolved still resolves to a switchboard of that
    id.  A project once set can be replaced but not cleared. *)
Theorem update_switchboard_keeps_the_id commit_error k u db db' res :
  switchboard_crud.update_switchboard commit_error k u db = (db', res) ->
  (db' = db
   /\ exists c d, res = Raise (HTTPException c d)
      /\ (c = 404 <->
          switchboard_crud.get_switchboard db (Some k)
          = Raise (HTTPException 404 "Switchboard not found")))
  \/ exists b upd,
       u = Some upd
       /\ switchboard_crud.get_switchboard db (Some k) = Ok (Some b)
       /\ res = Ok (Some (switchboard_crud.patched b upd))
       /\ Switchboard.id (switchboard_crud.patched b upd) = k
       /\ switchboard_crud.get_switchboard db' (Some k)
          = Ok (Some (switchboard_crud.patched b upd))
       /\ (forall k', k' <> k ->
             switchboard_crud.get_switchboard db' (Some k')
             = switchboard_crud.get_switchboard db (Some k'))
       /\ switchs db' = switchs db
       /\ (forall k' b0,
             switchboard_crud.get_switchboard db (Some k') = Ok (Some b0) ->
             exists b1,
               switchboard_crud.get_switchboard db' (Some k') = Ok (Some b1)
               /\ Switchboard.id b1 = k')
       /\ (Switchboard.project_id b <> None ->
           Switchboard.project_id (switchboard_crud.patched b upd) <> None).
Proof.
  unfold switchboard_crud.update_switchboard. rewrite get_switchboard_find.
  destruct (find _ (switchboards db)) as [b|] eqn:F.
  2:{ intros [= <- <-]. left. split; [reflexivity|].
      do 2 eexists. split; [reflexivity|]. tauto. }
  destruct u as [upd|].
  2:{ intros [= <- <-]. left. split; [reflexivity|].
      do 2 eexists. split; [reflexivity|]. split; discriminate. }
  destruct (commit_error _) as [e|].
  { intros [= <- <-]. left. split; [reflexivity|].
    do 2 eexists. split; [reflexivity|]. split; discriminate. }
  intros [= <- <-]. right. exists b, upd.
  apply find_some in F as F'. destruct F' as [_ E]. apply String.eqb_eq in E.
  assert (Switchboard.id (switchboard_crud.patched b upd) = k) as Hid
    by exact E.
  assert (forall k',
             switchboard_crud.get_switchboard
               {| switchboards :=
                    map (fun b0 => if String.eqb (Switchboard.id b0) k
                                   then switchboard_crud.patched b upd else b0)
                        (switchboards db);
                  switchs := switchs db |} (Some k')
             = match find (fun b0 => String.eqb (Switchboard.id b0) k')
                       (switchboards db) with
               | Some b0 =>
                   Ok (Some (if String.eqb (Switchboard.id b0) k
                             then switchboard_crud.patched b upd else b0))
               | None => Raise (HTTPException 404 "Switchboard not found")
               end) as Hget.
  { intros k'. rewrite get_switchboard_find. simpl.
    rewrite (find_board_replace _ _ _ _ Hid).
    now destruct (find (fun b0 => String.eqb (Switchboard.id b0) k')
                    (switchboards db)). }
  repeat split; auto.
  - rewrite Hget, F. now rewrite E, String.eqb_refl.
  - intros k' Hk'. rewrite Hget, get_switchboard_find.
    destruct (find (fun b0 => String.eqb (Switchboard.id b0) k')
                (switchboards db)) as [b0|] eqn:F0; [|reflexivity].
    apply find_some in F0 as [_ E0]. apply String.eqb_eq in E0.
    now destruct (String.eqb_spec (Switchboard.id b0) k); [congruence|].
  - intros k' b0. rewrite Hget, get_switchboard_find.
    destruct (find (fun b2 => String.eqb (Switchboard.id b2) k')
                (switchboards db)) as [b1|] eqn:F1; [|discriminate].
    intros _. apply find_some in F1 as [_ E1]. apply String.eqb_eq in E1.
    eexists. split; [reflexivity|].
    destruct (String.eqb_spec (Switchboard.id b1) k); congruence.
  - unfold switchboard_crud.patched. simpl.
    destruct (switchboard_schema.SwitchboardUpdate.project_id upd);
      [discriminate | auto].
Qed.

Lemma update_switchboard_keeps_the_id_witness :
  switchboard_crud.get_switchboard
    (fst (switchboard_crud.update_switchboard (fun _ => None) "sb1"
            (Some (switchboard_schema.SwitchboardUpdate.Build
                     None (Some "10.0.0.7") None))
            Installation.db)) (Some "sb1")
  = Ok (Some (Switchboard.Build "sb1" "Board 1" "10.0.0.7" (Some 1))).
Proof.
  destruct (update_switchboard_keeps_the_id (fun _ => None) "sb1"
              (Some (switchboard_schema.SwitchboardUpdate.Build
                       None (Some "10.0.0.7") None))
              Installation.db _ _ eq_refl)
    as [(_ & c & d & [=] & _) | (b & upd & [= <-] & [= <-] & _ & _ & H & _)].
  exact H.
Defined.

(** * The toggle route *)

(** ** Grouping: the route and the service *)

Lemma route_nicknames :
  switch_routes.switchs_nicknames = switchs_nicknames.
Proof. reflexivity. Qed.

Lemma group_loop_payload db items g errors1 errors2 :
  payload_of (switch_routes.group_loop db items (g, errors1))
  = payload_of (build_loop db (filter (not_locked db) items) (g, errors2)).
Proof.
  revert g errors1 errors2.
  induction items as [|[i st] items IH]; intros g errors1 errors2;
    [reflexivity|].
  cbn [switch_routes.group_loop filter].
  unfold not_locked at 1. cbn [fst].
  unfold switch_routes.group_step at 1.
  destruct (switch_crud.get_switch db (Some i) None None) as [[s|]|e] eqn:S.
  - cbn [bind]. destruct (Switch.locked s) eqn:L; cbn [negb].
    + apply IH.
    + cbn [build_loop]. unfold build_step at 1. rewrite S. cbn [bind].
      rewrite L, route_nicknames.
      destruct (switchboard_crud.get_switchboard db (Switch.switchboard_id s))
        as [[b|]|e] eqn:B; cbn [bind]; [| |reflexivity].
      * destruct (getitem switchs_nicknames (Switch.position s - 1));
          cbn [bind]; [apply IH | reflexivity].
      * now apply get_switchboard_not_None in B.
  - cbn [bind build_loop]. unfold build_step at 1. rewrite S. cbn [bind].
    apply IH.
  - cbn [bind build_loop]. unfold build_step at 1. rewrite S. reflexivity.
Qed.

(** X15: the grouping loop of the toggle route builds the payload that
    the service's grouper builds for the same batch without its locked
    pairs, or raises the exception the service raises there.  So every
    entry of the route's payload was filed by a pair of the batch whose
    switch is not locked. *)
Theorem route_groups_the_unlocked_pairs db request_data :
  payload_of (switch_routes.group_loop db
                (switch_schema.switchs request_data) ([], []))
  = payload_of (build_switchs_by_switchboard db
                  {| switch_schema.switchs :=
                       filter (not_locked db)
                         (switch_schema.switchs request_data) |})
  /\ forall g errors k n v,
       switch_routes.group_loop db (switch_schema.switchs request_data)
         ([], []) = Ok (g, errors) ->
       get2 g k n = Some v ->
       exists i st s,
         In (i, st) (switch_schema.switchs request_data)
         /\ switch_crud.get_switch db (Some i) None None = Ok (Some s)
         /\ Switch.locked s = false
         /\ target db i = Some (k, n)
         /\ v = (if st : bool then "ON" else "OFF").
Proof.
  pose proof (group_loop_payload db (switch_schema.switchs request_data)
                [] [] []) as Heq.
  split; [exact Heq|].
  intros g errors k n v Hg Hget. rewrite Hg in Heq. simpl in Heq.
  destruct (build_loop db
              (filter (not_locked db) (switch_schema.switchs request_data))
              ([], [])) as [[g' errors']|e] eqn:B; [|discriminate].
  injection Heq as <-.
  destruct (build_loop_entry_origin _ _ _ _ _ _ _ _ _ B Hget)
    as [Habs | (i & st & Hin & Ht & Hv)]; [discriminate|].
  apply filter_In in Hin as [Hin Hnl].
  unfold not_locked in Hnl. cbn [fst] in Hnl. unfold target in Ht.
  destruct (switch_crud.get_switch db (Some i) None None) as [[s|]|e] eqn:S;
    try discriminate.
  exists i, st, s. repeat split; auto.
  - now destruct (Switch.locked s).
  - unfold target. now rewrite S.
Qed.

Lemma route_groups_the_unlocked_pairs_witness :
  exists i st s,
    In (i, st) [(2, false); (1, true)]
    /\ switch_crud.get_switch Installation.db (Some i) None None = Ok (Some s)
    /\ Switch.locked s = false
    /\ target Installation.db i = Some ("sb1", "relay1")
    /\ "ON" = (if st : bool then "ON" else "OFF").
Proof.
  apply (proj2 (route_groups_the_unlocked_pairs Installation.db
                  (Installation.request [(2, false); (1, true)]))
           [("sb1", [("relay1", "ON")])]
           ["Switch 2 state is locked and cannot be updated"]);
    reflexivity.
Defined.

Lemma group_loop_skipped db items g errors :
  (forall it, In it items ->
     switch_crud.get_switch db (Some (fst it)) None None = Ok None
     \/ exists s,
          switch_crud.get_switch db (Some (fst it)) None None = Ok (Some s)
          /\ Switch.locked s = true) ->
  exists errors',
    switch_routes.group_loop db items (g, errors) = Ok (g, errors')
    /\ length errors' = (length errors + length items)%nat.
Proof.
  revert errors. induction items as [|[i st] items IH]; intros errors Hsk.
  - exists errors. simpl. split; [reflexivity | lia].
  - cbn [switch_routes.group_loop].
    assert (exists e1, switch_routes.group_step db (g, errors) (i, st)
                       = Ok (g, append errors e1)) as [e1 ->].
    { unfold switch_routes.group_step.
      destruct (Hsk (i, st) (or_introl eq_refl)) as [Ha | (s & Hs & Hl)];
        cbn [fst] in *.
      - rewrite Ha. cbn [bind]. eauto.
      - rewrite Hs. cbn [bind]. rewrite Hl. eauto. }
    cbn [bind].
    destruct (IH (append errors e1)) as (errors' & -> & Hn);
      [intros it Hit; apply Hsk; now right|].
    exists errors'. split; [reflexivity|].
    rewrite Hn. unfold append. rewrite length_app. simpl. lia.
Qed.

(** X16: for a batch in which the lookup of every switch id finds a
    locked switch or finds none (so every id fits the signed 64 bits of a
    key or is the id of a row), the toggle route sends no POST, leaves
    the session as it was and answers with one error per pair. *)
Theorem route_sends_nothing_for_locked_switches post db request_data :
  (forall it, In it (switch_schema.switchs request_data) ->
     switch_crud.get_switch db (Some (fst it)) None None = Ok None
     \/ exists s,
          switch_crud.get_switch db (Some (fst it)) None None = Ok (Some s)
          /\ Switch.locked s = true) ->
  exists errors,
    switch_routes.toggle_switchs post db request_data
    = (db, [], Ok (switch_routes.response errors))
    /\ length errors = length (switch_schema.switchs request_data).
Proof.
  intros Hsk. unfold switch_routes.toggle_switchs.
  destruct (group_loop_skipped db _ [] [] Hsk) as (errors & -> & Hn).
  exists errors. split; [reflexivity | exact Hn].
Qed.

Lemma route_sends_nothing_for_locked_switches_witness :
  exists errors,
    switch_routes.toggle_switchs Installation.all_up Installation.db
      (Installation.request [(2, false); (40, true)])
    = (Installation.db, [], Ok (switch_routes.response errors))
    /\ length errors = 2%nat.
Proof.
  apply (route_sends_nothing_for_locked_switches Installation.all_up
           Installation.db (Installation.request [(2, false); (40, true)])).
  intros it [<- | [<- | []]].
  - right. exists Installation.switch2. split; reflexivity.
  - left. reflexivity.
Defined.

(** ** The database update of the route *)

(** One entry leaves the same session in the route and in the service. *)
Lemma route_update_entry_session k errors1 errors2 it db :
  fst (switch_routes.update_entry k errors1 it db)
  = fst (update_entry k errors2 it db).
Proof.
  destruct it as [n v].
  unfold switch_routes.update_entry, update_entry, mbind, lift, read, ret, throw.
  rewrite route_nicknames.
  destruct (index switchs_nicknames n) as [i|e]; [|reflexivity].
  destruct (switch_crud.get_switch db None (Some k) (Some (i + 1)))
    as [[s|]|e]; try reflexivity.
  destruct (String.eqb_spec v "OFF") as [-> | Hoff];
    [|destruct (String.eqb_spec v "ON") as [-> | Hon]].
  - cbn. now destruct (switch_crud.toggle (Switch.id s) false db) as [db1 [r|e]].
  - cbn. now destruct (switch_crud.toggle (Switch.id s) true db) as [db1 [r|e]].
  - reflexivity.
Qed.

Lemma route_update_entry_step k errors n v db db' res :
  switch_routes.update_entry k errors (n, v) db = (db', res) ->
  same_lookups db db'
  /\ switchboards db' = switchboards db
  /\ respects_locks db db'
  /\ (forall j, reconciled_id db k n <> Some j -> state_of db' j = state_of db j).
Proof.
  intros H.
  pose proof (route_update_entry_session k errors errors (n, v) db) as Hs.
  rewrite H in Hs. cbn [fst] in Hs.
  destruct (update_entry k errors (n, v) db) as [db1 r] eqn:S.
  cbn [fst] in Hs. subst db1.
  pose proof (update_entry_respects_locks _ _ _ _ _ _ S) as Hl.
  apply update_entry_step in S as (H1 & H2 & H3 & _). auto.
Qed.

Lemma route_update_entries_cons k it items errors db :
  switch_routes.update_entries k (it :: items) errors db
  = match switch_routes.update_entry k errors it db with
    | (db1, Ok errors1) => switch_routes.update_entries k items errors1 db1
    | (db1, Raise e) => (db1, Raise e)
    end.
Proof. reflexivity. Qed.

Lemma route_update_entries_step k items errors db db' res :
  switch_routes.update_entries k items errors db = (db', res) ->
  same_lookups db db'
  /\ switchboards db' = switchboards db
  /\ respects_locks db db'
  /\ (forall j, (forall n, In n (keys items) -> reconciled_id db k n <> Some j) ->
                state_of db' j = state_of db j).
Proof.
  revert errors db. induction items as [|[n v] items IH]; intros errors db.
  - intros [= <- _].
    repeat split; auto using same_lookups_refl, respects_locks_refl.
  - rewrite route_update_entries_cons.
    destruct (switch_routes.update_entry k errors (n, v) db)
      as [db1 r] eqn:S.
    apply route_update_entry_step in S as (Hl & Hb & Hr & Hu).
    destruct r as [errors1|e].
    + intros H. apply IH in H as (Hl' & Hb' & Hr' & Hu').
      split; [eapply same_lookups_trans; eauto|].
      split; [congruence|].
      split; [eapply respects_locks_trans; eauto|].
      intros j Hj. transitivity (state_of db1 j).
      * apply Hu'. intros n' Hn'. destruct Hl as [_ Hl]. rewrite Hl.
        apply Hj. now right.
      * apply Hu, Hj. now left.
    + intros [= <- _]. split; [|split; [|split]]; auto.
      intros j Hj. apply Hu, Hj. now left.
Qed.

Lemma get_switchboard_ext db db' k :
  switchboards db' = switchboards db ->
  switchboard_crud.get_switchboard db' k = switchboard_crud.get_switchboard db k.
Proof. unfold switchboard_crud.get_switchboard. now intros ->. Qed.

(** The loop over the switchboards: what it may write. *)
Lemma dispatch_loop_step post (g : Grouped) errors db db' sent res :
  switch_routes.dispatch_loop post g errors db = (db', sent, res) ->
  same_lookups db db'
  /\ switchboards db' = switchboards db
  /\ respects_locks db db'
  /\ (forall j,
        (forall k p b n,
           In (k, p) g ->
           switchboard_crud.get_switchboard db (Some k) = Ok (Some b) ->
           (exists c,
              post ("http://" ++ Switchboard.ip_address b ++ "/control") p
              = Responded c) ->
           In n (keys p) -> reconciled_id db (Switchboard.id b) n <> Some j) ->
        state_of db' j = state_of db j).
Proof.
  revert errors db sent res.
  induction g as [|[k p] g IH]; intros errors db sent res.
  - intros [= <- _ _].
    repeat split; auto using same_lookups_refl, respects_locks_refl.
  - cbn [switch_routes.dispatch_loop].
    destruct (switchboard_crud.get_switchboard db (Some k)) as [[b|]|e] eqn:B;
      try (intros [= <- _ _];
           repeat split; auto using same_lookups_refl, respects_locks_refl).
    destruct (post _ p) as [c|e] eqn:P.
    + destruct (switch_routes.update_entries (Switchboard.id b) p errors db)
        as [db1 r] eqn:U.
      apply route_update_entries_step in U as (Hl & Hb & Hr & Hu).
      assert (forall j,
                 (forall k0 p0 b0 n,
                    In (k0, p0) ((k, p) :: g) ->
                    switchboard_crud.get_switchboard db (Some k0) = Ok (Some b0) ->
                    (exists c0,
                       post ("http://" ++ Switchboard.ip_address b0 ++ "/control")
                         p0 = Responded c0) ->
                    In n (keys p0) ->
                    reconciled_id db (Switchboard.id b0) n <> Some j) ->
                 state_of db1 j = state_of db j) as Hu1.
      { intros j Hj. apply Hu. intros n Hn.
        apply (Hj k p b n); eauto. now left. }
      destruct r as [errors1|e].
      * destruct (switch_routes.dispatch_loop post g errors1 db1)
          as [[db2 sent2] r2] eqn:D.
        intros [= <- _ _]. apply IH in D as (Hl' & Hb' & Hr' & Hu').
        split; [eapply same_lookups_trans; eauto|].
        split; [congruence|].
        split; [eapply respects_locks_trans; eauto|].
        intros j Hj. transitivity (state_of db1 j); [|now apply Hu1].
        apply Hu'. intros k0 p0 b0 n Hin Hb0 Hresp Hn.
        rewrite (get_switchboard_ext db db1 _ Hb) in Hb0.
        destruct Hl as [_ Hl]. rewrite Hl.
        apply (Hj k0 p0 b0 n); auto. now right.
      * intros [= <- _ _]. split; [|split; [|split]]; auto.
    + destruct (switch_routes.dispatch_loop post g _ db)
        as [[db2 sent2] r2] eqn:D.
      intros [= <- _ _]. apply IH in D as (Hl' & Hb' & Hr' & Hu').
      split; [|split; [|split]]; auto. intros j Hj. apply Hu'.
      intros k0 p0 b0 n Hin. apply (Hj k0 p0 b0 n). now right.
Qed.

(** X17: over a table with its primary key, whatever the batch, and
    whether the route returns or raises, a switch on a switchboard whose
    device fails every POST keeps its persisted state. *)
Theorem route_keeps_switchboards_that_fail post db request_data s k b :
  primary_key db ->
  In s (switchs db) ->
  Switch.switchboard_id s = Some k ->
  switchboard_crud.get_switchboard db (Some k) = Ok (Some b) ->
  (forall payload,
     exists e,
       post ("http://" ++ Switchboard.ip_address b ++ "/control") payload
       = Failed e) ->
  state_of (fst (fst (switch_routes.toggle_switchs post db request_data)))
    (Switch.id s)
  = Some (Switch.state s).
Proof.
  intros Hpk Hin Hk Hb Hdown.
  rewrite <- (primary_key_state_of db s Hpk Hin).
  unfold switch_routes.toggle_switchs.
  destruct (switch_routes.group_loop db _ ([], [])) as [[g errors]|e];
    [|reflexivity].
  destruct (switch_routes.dispatch_loop post g errors db)
    as [[db' sent] r] eqn:D.
  cbn [fst]. apply dispatch_loop_step in D as (_ & _ & _ & Hu).
  apply Hu. intros k0 p0 b0 n _ Hb0 [c Hc] _ Hj.
  unfold reconciled_id in Hj.
  destruct (reconciled_switch db (Switchboard.id b0) n) as [s'|] eqn:R;
    [|discriminate].
  injection Hj as Hj.
  apply reconciled_switch_found in R as (Hin' & Hk' & _).
  apply (primary_key_inj db s' s Hpk Hin' Hin) in Hj. subst s'.
  rewrite Hk in Hk'. injection Hk' as ->.
  apply get_switchboard_Some in Hb0 as [_ Hb0].
  rewrite Hb in Hb0. injection Hb0 as ->.
  destruct (Hdown p0) as [e He]. congruence.
Qed.

Lemma route_keeps_switchboards_that_fail_witness :
  state_of (fst (fst (switch_routes.toggle_switchs Installation.only_board1
                        Installation.db
                        (Installation.request [(1, true); (3, true)])))) 3
  = Some false.
Proof.
  apply (route_keeps_switchboards_that_fail Installation.only_board1
           Installation.db (Installation.request [(1, true); (3, true)])
           Installation.switch3 "sb2" Installation.board2).
  - exact installation_primary_key.
  - simpl. auto.
  - reflexivity.
  - reflexivity.
  - intros payload. now exists "timed out".
Defined.

(** X18: whatever the batch and the network, and whether it returns or
    raises, the toggle route leaves the switchboards as they are, changes
    no switch but in its state, and never changes the state of a switch
    that is locked when the call starts. *)
Theorem route_writes_states_of_unlocked_switches_only
    post db request_data :
  let db' := fst (fst (switch_routes.toggle_switchs post db request_data)) in
  switchboards db' = switchboards db
  /\ map stateless (switchs db') = map stateless (switchs db)
  /\ forall j, locked_of db j = Some true -> state_of db' j = state_of db j.
Proof.
  cbn zeta. unfold switch_routes.toggle_switchs.
  destruct (switch_routes.group_loop db _ ([], [])) as [[g errors]|e];
    [|apply respects_locks_refl].
  destruct (switch_routes.dispatch_loop post g errors db)
    as [[db' sent] r] eqn:D.
  cbn [fst]. now apply dispatch_loop_step in D as (_ & _ & Hr & _).
Qed.

(** * Toggling one switch *)

Section OneSwitch.

Variables (db : Session) (i : Z) (s : Switch.t) (k : string)
          (b : Switchboard.t) (state : bool).

(** The switch exists, is unlocked and sits on a relay of the table. *)
Hypothesis Hswitch :
  switch_crud.get_switch db (Some i) None None = Ok (Some s).
Hypothesis Hunlocked : Switch.locked s = false.
Hypothesis Hposition : 1 <= Switch.position s <= 8.
(** Its switchboard exists. *)
Hypothesis Hon : Switch.switchboard_id s = Some k.
Hypothesis Hboard :
  switchboard_crud.get_switchboard db (Some k) = Ok (Some b).
(** It is the switch found at its position on its switchboard. *)
Hypothesis Hunique :
  switch_crud.get_switch db None (Some k) (Some (Switch.position s))
  = Ok (Some s).

Local Abbreviation relay := ("relay" ++ str (Switch.position s)).
Local Abbreviation wanted := (if state then "ON" else "OFF").
Local Abbreviation batch := {| switch_schema.switchs := [(i, state)] |}.
Local Abbreviation the_post :=
  {| endpoint := "http://" ++ Switchboard.ip_address b ++ "/control";
     headers := [("Content-Type", "application/json")];
     json := [(relay, wanted)] |}.

Lemma one_switch_facts :
  Switchboard.id b = k
  /\ find (fun x => Switch.id x =? Switch.id s) (switchs db) = Some s
  /\ Switch.id s = i
  /\ index switchs_nicknames relay = Ok (Switch.position s - 1).
Proof.
  apply get_switchboard_Some in Hboard as Hb. destruct Hb as [[= Hk] _].
  pose proof (get_switch_by_id_Some _ _ _ Hswitch) as F.
  apply find_some in F as F'. destruct F' as [_ E]. apply Z.eqb_eq in E.
  repeat split; auto.
  - now rewrite E.
  - apply index_getitem_nicknames; [lia | now apply nickname_in_table].
Qed.

Lemma one_switch_grouped :
  build_switchs_by_switchboard db batch = Ok ([(k, [(relay, wanted)])], [])
  /\ switch_routes.group_loop db [(i, state)] ([], [])
     = Ok ([(k, [(relay, wanted)])], []).
Proof.
  destruct one_switch_facts as (Hk & _).
  split.
  - unfold build_switchs_by_switchboard.
    cbn [switch_schema.switchs build_loop].
    rewrite (build_step_resolved db _ _ i state s b Hswitch)
      by now rewrite Hon.
    rewrite (nickname_in_table _ Hposition), Hunlocked, Hk. reflexivity.
  - cbn [switch_routes.group_loop]. unfold switch_routes.group_step.
    rewrite Hswitch. cbn [bind]. rewrite Hunlocked, Hon, Hboard. cbn [bind].
    rewrite route_nicknames, (nickname_in_table _ Hposition), Hk. reflexivity.
Qed.

Lemma one_switch_written :
  update_entry k [] (relay, wanted) db = (with_switch_state db i state, Ok [])
  /\ switch_routes.update_entry k [] (relay, wanted) db
     = (with_switch_state db i state, Ok []).
Proof.
  destruct one_switch_facts as (_ & Hfind & Hid & Hindex).
  split.
  - unfold update_entry, mbind, lift, read, ret.
    rewrite Hindex.
    replace (Switch.position s - 1 + 1) with (Switch.position s) by lia.
    rewrite Hunique.
    destruct state; cbv beta iota delta [String.eqb Ascii.eqb Bool.eqb];
      unfold switch_crud.toggle;
      rewrite (get_switch_by_id_found _ _ _ Hfind), Hunlocked, Hid;
      reflexivity.
  - unfold switch_routes.update_entry, mbind, lift, read, ret.
    rewrite route_nicknames, Hindex.
    replace (Switch.position s - 1 + 1) with (Switch.position s) by lia.
    rewrite Hunique.
    destruct state; cbv beta iota delta [String.eqb Ascii.eqb Bool.eqb];
      unfold switch_crud.toggle;
      rewrite (get_switch_by_id_found _ _ _ Hfind), Hunlocked, Hid;
      reflexivity.
Qed.

Lemma one_switch_service post c :
  post ("http://" ++ Switchboard.ip_address b ++ "/control")
       [(relay, wanted)] = Responded c ->
  process_toggle_request post db batch
  = (with_switch_state db i state, [the_post], Ok []).
Proof.
  intros Hpost. unfold process_toggle_request.
  rewrite (proj1 one_switch_grouped).
  rewrite (send_one_success post db k _ b c Hboard Hpost).
  unfold update_database. cbn [update_results switchboard_id dict_get].
  rewrite String.eqb_refl. unfold mbind at 1. cbn [update_entries].
  unfold mbind at 1. rewrite (proj1 one_switch_written). reflexivity.
Qed.

Lemma one_switch_route post c :
  post ("http://" ++ Switchboard.ip_address b ++ "/control")
       [(relay, wanted)] = Responded c ->
  switch_routes.toggle_switchs post db batch
  = (with_switch_state db i state, [the_post],
     Ok (switch_routes.response [])).
Proof.
  intros Hpost. unfold switch_routes.toggle_switchs.
  cbn [switch_schema.switchs]. rewrite (proj2 one_switch_grouped).
  cbn [switch_routes.dispatch_loop]. rewrite Hboard, Hpost.
  destruct one_switch_facts as (-> & _).
  cbn [switch_routes.update_entries]. unfold mbind at 1.
  rewrite (proj2 one_switch_written). reflexivity.
Qed.

End OneSwitch.

(** X19: toggling one switch through the service.  For a switch that
    exists, is not locked, sits on relay 1..8 of a switchboard that
    exists and is the switch found at that position, when the device
    answers the POST: exactly one POST is sent, to the control endpoint
    of the switchboard with the one-entry body, the report is empty, the
    switch has the state asked for and every other switch its state. *)
Theorem service_toggles_one_switch post db i s k b (state : bool) c :
  switch_crud.get_switch db (Some i) None None = Ok (Some s) ->
  Switch.locked s = false ->
  1 <= Switch.position s <= 8 ->
  Switch.switchboard_id s = Some k ->
  switchboard_crud.get_switchboard db (Some k) = Ok (Some b) ->
  switch_crud.get_switch db None (Some k) (Some (Switch.position s))
  = Ok (Some s) ->
  post ("http://" ++ Switchboard.ip_address b ++ "/control")
       [("relay" ++ str (Switch.position s), if state then "ON" else "OFF")]
  = Responded c ->
  exists db',
    process_toggle_request post db
      {| switch_schema.switchs := [(i, state)] |}
    = (db',
       [ {| endpoint := "http://" ++ Switchboard.ip_address b ++ "/control";
            headers := [("Content-Type", "application/json")];
            json := [("relay" ++ str (Switch.position s),
                      if state then "ON" else "OFF")] |} ],
       Ok [])
    /\ state_of db' i = Some state
    /\ forall j, j <> i -> state_of db' j = state_of db j.
Proof.
  intros Hswitch Hunlocked Hposition Hon Hboard Hunique Hpost.
  exists (with_switch_state db i state).
  split; [|split].
  - exact (one_switch_service db i s k b state Hswitch Hunlocked Hposition
             Hon Hboard Hunique post c Hpost).
  - apply state_of_update_eq. unfold state_of.
    rewrite (get_switch_by_id_Some _ _ _ Hswitch). discriminate.
  - intros j Hj. apply state_of_update_ne. congruence.
Qed.

Lemma service_toggles_one_switch_witness :
  exists db',
    process_toggle_request Installation.all_up Installation.db
      (Installation.request [(3, true)])
    = (db',
       [ {| endpoint := "http://10.0.0.2/control";
            headers := [("Content-Type", "application/json")];
            json := [("relay1", "ON")] |} ],
       Ok [])
    /\ state_of db' 3 = Some true
    /\ forall j, j <> 3 -> state_of db' j = state_of Installation.db j.
Proof.
  apply (service_toggles_one_switch Installation.all_up Installation.db 3
           Installation.switch3 "sb2" Installation.board2 true 200);
    try reflexivity.
  simpl. lia.
Defined.

(** X20: toggling one switch through the route.  Under the same
    conditions the route sends the same single POST, answers that all
    switches were processed with 0 errors and no error list, sets the
    state asked for and leaves every other switch its state. *)
Theorem route_toggles_one_switch post db i s k b (state : bool) c :
  switch_crud.get_switch db (Some i) None None = Ok (Some s) ->
  Switch.locked s = false ->
  1 <= Switch.position s <= 8 ->
  Switch.switchboard_id s = Some k ->
  switchboard_crud.get_switchboard db (Some k) = Ok (Some b) ->
  switch_crud.get_switch db None (Some k) (Some (Switch.position s))
  = Ok (Some s) ->
  post ("http://" ++ Switchboard.ip_address b ++ "/control")
       [("relay" ++ str (Switch.position s), if state then "ON" else "OFF")]
  = Responded c ->
  exists db',
    switch_routes.toggle_switchs post db
      {| switch_schema.switchs := [(i, state)] |}
    = (db',
       [ {| endpoint := "http://" ++ Switchboard.ip_address b ++ "/control";
            headers := [("Content-Type", "application/json")];
            json := [("relay" ++ str (Switch.position s),
                      if state then "ON" else "OFF")] |} ],
       Ok {| switch_routes.message :=
               "All switches have been processed with 0 errors encountered.";
             switch_routes.errors := None |})
    /\ state_of db' i = Some state
    /\ forall j, j <> i -> state_of db' j = state_of db j.
Proof.
  intros Hswitch Hunlocked Hposition Hon Hboard Hunique Hpost.
  exists (with_switch_state db i state).
  split; [|split].
  - exact (one_switch_route db i s k b state Hswitch Hunlocked Hposition
             Hon Hboard Hunique post c Hpost).
  - apply state_of_update_eq. unfold state_of.
    rewrite (get_switch_by_id_Some _ _ _ Hswitch). discriminate.
  - intros j Hj. apply state_of_update_ne. congruence.
Qed.

Lemma route_toggles_one_switch_witness :
  exists db',
    switch_routes.toggle_switchs Installation.all_up Installation.db
      (Installation.request [(1, true)])
    = (db',
       [ {| endpoint := "http://10.0.0.1/control";
            headers := [("Content-Type", "application/json")];
            json := [("relay1", "ON")] |} ],
       Ok {| switch_routes.message :=
               "All switches have been processed with 0 errors encountered.";
             switch_routes.errors := None |})
    /\ state_of db' 1 = Some true
    /\ forall j, j <> 1 -> state_of db' j = state_of Installation.db j.
Proof.
  apply (route_toggles_one_switch Installation.all_up Installation.db 1
           Installation.switch1 "sb1" Installation.board1 true 200);
    try reflexivity.
  simpl. lia.
Defined.

(** * The route and the service side by side *)

Lemma route_update_entry_sim k errors1 errors2 n v db :
  v = "ON" \/ v = "OFF" ->
  fst (switch_routes.update_entry k errors1 (n, v) db)
  = fst (update_entry k errors2 (n, v) db)
  /\ same_ending (snd (switch_routes.update_entry k errors1 (n, v) db))
       (snd (update_entry k errors2 (n, v) db)).
Proof.
  intros Hv.
  unfold switch_routes.update_entry, update_entry, mbind, lift, read, ret, throw.
  rewrite route_nicknames.
  destruct (index switchs_nicknames n) as [i|e]; [|now split].
  destruct (switch_crud.get_switch db None (Some k) (Some (i + 1)))
    as [[s|]|e]; try now split.
  destruct Hv as [-> | ->]; cbn.
  - now destruct (switch_crud.toggle (Switch.id s) true db) as [db1 [r|e]].
  - now destruct (switch_crud.toggle (Switch.id s) false db) as [db1 [r|e]].
Qed.

Lemma route_update_entries_sim k items errors1 errors2 db :
  (forall n v, In (n, v) items -> v = "ON" \/ v = "OFF") ->
  fst (switch_routes.update_entries k items errors1 db)
  = fst (update_entries k items errors2 db)
  /\ same_ending (snd (switch_routes.update_entries k items errors1 db))
       (snd (update_entries k items errors2 db)).
Proof.
  revert errors1 errors2 db.
  induction items as [|[n v] items IH]; intros errors1 errors2 db Hv.
  - now split.
  - rewrite route_update_entries_cons, update_entries_cons.
    destruct (route_update_entry_sim k errors1 errors2 n v db
                (Hv n v (or_introl eq_refl))) as [Hs He].
    destruct (switch_routes.update_entry k errors1 (n, v) db) as [db1 r1].
    destruct (update_entry k errors2 (n, v) db) as [db2 r2].
    cbn [fst snd] in Hs, He. subst db2.
    destruct r1 as [e1|x1], r2 as [e2|x2]; try contradiction.
    + apply IH. intros n' v' Hin. apply (Hv n' v'). now right.
    + now split.
Qed.

(** The loop of the route over a payload and the reconciliation of the
    service over the successful results of that payload. *)
Lemma dispatch_loop_sim post_route post db0 (g : Grouped) :
  (forall endpoint payload,
     responds (post_route endpoint payload) = responds (post endpoint payload)) ->
  NoDup (keys g) ->
  (forall k p n v, In (k, p) g -> In (n, v) p -> v = "ON" \/ v = "OFF") ->
  forall (g2 : Grouped) results2 errors1 errors2 db,
    (forall k p, In (k, p) g2 -> In (k, p) g) ->
    map (fun '(k, p) => snd (send_switchboard_request post db0 k p)) g2
    = map Ok results2 ->
    switchboards db = switchboards db0 ->
    fst (fst (switch_routes.dispatch_loop post_route g2 errors1 db))
    = fst (update_results g (filter is_success results2) errors2 db)
    /\ same_ending (snd (switch_routes.dispatch_loop post_route g2 errors1 db))
         (snd (update_results g (filter is_success results2) errors2 db)).
Proof.
  intros Hagree Hnd Hv.
  induction g2 as [|[k p] g2 IH]; intros [|r0 results2] errors1 errors2 db
    Hsub Hres Hb; try discriminate.
  - now split.
  - cbn [map] in Hres. injection Hres as Hr0 Hres.
    destruct (send_switchboard_request post db0 k p) as [sent0 x] eqn:E.
    cbn [snd] in Hr0. subst x.
    apply send_switchboard_request_dispatch in E as ((Hk & _ & b & Hb0 & Hp) & _).
    cbn [fst snd] in Hk, Hb0, Hp.
    cbn [switch_routes.dispatch_loop].
    rewrite (get_switchboard_ext db db0 _ (eq_sym Hb)) in Hb0.
    rewrite Hb0.
    pose proof (get_switchboard_Some _ _ _ Hb0) as [[= Hid] _].
    assert (forall k' p', In (k', p') g2 -> In (k', p') g) as Hsub'
        by (intros k' p' Hin; apply Hsub; now right).
    specialize (Hagree ("http://" ++ Switchboard.ip_address b ++ "/control") p).
    destruct (post _ p) as [c|e];
      destruct (post_route _ p) as [c'|e']; try discriminate Hagree.
    + destruct Hp as (Hs & _).
      assert (is_success r0 = true) as Hok
          by (unfold is_success; now rewrite Hs).
      cbn [filter]. rewrite Hok, update_results_cons, Hk.
      rewrite (In_dict_get g k p Hnd (Hsub k p (or_introl eq_refl))).
      rewrite <- Hid.
      destruct (route_update_entries_sim k p errors1 errors2 db
                  (fun n v => Hv k p n v (Hsub k p (or_introl eq_refl))))
        as [Hses Hend].
      pose proof (route_update_entries_step k p errors1 db) as Hstep.
      destruct (switch_routes.update_entries k p errors1 db) as [db1 r1].
      destruct (update_entries k p errors2 db) as [db2 r2].
      cbn [fst snd] in Hses, Hend. subst db2.
      destruct (Hstep db1 r1 eq_refl) as (_ & Hb1 & _).
      destruct r1 as [e1|x1], r2 as [e2|x2]; try contradiction.
      * specialize (IH results2 e1 e2 db1 Hsub' Hres
                      (eq_trans Hb1 Hb)).
        destruct (switch_routes.dispatch_loop post_route g2 e1 db1)
          as [[db3 sent3] r3].
        exact IH.
      * now split.
    + destruct Hp as (Hs & _).
      assert (is_success r0 = false) as Hko
          by (unfold is_success; now rewrite Hs).
      cbn [filter]. rewrite Hko.
      specialize (IH results2
                    (append errors1
                       ("Request error for " ++ Switchboard.ip_address b
                        ++ " : " ++ e')) errors2 db Hsub' Hres Hb).
      destruct (switch_routes.dispatch_loop post_route g2 _ db)
        as [[db3 sent3] r3].
      exact IH.
Qed.

Lemma filter_all {A} (f : A -> bool) l :
  (forall x, In x l -> f x = true) -> filter f l = l.
Proof.
  induction l as [|a l IH]; intros H; simpl; [reflexivity|].
  rewrite (H a (or_introl eq_refl)), IH; auto.
  intros x Hx. apply H. now right.
Qed.

(** X21: the route posts with its own HTTP client ([requests], no
    timeout) and the service with another ([httpx], 5 s timeout), so each
    has its network.  For a batch that names no locked switch, when the
    two clients succeed on the same POSTs (for every endpoint and body,
    both are accepted or both fail, with whatever status and error
    text), the toggle route and the service orchestrator, run on the same
    session, leave the same session behind and end the same way: both
    return, or both raise the same exception. *)
Theorem route_and_service_write_the_same
    post_route post_service db request_data :
  (forall it, In it (switch_schema.switchs request_data) ->
              not_locked db it = true) ->
  (forall endpoint payload,
     responds (post_route endpoint payload)
     = responds (post_service endpoint payload)) ->
  fst (fst (switch_routes.toggle_switchs post_route db request_data))
  = fst (fst (process_toggle_request post_service db request_data))
  /\ same_ending (snd (switch_routes.toggle_switchs post_route db request_data))
       (snd (process_toggle_request post_service db request_data)).
Proof.
  intros Hnl Hagree.
  pose proof (group_loop_payload db (switch_schema.switchs request_data)
                [] [] []) as Heq.
  rewrite (filter_all _ _ Hnl) in Heq.
  unfold switch_routes.toggle_switchs, process_toggle_request,
    build_switchs_by_switchboard.
  destruct (switch_routes.group_loop db _ ([], [])) as [[g errors1]|e1];
    destruct (build_loop db _ ([], [])) as [[g' errors2]|e2] eqn:B;
    simpl in Heq; try discriminate.
  2:{ injection Heq as <-. now split. }
  injection Heq as <-.
  pose proof (build_loop_well_grouped _ _ _ _ _ _ (well_grouped_empty db) B)
    as [Hnd Hall].
  destruct (resolved_tasks_return post_service db g) as [results Hres].
  { intros k p Hin. now destruct (Hall k p Hin). }
  pose proof (send_multiple_of_results post_service db g results Hres) as Hsnd.
  destruct (send_multiple_switchboard_requests post_service db g) as [sent r].
  cbn [snd] in Hsnd. subst r.
  destruct (dispatch_loop_sim post_route post_service db g Hagree Hnd) with
      (g2 := g) (results2 := results) (errors1 := errors1)
      (errors2 := @nil string) (db := db) as [Hs He]; auto.
  { intros k p n v Hp Hnv. destruct (Hall k p Hp) as (_ & _ & Hp').
    now destruct (Hp' n v Hnv). }
  unfold update_database.
  destruct (switch_routes.dispatch_loop post_route g errors1 db)
    as [[db1 sent1] r1].
  destruct (update_results g (filter is_success results) [] db)
    as [db2 r2].
  cbn [fst snd] in Hs, He |- *. subst db2.
  destruct r1, r2; try contradiction; now split.
Qed.

Lemma route_and_service_write_the_same_witness :
  let post_route (endpoint : string) (_ : list (string * string)) :=
    if String.eqb endpoint "http://10.0.0.1/control"
    then Responded 204 else Failed "connection refused" in
  fst (fst (switch_routes.toggle_switchs post_route
              Installation.db_twins
              (Installation.request [(1, true); (3, true); (7, false)])))
  = fst (fst (process_toggle_request Installation.only_board1
                Installation.db_twins
                (Installation.request [(1, true); (3, true); (7, false)]))).
Proof.
  cbn zeta.
  refine (proj1 (route_and_service_write_the_same _
                   Installation.only_board1
                   Installation.db_twins
                   (Installation.request [(1, true); (3, true); (7, false)])
                   _ _)).
  - intros it [<- | [<- | [<- | []]]]; reflexivity.
  - intros endpoint payload. unfold Installation.only_board1.
    now destruct (String.eqb endpoint "http://10.0.0.1/control").
Defined.
